(** * Store-and-forward telemetry pipeline: agent.py, server.py, process_zipped_data.py

    A shallow embedding of the synchronisation core of the repository:
    the agent's spool directory and send cycle, the server's envelope
    dispatch and worker pool, and the machine-identity derivation that
    server.py and process_zipped_data.py both carry. *)

From Stdlib Require Import ZArith Ascii String List Floats.
From stdpp Require Import base gmap sets list strings pretty sorting.

Open Scope string_scope.
Open Scope nat_scope.
Open Scope list_scope.

(** ** Python values as they come out of [json.loads] *)

Module Py.

#[warnings="-register-all"]
Inductive json : Type :=
  | JNull
  | JBool (b : bool)
  | JInt (z : Z)
  | JFloat (f : float)
  | JStr (s : string)
  | JArr (xs : list json)
  | JObj (kv : list (string * json)).

(** Exceptions that the modelled code can raise and that its handlers
    tell apart. [ValidationError] is pydantic's. *)
Inductive py_exception : Type :=
  | AttributeError
  | TypeError
  | KeyError
  | IndexError
  | ValidationError.

Inductive result (A : Type) : Type :=
  | Ok (a : A)
  | Raise (e : py_exception).
Arguments Ok {A} a.
Arguments Raise {A} e.

#[global] Instance result_bind : MBind result := λ A B k r,
  match r with
  | Ok a => k a
  | Raise e => Raise e
  end.

(** What the Python runtime and the libraries supply and the repository
    only calls: the digest of hashlib, the text of a float or of a
    container inside an f-string, the text of an exception, MongoDB's
    reading of a filter value that is itself a document (an operator
    expression) against a stored id, and whether pymongo and the server
    take a document for storage (pymongo refuses, for one, an integer
    that does not fit in 8 bytes). Strings are kept as their UTF-8
    bytes, so [encode('utf-8')] is the identity on them. *)
Class Runtime : Type := {
  md5_hexdigest : string → string;
  float_str : float → string;
  container_str : json → string;
  exception_str : py_exception → string;
  filter_matches : list (string * json) → string → bool;
  bson_accepts : json → bool;
}.

(** Key lookup in a dict kept as its items in insertion order. *)
Fixpoint dict_lookup (k : string) (kv : list (string * json)) : option json :=
  match kv with
  | [] => None
  | (k', v) :: rest => if String.eqb k k' then Some v else dict_lookup k rest
  end.

(** [d[k] = v] on a dict: replaces in place, else appends. *)
Fixpoint dict_set (k : string) (v : json) (kv : list (string * json))
  : list (string * json) :=
  match kv with
  | [] => [(k, v)]
  | (k', v') :: rest =>
      if String.eqb k k' then (k', v) :: rest else (k', v') :: dict_set k v rest
  end.

(** [d.get(k, default)]: only dicts have [get]. *)
Definition get (d : json) (k : string) (default : json) : result json :=
  match d with
  | JObj kv => Ok (match dict_lookup k kv with Some v => v | None => default end)
  | _ => Raise AttributeError
  end.

(** Truthiness, as [if x] / [not x] read it. *)
Definition truthy (v : json) : bool :=
  match v with
  | JNull => false
  | JBool b => b
  | JInt z => negb (Z.eqb z 0)
  | JFloat f => negb (PrimFloat.eqb f 0%float)
  | JStr s => negb (String.eqb s "")
  | JArr xs => match xs with [] => false | _ => true end
  | JObj kv => match kv with [] => false | _ => true end
  end.

(** [x[0]]. *)
Definition index0 (v : json) : result json :=
  match v with
  | JArr (x :: _) => Ok x
  | JArr [] => Raise IndexError
  | JStr (String c _) => Ok (JStr (String c ""))
  | JStr "" => Raise IndexError
  | JObj _ => Raise KeyError
  | _ => Raise TypeError
  end.

(** [f"{v}"]. *)
Definition fstr `{Runtime} (v : json) : string :=
  match v with
  | JNull => "None"
  | JBool true => "True"
  | JBool false => "False"
  | JInt z => pretty z
  | JFloat f => float_str f
  | JStr s => s
  | JArr _ | JObj _ => container_str v
  end.

(** [v == s] for a string literal [s]. *)
Definition eq_str (v : json) (s : string) : bool :=
  match v with
  | JStr s' => String.eqb s' s
  | _ => false
  end.

Fixpoint contains_substring (needle hay : string) : bool :=
  if String.prefix needle hay then true
  else match hay with
       | "" => false
       | String _ rest => contains_substring needle rest
       end.

(** [s in v] for a string literal [s]: key of a dict, element of a
    list, substring of a string; anything else is not iterable. *)
Definition contains (s : string) (v : json) : result bool :=
  match v with
  | JObj kv => Ok (bool_decide (is_Some (dict_lookup s kv)))
  | JArr xs => Ok (existsb (λ x, eq_str x s) xs)
  | JStr hay => Ok (contains_substring s hay)
  | _ => Raise TypeError
  end.

Definition is_dict (v : json) : bool :=
  match v with JObj _ => true | _ => false end.
Definition is_list (v : json) : bool :=
  match v with JArr _ => true | _ => false end.
Definition is_str (v : json) : bool :=
  match v with JStr _ => true | _ => false end.

End Py.
Import Py.

(** ** server.py *)

Module MonitoringServer.

Definition MAX_CONCURRENT_CONNECTIONS : nat := 50.

(** The three MongoDB collections. The registry has a unique index on
    [machine_id] and only ever receives string ids, so it is a map keyed
    by them; [static_data] is only written by upsert on [machine_id];
    [variable_data] is append-only. A [datetime] is kept as the
    milliseconds that BSON stores of it. A write whose document pymongo
    or the server refuses raises inside the function that makes it,
    which logs the error and returns [False]; a lookup completes. *)
Record machine_record : Type := {
  hostname : json;
  os_name : json;
  first_seen : Z;
  last_seen : Z;
  status : string;
}.

Record static_doc : Type := {
  sd_timestamp : Z;
  sd_fields : list (string * json);
}.

Record variable_doc : Type := {
  vd_machine_id : json;
  vd_timestamp : Z;
  vd_fields : list (string * json);
}.

Record database : Type := {
  machine_ids_collection : gmap string machine_record;
  static_collection : gmap string static_doc;
  variable_collection : list variable_doc;
}.

Definition empty_database : database :=
  {| machine_ids_collection := ∅; static_collection := ∅;
     variable_collection := [] |}.

(** The places that read [datetime.now()] while an envelope is
    handled: [last_seen] of the registry record, [first_seen] of a new
    record, [timestamp] of a stored document. A clock gives the value
    read at each of them. *)
Inductive clock_read : Type :=
  | LastSeen
  | FirstSeen
  | Timestamp.

Section Server.
Context `{Runtime}.

(** [generate_machine_id]: every exception inside the [try] ends in
    [return None]. *)
Definition generate_machine_id (static_data : json) : option string :=
  let body :=
    os_info ← get static_data "os" (JObj []);
    cpu_info ← get static_data "cpu" (JObj []);
    bios_info ← get static_data "bios_carte_mere" (JObj []);
    memoire_info ← get static_data "memoire" (JObj []);
    users ← get static_data "utilisateurs_connectes" (JArr []);
    username ← (if truthy users
                then (u ← index0 users; get u "username" (JStr ""))
                else Ok (JStr ""));
    hostname ← get os_info "hostname" (JStr "");
    nom ← get os_info "nom" (JStr "");
    release ← get os_info "release" (JStr "");
    version ← get os_info "version" (JStr "");
    coeurs ← get cpu_info "coeurs_logiques" (JInt 0);
    fmin ← (fr ← get cpu_info "frequence" (JObj []); get fr "min" (JInt 0));
    fmax ← (fr ← get cpu_info "frequence" (JObj []); get fr "max" (JInt 0));
    bios_fab ← (b ← get bios_info "BIOS" (JObj []);
                get b "Fabricant" (JStr ""));
    bios_ver ← (b ← get bios_info "BIOS" (JObj []);
                get b "Version" (JStr ""));
    cm_fab ← (c ← get bios_info "Carte mère" (JObj []);
              get c "Fabricant" (JStr ""));
    cm_mod ← (c ← get bios_info "Carte mère" (JObj []);
              get c "Modèle" (JStr ""));
    ram ← (r ← get memoire_info "ram" (JObj []); get r "total" (JStr ""));
    let unique_string :=
      fstr hostname +:+ fstr nom +:+ fstr release +:+ fstr version +:+
      fstr username +:+ fstr coeurs +:+ fstr fmin +:+ fstr fmax +:+
      fstr bios_fab +:+ fstr bios_ver +:+ fstr cm_fab +:+ fstr cm_mod +:+
      fstr ram in
    Ok (md5_hexdigest unique_string)
  in
  match body with
  | Ok id => Some id
  | Raise _ => None
  end.

(** The record that the filter [{'machine_id': v}] selects in the
    registry. The stored ids are strings: a string selects the record
    with that id, a document is an operator expression and selects the
    first record it matches, and no other value equals a stored id. *)
Definition select_machine (db : database) (v : json) : option string :=
  match v with
  | JStr id => if decide (is_Some (machine_ids_collection db !! id))
               then Some id else None
  | JObj filter =>
      fst <$> List.find (λ '(id, _), filter_matches filter id)
                (map_to_list (machine_ids_collection db))
  | _ => None
  end.

(** [find_one({'machine_id': v})]. *)
Definition find_one_machine (db : database) (v : json) : option machine_record :=
  id ← select_machine db v; machine_ids_collection db !! id.

(** What [register_machine] hands to [update_one] or [insert_one], the
    dates apart. *)
Definition machine_document (machine_id : string) (h n : json) : json :=
  JObj [("machine_id", JStr machine_id); ("hostname", h); ("os_name", n);
        ("status", JStr "active")].

(** [register_machine]: returns [False] when building the record
    raises or the write is refused, otherwise updates or inserts and
    returns [True]. *)
Definition register_machine (now : clock_read → Z) (db : database)
    (machine_id : string) (static_data : json) : bool * database :=
  let fields :=
    os1 ← get static_data "os" (JObj []);
    h ← get os1 "hostname" (JStr "Unknown");
    os2 ← get static_data "os" (JObj []);
    n ← get os2 "nom" (JStr "Unknown");
    Ok (h, n) in
  match fields with
  | Raise _ => (false, db)
  | Ok (h, n) =>
      if negb (bson_accepts (machine_document machine_id h n))
      then (false, db)
      else
        let first :=
          match machine_ids_collection db !! machine_id with
          | Some existing => first_seen existing
          | None => now FirstSeen
          end in
        let machine_record :=
          {| hostname := h; os_name := n; first_seen := first;
             last_seen := now LastSeen; status := "active" |} in
        (true,
         {| machine_ids_collection :=
              <[machine_id := machine_record]> (machine_ids_collection db);
            static_collection := static_collection db;
            variable_collection := variable_collection db |})
  end.

Definition gets (data : json) (keys : list (string * json))
  : result (list (string * json)) :=
  foldr (λ '(k, d) acc, v ← get data k d; rest ← acc; Ok ((k, v) :: rest))
        (Ok []) keys.

(** The entries that [save_static_data] and [save_variable_data] read
    from the content, with their defaults. *)
Definition static_keys : list (string * json) :=
  [("timestamp", JStr ""); ("os", JObj []); ("type_machine", JInt 0);
   ("cpu", JObj []); ("memoire", JObj []); ("disque", JObj []);
   ("adresse_mac", JStr ""); ("resolution_ecran", JStr "");
   ("gpu", JObj []); ("interfaces_reseau", JArr []);
   ("bios_carte_mere", JObj []); ("utilisateurs_connectes", JArr []);
   ("partitions_disque", JArr []); ("peripheriques_usb", JArr []);
   ("battery_initial", JObj []); ("heure_demarrage_systeme", JStr "")].

Definition variable_keys : list (string * json) :=
  [("timestamp", JStr ""); ("cpu", JObj []); ("memoire", JObj []);
   ("disque", JObj []); ("gpu_utilisation", JObj []);
   ("reseau", JObj []); ("connexion_internet", JBool false);
   ("nombre_processus", JInt 0); ("battery", JObj []);
   ("uptime", JStr ""); ("seuil_atteint", JObj [])].

(** A document as it goes to the database, its date apart: the id, then
    the entries read from the content, the content's [timestamp] under
    [data_received] and the others under their own names. *)
Definition document (machine_id : json) (fields : list (string * json))
  : json :=
  JObj (("machine_id", machine_id)
        :: map (λ '(k, v),
                  (if String.eqb k "timestamp" then "data_received" else k, v))
               fields).

(** [save_static_data]: upsert of the document under [machine_id]. *)
Definition save_static_data (now : clock_read → Z) (db : database)
    (machine_id : string) (data : json) : bool * database :=
  match gets data static_keys with
  | Raise _ => (false, db)
  | Ok fields =>
      if negb (bson_accepts (document (JStr machine_id) fields))
      then (false, db)
      else
        (true,
         {| machine_ids_collection := machine_ids_collection db;
            static_collection :=
              <[machine_id := {| sd_timestamp := now Timestamp;
                                 sd_fields := fields |}]>
                (static_collection db);
            variable_collection := variable_collection db |})
  end.

(** [save_variable_data]: [insert_one] of the sample, then [update_one]
    of [last_seen] on the registry record with that id, if any; a
    refused [insert_one] ends the function before the update. *)
Definition save_variable_data (now : clock_read → Z) (db : database)
    (machine_id : json) (data : json) : bool * database :=
  match gets data variable_keys with
  | Raise _ => (false, db)
  | Ok fields =>
      if negb (bson_accepts (document machine_id fields))
      then (false, db)
      else
        let variable_doc :=
          {| vd_machine_id := machine_id; vd_timestamp := now Timestamp;
             vd_fields := fields |} in
        let touch (r : machine_record) :=
          {| hostname := hostname r; os_name := os_name r;
             first_seen := first_seen r; last_seen := now LastSeen;
             status := status r |} in
        (true,
         {| machine_ids_collection :=
              match select_machine db machine_id with
              | Some id => alter touch id (machine_ids_collection db)
              | None => machine_ids_collection db
              end;
            static_collection := static_collection db;
            variable_collection := variable_collection db ++ [variable_doc] |})
  end.

(** The pydantic model [StaticData], built from the items of
    [content]: the six required fields with the
    annotated types; other keys are ignored. *)
Definition StaticData (content : json) : result unit :=
  match content with
  | JObj kv =>
      let has (p : json → bool) (k : string) :=
        match dict_lookup k kv with Some v => p v | None => false end in
      if has is_dict "os" && has is_dict "cpu" && has is_dict "memoire"
         && has is_dict "bios_carte_mere"
         && has is_list "utilisateurs_connectes" && has is_str "adresse_mac"
      then Ok ()
      else Raise ValidationError
  | _ => Raise TypeError
  end.

Definition error_response (message : string) : json :=
  JObj [("status", JStr "error"); ("message", JStr message)].

(** [process_data]. *)
Definition process_data (now : clock_read → Z) (db : database) (data : json)
  : json * database :=
  let body : result (json * database) :=
    version ← get data "version" JNull;
    if negb (eq_str version "1.0")
    then Ok (error_response "Invalid data version", db)
    else
      content ← get data "content" JNull;
      contains "os" content ≫= λ is_static : bool,
      if is_static then
        _ ← StaticData content;
        match generate_machine_id content with
        | None => Ok (error_response "Failed to register machine", db)
        | Some machine_id =>
            if negb (truthy (JStr machine_id))
            then Ok (error_response "Failed to register machine", db)
            else
              let '(registered, db1) := register_machine now db machine_id content in
              if negb registered
              then Ok (error_response "Failed to register machine", db1)
              else
                let '(saved, db2) := save_static_data now db1 machine_id content in
                if negb saved
                then Ok (error_response "Failed to save static data", db2)
                else Ok (JObj [("status", JStr "success");
                               ("machine_id", JStr machine_id);
                               ("message", JStr "Static data registered")],
                         db2)
        end
      else
        contains "machine_id" data ≫= λ has_id : bool,
        if has_id then
          machine_id ← get data "machine_id" JNull;
          match find_one_machine db machine_id with
          | None => Ok (error_response "RESEND_STATIC_DATA", db)
          | Some _ =>
              let '(saved, db1) := save_variable_data now db machine_id content in
              if negb saved
              then Ok (error_response "Failed to save variable data", db1)
              else Ok (JObj [("status", JStr "success");
                             ("message", JStr "Variable data saved")],
                       db1)
          end
        else Ok (error_response "Invalid data format", db)
  in
  match body with
  | Ok r => r
  | Raise ValidationError => (error_response "Invalid data format", db)
  | Raise e => (error_response (exception_str e), db)
  end.

End Server.

(** *** The worker pool around [handle_client]

    [start_server] submits one [handle_client] call per accepted
    connection to a [ThreadPoolExecutor] of [MAX_CONCURRENT_CONNECTIONS]
    threads: a call runs when a thread takes it from the executor's work
    queue, and at most that many calls run at a time. A call goes
    through the locked increment and test, the frame loop, and the
    [finally] block (close, then locked decrement). *)

Inductive phase : Type :=
  | Started    (* taken by a pool thread, before [with self.lock] *)
  | Serving    (* admitted, in the [recv] loop *)
  | Rejected   (* sent 'Too many connections', returning *)
  | Leaving    (* left the [recv] loop, entering [finally] *)
  | Closed.    (* socket closed, counter not yet decremented *)

(** The server as its threads see it: the shared counter, the
    executor's queue of connections whose call has not started, the
    calls in progress, what has been sent on each connection, the log of
    'Limite de connexions atteinte, rejet de ...', the sockets closed,
    and the database. *)
Record pool : Type := {
  active_connections : nat;
  work_queue : list nat;
  running : list (nat * phase);
  outbox : list (nat * json);
  rejected : list nat;
  closed_sockets : list nat;
  store : database;
}.

Definition initial_pool (db : database) : pool :=
  {| active_connections := 0; work_queue := []; running := [];
     outbox := []; rejected := []; closed_sockets := []; store := db |}.

Inductive event : Type :=
  | Accept (c : nat)     (* [accept] and [executor.submit] *)
  | Start                (* a free thread takes the next call *)
  | Enter (c : nat)      (* the locked increment and test *)
  | Frame (c : nat) (msg : option json) (now : clock_read → Z)
                         (* one line received; [None]: not JSON *)
  | Hangup (c : nat)     (* empty [recv] or socket error *)
  | Close (c : nat)      (* [client_socket.close()] *)
  | Release (c : nat).   (* the locked decrement; the call returns *)

(** Moves the first call of connection [c] whose phase satisfies [from]
    to phase [to], or takes it out of the pool. *)
Fixpoint move (c : nat) (from : phase → bool) (to : option phase)
    (l : list (nat * phase)) : option (list (nat * phase)) :=
  match l with
  | [] => None
  | (c', p) :: rest =>
      if Nat.eqb c c' && from p
      then Some (match to with Some q => (c', q) :: rest | None => rest end)
      else l' ← move c from to rest; Some ((c', p) :: l')
  end.

Definition is_phase (q : phase) (p : phase) : bool :=
  match q, p with
  | Started, Started | Serving, Serving | Rejected, Rejected
  | Leaving, Leaving | Closed, Closed => true
  | _, _ => false
  end.

Definition too_many_connections : json :=
  JObj [("status", JStr "error"); ("message", JStr "Too many connections")].

Section Pool.
Context `{Runtime}.

Definition step (e : event) (s : pool) : option pool :=
  match e with
  | Accept c =>
      Some {| active_connections := active_connections s;
              work_queue := work_queue s ++ [c];
              running := running s; outbox := outbox s;
              rejected := rejected s;
              closed_sockets := closed_sockets s; store := store s |}
  | Start =>
      match work_queue s with
      | c :: queue =>
          if decide (length (running s) < MAX_CONCURRENT_CONNECTIONS)
          then Some {| active_connections := active_connections s;
                       work_queue := queue;
                       running := running s ++ [(c, Started)];
                       outbox := outbox s;
                       rejected := rejected s;
              closed_sockets := closed_sockets s; store := store s |}
          else None
      | [] => None
      end
  | Enter c =>
      let n := S (active_connections s) in
      if decide (MAX_CONCURRENT_CONNECTIONS < n)
      then
        l ← move c (is_phase Started) (Some Rejected) (running s);
        Some {| active_connections := n; work_queue := work_queue s;
                running := l;
                outbox := outbox s ++ [(c, too_many_connections)];
                rejected := rejected s ++ [c];
                closed_sockets := closed_sockets s; store := store s |}
      else
        l ← move c (is_phase Started) (Some Serving) (running s);
        Some {| active_connections := n; work_queue := work_queue s;
                running := l; outbox := outbox s;
                rejected := rejected s;
              closed_sockets := closed_sockets s; store := store s |}
  | Frame c msg now =>
      match move c (is_phase Serving) (Some Serving) (running s) with
      | None => None
      | Some _ =>
          let '(response, db) :=
            match msg with
            | Some json_data => process_data now (store s) json_data
            | None => (error_response "Invalid JSON", store s)
            end in
          Some {| active_connections := active_connections s;
                  work_queue := work_queue s; running := running s;
                  outbox := outbox s ++ [(c, response)];
                  rejected := rejected s;
                  closed_sockets := closed_sockets s; store := db |}
      end
  | Hangup c =>
      l ← move c (is_phase Serving) (Some Leaving) (running s);
      Some {| active_connections := active_connections s;
              work_queue := work_queue s; running := l; outbox := outbox s;
              rejected := rejected s;
              closed_sockets := closed_sockets s; store := store s |}
  | Close c =>
      l ← move c (λ p, is_phase Rejected p || is_phase Leaving p) (Some Closed)
             (running s);
      Some {| active_connections := active_connections s;
              work_queue := work_queue s; running := l; outbox := outbox s;
              rejected := rejected s;
              closed_sockets := closed_sockets s ++ [c]; store := store s |}
  | Release c =>
      l ← move c (is_phase Closed) None (running s);
      Some {| active_connections := pred (active_connections s);
              work_queue := work_queue s; running := l; outbox := outbox s;
              rejected := rejected s;
              closed_sockets := closed_sockets s; store := store s |}
  end.

(** A schedule of events, run from a state; [None] when some event is
    not enabled where it stands. *)
Fixpoint run (es : list event) (s : pool) : option pool :=
  match es with
  | [] => Some s
  | e :: rest => s' ← step e s; run rest s'
  end.

End Pool.

(** *** The frame loop of [handle_client]

    The bytes received on a connection are gathered in [data]; every
    complete line is taken off its front, decoded and answered. *)

Definition LF : string := String "010"%char "".

(** [b'\n' in data]. *)
Fixpoint has_newline (data : string) : bool :=
  match data with
  | "" => false
  | String c rest => Ascii.eqb c "010"%char || has_newline rest
  end.

(** [data.partition(b'\n')]: what is before the first newline, the
    separator, what is after; the whole, and two empty strings, when
    there is no newline. *)
Fixpoint partition (data : string) : string * string * string :=
  match data with
  | "" => ("", "", "")
  | String c rest =>
      if Ascii.eqb c "010"%char then ("", LF, rest)
      else let '(head, sep, tail) := partition rest in
           (String c head, sep, tail)
  end.

(** What [json.loads(message.decode('utf-8'))] gives: a value, a
    [json.JSONDecodeError], or another exception with its text. *)
Inductive loaded : Type :=
  | Loaded (json_data : json)
  | JSONDecodeError
  | OtherError (text : string).

(** One connection as its worker holds it: the buffer, the number of
    lines answered so far, the replies sent, and the database. *)
Record connection : Type := {
  data : string;
  handled : nat;
  sent : list json;
  db : database;
}.

Section Frames.
Context `{Runtime}.
(** The JSON reader, and the clock while the [n]-th line of the
    connection is answered. *)
Variable loads : string → loaded.
Variable clock : nat → clock_read → Z.

(** The body of the inner loop for one [message]: the reply is sent
    whatever the outcome. *)
Definition answer (message : string) (c : connection) : connection :=
  let '(response, db') :=
    match loads message with
    | Loaded json_data => process_data (clock (handled c)) (db c) json_data
    | JSONDecodeError => (error_response "Invalid JSON", db c)
    | OtherError text => (error_response text, db c)
    end in
  {| data := data c; handled := S (handled c);
     sent := sent c ++ [response]; db := db' |}.

(** [while b'\n' in data: message, _, data = data.partition(b'\n'); ...]. *)
Fixpoint drain (fuel : nat) (c : connection) : connection :=
  if has_newline (data c) then
    match fuel with
    | 0 => c
    | S fuel' =>
        let '(message, _, rest) := partition (data c) in
        drain fuel'
          (answer message
             {| data := rest; handled := handled c; sent := sent c;
                db := db c |})
    end
  else c.

(** One round of the outer loop on a packet that is not empty:
    [data += packet], then the inner loop, which takes off at least one
    byte per round. *)
Definition on_packet (c : connection) (packet : string) : connection :=
  let c := {| data := data c +:+ packet; handled := handled c;
              sent := sent c; db := db c |} in
  drain (String.length (data c)) c.

(** [while True: packet = recv(4096); if not packet: break; ...], on
    the packets as they arrive. *)
Fixpoint recv_loop (c : connection) (packets : list string) : connection :=
  match packets with
  | [] => c
  | packet :: later =>
      if String.eqb packet "" then c
      else recv_loop (on_packet c packet) later
  end.

End Frames.

End MonitoringServer.

(** ** process_zipped_data.py: identity derivation *)

Module ZipDataProcessor.
Section Identity.
Context `{Runtime}.

(** [generate_machine_id], as written in process_zipped_data.py. *)
Definition generate_machine_id (static_data : json) : option string :=
  let body :=
    os_info ← get static_data "os" (JObj []);
    cpu_info ← get static_data "cpu" (JObj []);
    bios_info ← get static_data "bios_carte_mere" (JObj []);
    memoire_info ← get static_data "memoire" (JObj []);
    users ← get static_data "utilisateurs_connectes" (JArr []);
    username ← (if truthy users
                then (u ← index0 users; get u "username" (JStr ""))
                else Ok (JStr ""));
    hostname ← get os_info "hostname" (JStr "");
    nom ← get os_info "nom" (JStr "");
    release ← get os_info "release" (JStr "");
    version ← get os_info "version" (JStr "");
    coeurs ← get cpu_info "coeurs_logiques" (JInt 0);
    fmin ← (fr ← get cpu_info "frequence" (JObj []); get fr "min" (JInt 0));
    fmax ← (fr ← get cpu_info "frequence" (JObj []); get fr "max" (JInt 0));
    bios_fab ← (b ← get bios_info "BIOS" (JObj []);
                get b "Fabricant" (JStr ""));
    bios_ver ← (b ← get bios_info "BIOS" (JObj []);
                get b "Version" (JStr ""));
    cm_fab ← (c ← get bios_info "Carte mère" (JObj []);
              get c "Fabricant" (JStr ""));
    cm_mod ← (c ← get bios_info "Carte mère" (JObj []);
              get c "Modèle" (JStr ""));
    ram ← (r ← get memoire_info "ram" (JObj []); get r "total" (JStr ""));
    let unique_string :=
      fstr hostname +:+ fstr nom +:+ fstr release +:+ fstr version +:+
      fstr username +:+ fstr coeurs +:+ fstr fmin +:+ fstr fmax +:+
      fstr bios_fab +:+ fstr bios_ver +:+ fstr cm_fab +:+ fstr cm_mod +:+
      fstr ram in
    Ok (md5_hexdigest unique_string)
  in
  match body with
  | Ok id => Some id
  | Raise _ => None
  end.

End Identity.
End ZipDataProcessor.

(** ** agent.py *)

Module Agent.

Definition DATA_DIR : string := "data".
Definition STORAGE_LIMIT : Z := 200 * 1024 * 1024.
Definition FILES_PER_BATCH : nat := 5.
Definition BATCH_PAUSE : Z := 3.
Definition SEND_INTERVAL : Z := 30.
Definition COLLECTION_INTERVAL : Z := 2.

(** What [gzip.open] followed by [json.loads] finds in a spool file. *)
Inductive file_body : Type :=
  | Corrupt
  | Parsed (content : json).

Record spool_file : Type := {
  getsize : Z;
  body : file_body;
}.

(** The agent's working directory: the entries of [DATA_DIR] by name,
    and the text of [ID_FILE] ([None] when it is absent or cannot be
    read as text: [get_machine_id] answers [None] in both cases).
    [data_dir_writable] and [id_file_writable] say whether opening a
    file for writing succeeds there: the functions that write catch the
    failure themselves. A file that is in the directory can be read and
    removed. *)
Record filesystem : Type := {
  data_dir : gmap string spool_file;
  data_dir_writable : bool;
  id_file : option string;
  id_file_writable : bool;
}.

(** [os.path.exists(f"{DATA_DIR}/{name}")]. *)
Definition exists_in_data_dir (fs : filesystem) (name : string) : bool :=
  bool_decide (is_Some (data_dir fs !! name)).

(** [os.remove]. *)
Definition remove (name : string) (fs : filesystem) : filesystem :=
  {| data_dir := delete name (data_dir fs);
     data_dir_writable := data_dir_writable fs; id_file := id_file fs;
     id_file_writable := id_file_writable fs |}.

(** [gzip.open(..., 'wt')] and [json.dump], where the directory can be
    written. *)
Definition write (name : string) (f : spool_file) (fs : filesystem) : filesystem :=
  {| data_dir := <[name := f]> (data_dir fs);
     data_dir_writable := data_dir_writable fs; id_file := id_file fs;
     id_file_writable := id_file_writable fs |}.

(** [str.strip()] removes from both ends the characters that Python
    counts as white space. On the UTF-8 bytes of the text these are the
    ASCII ones below, the two-byte U+0085 and U+00A0, and the three-byte
    U+1680, U+2000 to U+200A, U+2028, U+2029, U+202F, U+205F and
    U+3000. *)
Definition is_space (c : ascii) : bool :=
  match c with
  | "009" | "010" | "011" | "012" | "013"
  | "028" | "029" | "030" | "031" | " " => true
  | _ => false
  end%char.

Definition is_space2 (c d : ascii) : bool :=
  Ascii.eqb c "194" && (Ascii.eqb d "133" || Ascii.eqb d "160").

Definition is_space3 (c d e : ascii) : bool :=
  (Ascii.eqb c "225" && Ascii.eqb d "154" && Ascii.eqb e "128")
  || (Ascii.eqb c "226" && Ascii.eqb d "128"
      && ((128 <=? nat_of_ascii e) && (nat_of_ascii e <=? 138)
          || Ascii.eqb e "168" || Ascii.eqb e "169" || Ascii.eqb e "175"))
  || (Ascii.eqb c "226" && Ascii.eqb d "129" && Ascii.eqb e "159")
  || (Ascii.eqb c "227" && Ascii.eqb d "128" && Ascii.eqb e "128").

(** The white space taken off the front; with [backwards], off the
    front of the reversed text, where the bytes of a character come in
    reverse order. *)
Fixpoint skip_space (backwards : bool) (s : string) : string :=
  match s with
  | "" => ""
  | String c rest =>
      if is_space c then skip_space backwards rest
      else
        match rest with
        | "" => s
        | String d rest2 =>
            if (if backwards then is_space2 d c else is_space2 c d)
            then skip_space backwards rest2
            else
              match rest2 with
              | "" => s
              | String e rest3 =>
                  if (if backwards then is_space3 e d c else is_space3 c d e)
                  then skip_space backwards rest3
                  else s
              end
        end
  end.

Definition lstrip (s : string) : string := skip_space false s.

Definition rstrip (s : string) : string :=
  String.rev (skip_space true (String.rev s)).

Definition strip (s : string) : string := rstrip (lstrip s).

Definition endswith (s suffix : string) : bool :=
  String.prefix (String.rev suffix) (String.rev s).

(** [get_machine_id]: the stripped content of [ID_FILE], or [None]. *)
Definition get_machine_id (fs : filesystem) : json :=
  match id_file fs with
  | Some s => JStr (strip s)
  | None => JNull
  end.

(** [save_machine_id]: [open] truncates the file, [write] raises on
    anything but a string, and every exception is only logged. *)
Definition save_machine_id (machine_id : json) (fs : filesystem) : filesystem :=
  if id_file_writable fs
  then {| data_dir := data_dir fs;
          data_dir_writable := data_dir_writable fs;
          id_file := Some (match machine_id with JStr s => s | _ => "" end);
          id_file_writable := true |}
  else fs.

(** The name [f"{n}.json.gz"] inside [DATA_DIR]. *)
Definition spool_name (n : nat) : string := pretty n +:+ ".json.gz".
Definition spool_path (n : nat) : string := DATA_DIR +:+ "/" +:+ spool_name n.

(** The loop [while os.path.exists(...): file_counter += 1]. *)
Fixpoint next_free (fuel : nat) (file_counter : nat) (fs : filesystem)
  : option nat :=
  if exists_in_data_dir fs (spool_name file_counter)
  then match fuel with
       | 0 => None
       | S fuel' => next_free fuel' (S file_counter) fs
       end
  else Some file_counter.

(** The module's globals. *)
Record agent : Type := {
  file_counter : nat;
  initial_data_saved : bool;
  disk : filesystem;
}.

(** [get_next_filename]: the path, and the advanced counter. The scan
    is given one step per directory entry. *)
Definition get_next_filename (a : agent) : option (string * agent) :=
  n ← next_free (size (data_dir (disk a))) (file_counter a) (disk a);
  Some (spool_path n,
        {| file_counter := n; initial_data_saved := initial_data_saved a;
           disk := disk a |}).

(** [reset_file_counter]. *)
Definition reset_file_counter (a : agent) : option agent :=
  n ← next_free (size (data_dir (disk a))) 1 (disk a);
  Some {| file_counter := n; initial_data_saved := initial_data_saved a;
          disk := disk a |}.

(** [initialize_data_collection]. *)
Definition initialize_data_collection (a : agent) : option agent :=
  reset_file_counter
    {| file_counter := file_counter a;
       initial_data_saved := exists_in_data_dir (disk a) "1.json.gz";
       disk := disk a |}.

(** [get_data_directory_size] and [is_storage_limit_reached]. *)
Definition get_data_directory_size (fs : filesystem) : Z :=
  foldr (λ '(filename, f) total_size,
           if endswith filename ".json.gz" then (getsize f + total_size)%Z
           else total_size)
        0%Z (map_to_list (data_dir fs)).

Definition is_storage_limit_reached (fs : filesystem) : bool :=
  bool_decide (STORAGE_LIMIT ≤ get_data_directory_size fs)%Z.

(** [sorted([f for f in os.listdir(DATA_DIR) if f.endswith('.json.gz')])]:
    strings compare character by character. *)
Definition pending_files (fs : filesystem) : list string :=
  merge_sort String.le
    (filter (λ f, endswith f ".json.gz" = true) (map_to_list (data_dir fs)).*1).

(** The list the send loop starts from. *)
Definition send_order (machine_id : json) (json_files : list string)
  : list string :=
  if bool_decide ("1.json.gz" ∈ json_files) && negb (truthy machine_id)
  then "1.json.gz" :: filter (λ f, f ≠ "1.json.gz") json_files
  else json_files.

(** What one [sendall]/[recv]/[json.loads] round gives the client. *)
Inductive exchange_result : Type :=
  | Reply (response_data : json)
  | ConnectionLost      (* ConnectionResetError, BrokenPipeError *)
  | Failed.             (* any other exception: timeout, undecodable reply *)

Inductive outcome : Type :=
  | Unreadable          (* [gzip.open] or [json.loads] of the file raised *)
  | Exchanged (r : exchange_result).

(** Everything outside the agent process. *)
Class World (W : Type) : Type := {
  connect : W → bool * W;
  exchange : json → W → exchange_result * W;
  strftime_now : W → string;
  time_time : W → Z;
  sleep : Z → W → W;
  collect_initial_data : W → json * W;
  collect_variable_data : W → json * W;
  gzip_size : json → Z;
}.

(** The locals of [send_files_to_server]: the list under iteration and
    the position of its iterator, [machine_id], the files; [history]
    keeps what each round of the loop met, [pauses] counts the batch
    sleeps. *)
Record cycle : Type := {
  json_files : list string;
  position : nat;
  machine_id : json;
  fs : filesystem;
  history : list (string * outcome);
  pauses : nat;
}.

Inductive control : Type := Next | Break.

Definition read_spool (fs : filesystem) (name : string) : option json :=
  match data_dir fs !! name with
  | Some {| body := Parsed content |} => Some content
  | _ => None
  end.

Definition note (json_file : string) (o : outcome) (st : cycle) : cycle :=
  {| json_files := json_files st; position := position st;
     machine_id := machine_id st; fs := fs st;
     history := history st ++ [(json_file, o)]; pauses := pauses st |}.

(** [data_to_send]. *)
Definition envelope (json_file : string) (json_data machine_id : json)
    (timestamp : string) : json :=
  JObj [("version", JStr "1.0"); ("filename", JStr json_file);
        ("content", json_data); ("machine_id", machine_id);
        ("timestamp", JStr timestamp)].

Section SendCycle.
Context {W : Type} `{World W}.

(** The end of the loop body: the pause after every
    [FILES_PER_BATCH]-th index. *)
Definition batch_pause (i : nat) (st : cycle) (w : W) : control * cycle * W :=
  if Nat.eqb ((i + 1) mod FILES_PER_BATCH) 0
  then (Next,
        {| json_files := json_files st; position := position st;
           machine_id := machine_id st; fs := fs st;
           history := history st; pauses := S (pauses st) |},
        sleep BATCH_PAUSE w)
  else (Next, st, w).

(** The body of [for i, json_file in enumerate(json_files)]. *)
Definition send_one (i : nat) (json_file : string) (st : cycle) (w : W)
  : control * cycle * W :=
  match read_spool (fs st) json_file with
  | None => (Next, note json_file Unreadable st, w)
  | Some json_data =>
      let data_to_send :=
        envelope json_file json_data (machine_id st) (strftime_now w) in
      let '(r, w) := exchange data_to_send w in
      let st := note json_file (Exchanged r) st in
      match r with
      | ConnectionLost => (Break, st, w)
      | Failed => (Next, st, w)
      | Reply response_data =>
          match get response_data "status" JNull,
                get response_data "machine_id" JNull,
                get response_data "message" JNull with
          | Ok status, Ok new_id, Ok message =>
              if eq_str status "success" then
                let st :=
                  if String.eqb json_file "1.json.gz" && truthy new_id
                  then {| json_files := json_files st; position := position st;
                          machine_id := new_id;
                          fs := save_machine_id new_id (fs st);
                          history := history st; pauses := pauses st |}
                  else st in
                let st :=
                  {| json_files := json_files st; position := position st;
                     machine_id := machine_id st;
                     fs := remove json_file (fs st);
                     history := history st; pauses := pauses st |} in
                batch_pause i st w
              else if eq_str message "RESEND_STATIC_DATA" then
                if negb (String.eqb json_file "1.json.gz")
                   && exists_in_data_dir (fs st) "1.json.gz"
                then (Next,
                      {| json_files := "1.json.gz" :: json_files st;
                         position := position st;
                         machine_id := machine_id st; fs := fs st;
                         history := history st; pauses := pauses st |},
                      w)
                else batch_pause i st w
              else batch_pause i st w
          | _, _, _ => (Next, st, w)
          end
      end
  end.

(** The [for] loop: the list iterator yields the element at its
    position and steps past it, against the list as it is at that
    moment. [true]: the loop has ended; [false]: [fuel] rounds were not
    enough. *)
Fixpoint send_loop (fuel : nat) (st : cycle) (w : W) : bool * cycle * W :=
  match json_files st !! position st with
  | None => (true, st, w)
  | Some json_file =>
      match fuel with
      | 0 => (false, st, w)
      | S fuel' =>
          let i := position st in
          let st :=
            {| json_files := json_files st; position := S i;
               machine_id := machine_id st; fs := fs st;
               history := history st; pauses := pauses st |} in
          match send_one i json_file st w with
          | (Break, st, w) => (true, st, w)
          | (Next, st, w) => send_loop fuel' st w
          end
      end
  end.

(** [send_files_to_server]; the value returned is [machine_id] of the
    final state. Every exception of the body is caught inside it, so the
    [backoff] decorator has nothing to retry. *)
Definition send_files_to_server (fuel : nat) (fs0 : filesystem) (w : W)
  : bool * cycle * W :=
  let machine_id := get_machine_id fs0 in
  let json_files := pending_files fs0 in
  let start (l : list string) :=
    {| json_files := l; position := 0; machine_id := machine_id;
       fs := fs0; history := []; pauses := 0 |} in
  match json_files with
  | [] => (true, start [], w)
  | _ =>
      let json_files := send_order machine_id json_files in
      let '(connected, w) := connect w in
      if connected then send_loop fuel (start json_files) w
      else (true, start json_files, w)
  end.

End SendCycle.

(** The locals of [continuous_collection] next to the globals;
    [transcript] gathers the histories of the send cycles run so far. *)
Record collector : Type := {
  globals : agent;
  known_id : json;
  last_send_time : Z;
  transcript : list (string * outcome);
}.

(** Why [continuous_collection] has returned. *)
Inductive ending : Type :=
  | StorageLimit        (* the [break] under [is_storage_limit_reached()] *)
  | Exception           (* the outer [except Exception] *)
  | OutOfFuel.          (* a loop of the model was cut short *)

Definition with_disk (a : agent) (d : filesystem) : agent :=
  {| file_counter := file_counter a;
     initial_data_saved := initial_data_saved a; disk := d |}.

Section Collection.
Context {W : Type} `{World W}.

(** [save_initial_data]. *)
Definition save_initial_data (a : agent) (w : W) : agent * W :=
  if initial_data_saved a || exists_in_data_dir (disk a) "1.json.gz"
  then (a, w)
  else
    let '(initial_data, w) := collect_initial_data w in
    if data_dir_writable (disk a)
    then ({| file_counter := file_counter a; initial_data_saved := true;
             disk := write "1.json.gz"
                       {| getsize := gzip_size initial_data;
                          body := Parsed initial_data |} (disk a) |},
          w)
    else (a, w).

(** [save_variable_data_to_file]: the file goes under the name that
    [get_next_filename] settles on; [None] when that scan is cut short. *)
Definition save_variable_data_to_file (data : json) (a : agent) : option agent :=
  '(_, a) ← get_next_filename a;
  if data_dir_writable (disk a)
  then Some (with_disk a
               (write (spool_name (file_counter a))
                  {| getsize := gzip_size data; body := Parsed data |}
                  (disk a)))
  else Some a.

(** One round of [while True]. *)
Definition collection_round (send_fuel : nat) (c : collector) (w : W)
  : ending + collector * W :=
  let a := globals c in
  if is_storage_limit_reached (disk a) then inl StorageLimit
  else
    let '(a, w) :=
      if negb (initial_data_saved a) then save_initial_data a w else (a, w) in
    let captured : ending + agent * W :=
      if truthy (known_id c) then
        let '(variable_data, w) := collect_variable_data w in
        if truthy variable_data then
          match contains "error" variable_data with
          | Raise _ => inl Exception
          | Ok true => inr (a, w)
          | Ok false =>
              match save_variable_data_to_file variable_data a with
              | Some a => inr (a, w)
              | None => inl OutOfFuel
              end
          end
        else inr (a, w)
      else inr (a, w) in
    match captured with
    | inl e => inl e
    | inr (a, w) =>
        let current_time := time_time w in
        if bool_decide (SEND_INTERVAL ≤ current_time - last_send_time c)%Z then
          let '(finished, cy, w) := send_files_to_server send_fuel (disk a) w in
          if finished then
            inr ({| globals := with_disk a (fs cy);
                    known_id := machine_id cy;
                    last_send_time := current_time;
                    transcript := transcript c ++ history cy |},
                 sleep COLLECTION_INTERVAL w)
          else inl OutOfFuel
        else
          inr ({| globals := a; known_id := known_id c;
                  last_send_time := last_send_time c;
                  transcript := transcript c |},
               sleep COLLECTION_INTERVAL w)
    end.

(** [while True], for at most [rounds] rounds: [Some e] when the loop
    was left, [None] when it is still running. *)
Fixpoint collection_loop (rounds send_fuel : nat) (c : collector) (w : W)
  : option ending * collector * W :=
  match rounds with
  | 0 => (None, c, w)
  | S rounds' =>
      match collection_round send_fuel c w with
      | inl e => (Some e, c, w)
      | inr (c, w) => collection_loop rounds' send_fuel c w
      end
  end.

(** [continuous_collection], from the state of the files at start-up. *)
Definition continuous_collection (rounds send_fuel : nat) (d : filesystem) (w : W)
  : option ending * collector * W :=
  let boot := {| file_counter := 1; initial_data_saved := false; disk := d |} in
  let aborted e :=
    (Some e,
     {| globals := boot; known_id := JNull; last_send_time := 0;
        transcript := [] |}, w) in
  match initialize_data_collection boot with
  | None => aborted OutOfFuel
  | Some a =>
      let cached_id := get_machine_id (disk a) in
      let last_send_time := time_time w in
      if negb (truthy cached_id) then
        let '(a, w) := save_initial_data a w in
        let '(finished, cy, w) := send_files_to_server send_fuel (disk a) w in
        if finished then
          collection_loop rounds send_fuel
            {| globals := with_disk a (fs cy); known_id := machine_id cy;
               last_send_time := last_send_time; transcript := history cy |} w
        else aborted OutOfFuel
      else
        collection_loop rounds send_fuel
          {| globals := a; known_id := cached_id;
             last_send_time := last_send_time; transcript := [] |} w
  end.

End Collection.

End Agent.

(** ** process_zipped_data.py: the import of an agent's folder *)

Module ZipFolder.

(** What [find_machine_id_file] finds and [open] and [read] make of
    it: no file, something that cannot be read as text (a directory, a
    file that does not decode), or the text of the file. *)
Inductive id_file : Type :=
  | NoIdFile
  | UnreadableIdFile
  | IdFile (text : string).

(** What is found in the extracted archive: [machine_id.txt], and the
    entries of the data directory, where [find_data_directory] finds
    one. *)
Record folder : Type := {
  machine_id_txt : id_file;
  data_directory : option (gmap string Agent.spool_file);
}.

(** The [ZipDataProcessor] object: the database, and [self.machine_id],
    which is [None] or a string. *)
Record processor : Type := {
  db : MonitoringServer.database;
  machine_id : option string;
}.

(** [not machine_id], on [None] or a string. *)
Definition no_id (machine_id : option string) : bool :=
  match machine_id with
  | Some id => negb (truthy (JStr id))
  | None => true
  end.

Section Folder.
Context `{Runtime}.

(** [process_data]: the id under which the file was stored, or [None].
    [register_machine], [save_static_data], [save_variable_data] and the
    registry lookup of process_zipped_data.py are those of server.py
    line for line, the log messages apart. *)
Definition process_data (now : MonitoringServer.clock_read → Z)
    (db : MonitoringServer.database)
    (data : json) (known_machine_id : option string)
  : option string * MonitoringServer.database :=
  let body : result (option string * MonitoringServer.database) :=
    if negb (truthy data) then Ok (None, db)
    else
      contains "os" data ≫= λ is_static : bool,
      if is_static then
        _ ← MonitoringServer.StaticData data;
        match ZipDataProcessor.generate_machine_id data with
        | None => Ok (None, db)
        | Some machine_id =>
            if negb (truthy (JStr machine_id)) then Ok (None, db)
            else
              let '(registered, db1) :=
                MonitoringServer.register_machine now db machine_id data in
              if negb registered then Ok (None, db1)
              else
                let '(saved, db2) :=
                  MonitoringServer.save_static_data now db1 machine_id data in
                if negb saved then Ok (None, db2)
                else Ok (Some machine_id, db2)
        end
      else
        match known_machine_id with
        | None => Ok (None, db)
        | Some machine_id =>
            if negb (truthy (JStr machine_id)) then Ok (None, db)
            else
              match MonitoringServer.find_one_machine db (JStr machine_id) with
              | None => Ok (None, db)
              | Some _ =>
                  let '(saved, db1) :=
                    MonitoringServer.save_variable_data now db
                      (JStr machine_id) data in
                  if negb saved then Ok (None, db1)
                  else Ok (Some machine_id, db1)
              end
        end
  in
  match body with
  | Ok r => r
  | Raise _ => (None, db)
  end.

(** [is_valid_json_file]: the file is read, is not empty and parses. *)
Definition is_valid_json_file (f : Agent.spool_file) : bool :=
  match Agent.body f with
  | Agent.Parsed _ => true
  | Agent.Corrupt => false
  end.

(** [sorted([f for f in os.listdir(data_dir) if f.endswith('.json.gz')])]. *)
Definition listing (dir : gmap string Agent.spool_file) : list string :=
  merge_sort String.le
    (filter (λ f, Agent.endswith f ".json.gz" = true) (map_to_list dir).*1).

(** The body of [for json_file in json_files], for the [i]-th file;
    [clock i] is the clock while it is processed. *)
Definition process_file (clock : nat → MonitoringServer.clock_read → Z)
    (dir : gmap string Agent.spool_file)
    (i : nat) (json_file : string) (p : processor) : processor :=
  match dir !! json_file with
  | Some f =>
      if negb (is_valid_json_file f) then p
      else
        match Agent.body f with
        | Agent.Corrupt => p
        | Agent.Parsed file_data =>
            let '(processed_machine_id, db') :=
              process_data (clock i) (db p) file_data (machine_id p) in
            {| db := db';
               machine_id :=
                 if no_id processed_machine_id then machine_id p
                 else processed_machine_id |}
        end
  | None => p
  end.

Fixpoint process_files (clock : nat → MonitoringServer.clock_read → Z)
    (dir : gmap string Agent.spool_file)
    (i : nat) (json_files : list string) (p : processor) : processor :=
  match json_files with
  | [] => p
  | json_file :: rest =>
      process_files clock dir (S i) rest (process_file clock dir i json_file p)
  end.

(** The function from the data directory on, [self.machine_id] being
    set. *)
Definition process_data_directory (clock : nat → MonitoringServer.clock_read → Z)
    (p : processor) (z : folder) : bool * processor :=
  match data_directory z with
  | None => (false, p)
  | Some dir =>
      let json_files := listing dir in
      match json_files with
      | [] => (false, p)
      | _ =>
          let json_files :=
            if no_id (machine_id p) && bool_decide ("1.json.gz" ∈ json_files)
            then "1.json.gz" :: filter (λ f, f ≠ "1.json.gz") json_files
            else json_files in
          (true, process_files clock dir 0 json_files p)
      end
  end.

(** [process_zipped_folder], from the extracted archive on. Reading
    [machine_id.txt] is inside the outer [try]: when it raises, the
    function logs the error and returns [False] at once. *)
Definition process_zipped_folder (clock : nat → MonitoringServer.clock_read → Z)
    (p : processor) (z : folder) : bool * processor :=
  match machine_id_txt z with
  | UnreadableIdFile => (false, p)
  | IdFile text =>
      process_data_directory clock
        {| db := db p; machine_id := Some (Agent.strip text) |} z
  | NoIdFile => process_data_directory clock p z
  end.

End Folder.
End ZipFolder.

(** ** A concrete setting to run the definitions in

    A runtime whose digest only tags its input, and a world in which the
    agent talks to [MonitoringServer.process_data] over a lossless link. *)

Module Lab.

(** Every integer of the value fits in 8 bytes. *)
Fixpoint fits (v : json) : bool :=
  match v with
  | JInt z => ((- 2 ^ 63 <=? z) && (z <? 2 ^ 63))%Z
  | JArr xs => forallb fits xs
  | JObj kv => forallb (λ '(_, x), fits x) kv
  | _ => true
  end.

Definition runtime : Runtime :=
  {| md5_hexdigest := λ s, "md5:" +:+ s;
     float_str := λ _, "<float>";
     container_str := λ _, "<container>";
     exception_str := λ e,
       match e with
       | AttributeError => "AttributeError"
       | TypeError => "TypeError"
       | KeyError => "KeyError"
       | IndexError => "IndexError"
       | ValidationError => "ValidationError"
       end;
     filter_matches := λ _ _, false;
     bson_accepts := fits |}.

(** A clock that stands still, and one that moves between the reads. *)
Definition at_time (t : Z) : MonitoringServer.clock_read → Z := λ _, t.

Definition reads (t : Z) : MonitoringServer.clock_read → Z := λ r,
  match r with
  | MonitoringServer.LastSeen => t
  | MonitoringServer.FirstSeen => (t + 1)%Z
  | MonitoringServer.Timestamp => (t + 2)%Z
  end.

Definition snapshot_fields : list (string * json) :=
       [("timestamp", JStr "2025-01-01 10:00:00");
        ("os", JObj [("nom", JStr "Linux"); ("version", JStr "#1 SMP");
                     ("release", JStr "6.1"); ("architecture", JStr "x86_64");
                     ("hostname", JStr "kali")]);
        ("type_machine", JInt 1);
        ("cpu", JObj [("type", JStr "x86_64"); ("coeurs_physiques", JInt 4);
                      ("coeurs_logiques", JInt 8);
                      ("frequence", JObj [("actuelle", JInt 2400);
                                          ("min", JInt 800);
                                          ("max", JInt 3600)])]);
        ("memoire", JObj [("ram", JObj [("total", JStr "15.50 GB")])]);
        ("disque", JObj [("total", JStr "500.00 GB")]);
        ("adresse_mac", JStr "00:11:22:33:44:55");
        ("gpu", JObj [("Disponible", JBool false)]);
        ("bios_carte_mere",
         JObj [("BIOS", JObj [("Fabricant", JStr "AMI"); ("Version", JStr "1.2");
                              ("Date", JStr "01/01/2020")]);
               ("Carte mère", JObj [("Fabricant", JStr "ASUS");
                                    ("Modèle", JStr "B450")])]);
        ("utilisateurs_connectes",
         JArr [JObj [("username", JStr "delibes"); ("terminal", JStr "tty1")]]);
        ("peripheriques_usb", JArr [])].

Definition snapshot : json := JObj snapshot_fields.

(** The same machine captured later: another [timestamp], MAC address,
    disk, GPU and USB devices. *)
Definition later_fields : list (string * json) :=
  dict_set "timestamp" (JStr "2025-03-09 08:30:00")
    (dict_set "adresse_mac" (JStr "66:77:88:99:aa:bb")
       (dict_set "disque" (JObj [("total", JStr "1.00 TB")])
          (dict_set "gpu" (JObj [("Disponible", JBool true)])
             (dict_set "peripheriques_usb"
                (JArr [JObj [("Description", JStr "Bus 001 Device 002")]])
                snapshot_fields)))).

(** And with fields inside the fingerprint's entries that the
    fingerprint does not read: the architecture, the physical cores and
    current frequency, the BIOS date, the user's terminal, the RAM in
    use. *)
Definition relabelled_fields : list (string * json) :=
  dict_set "os"
    (JObj [("hostname", JStr "kali"); ("nom", JStr "Linux");
           ("release", JStr "6.1"); ("version", JStr "#1 SMP");
           ("architecture", JStr "amd64")])
    (dict_set "cpu"
       (JObj [("coeurs_logiques", JInt 8); ("coeurs_physiques", JInt 2);
              ("frequence", JObj [("min", JInt 800); ("max", JInt 3600);
                                  ("actuelle", JInt 1200)])])
       (dict_set "bios_carte_mere"
          (JObj [("BIOS", JObj [("Fabricant", JStr "AMI");
                                ("Version", JStr "1.2");
                                ("Date", JStr "02/02/2022")]);
                 ("Carte mère", JObj [("Fabricant", JStr "ASUS");
                                      ("Modèle", JStr "B450")])])
          (dict_set "utilisateurs_connectes"
             (JArr [JObj [("username", JStr "delibes");
                          ("terminal", JStr "pts/0")]])
             (dict_set "memoire"
                (JObj [("ram", JObj [("total", JStr "15.50 GB");
                                     ("utilisee", JStr "3.10 GB")])])
                later_fields)))).

(** What [collect_initial_data] returns when it fails. *)
Definition failed_snapshot : json := JObj [("error", JStr "boom")].

Definition sample : json :=
  JObj [("timestamp", JStr "2025-01-01 10:00:02");
        ("cpu", JObj [("global_utilise", JInt 12)]);
        ("nombre_processus", JInt 200)].

Record world : Type := {
  server : MonitoringServer.database;
  clock : Z;
}.

Definition link : Agent.World world :=
  {| Agent.connect := λ w, (true, w);
     Agent.exchange := λ data w,
       let '(response, db) :=
         @MonitoringServer.process_data runtime (at_time (clock w))
           (server w) data in
       (Agent.Reply response, {| server := db; clock := clock w |});
     Agent.strftime_now := λ w, pretty (clock w);
     Agent.time_time := clock;
     Agent.sleep := λ d w, {| server := server w; clock := (clock w + d)%Z |};
     Agent.collect_initial_data := λ w, (snapshot, w);
     Agent.collect_variable_data := λ w, (sample, w);
     Agent.gzip_size := λ _, 512%Z |}.

(** A link on which replies can come late: [recv] times out [late]
    more times, and the replies that the server has written and the
    agent has not read wait in [unread], the oldest first. *)
Record slow_world : Type := {
  behind : world;
  late : nat;
  unread : list json;
}.

Definition slow_link : Agent.World slow_world :=
  {| Agent.connect := λ w, (true, w);
     Agent.exchange := λ data w,
       let '(response, db) :=
         @MonitoringServer.process_data runtime (at_time (clock (behind w)))
           (server (behind w)) data in
       let b := {| server := db; clock := clock (behind w) |} in
       match late w, unread w ++ [response] with
       | 0, r :: rest =>
           (Agent.Reply r, {| behind := b; late := 0; unread := rest |})
       | n, queue =>
           (Agent.Failed, {| behind := b; late := pred n; unread := queue |})
       end;
     Agent.strftime_now := λ w, pretty (clock (behind w));
     Agent.time_time := λ w, clock (behind w);
     Agent.sleep := λ d w,
       {| behind := {| server := server (behind w);
                       clock := (clock (behind w) + d)%Z |};
          late := late w; unread := unread w |};
     Agent.collect_initial_data := λ w, (snapshot, w);
     Agent.collect_variable_data := λ w, (sample, w);
     Agent.gzip_size := λ _, 512%Z |}.

Definition file (content : json) : Agent.spool_file :=
  {| Agent.getsize := 512; Agent.body := Agent.Parsed content |}.

Definition fresh_world : world :=
  {| server := MonitoringServer.empty_database; clock := 0 |}.

(** A server that has registered the identity "abc". *)
Definition known_world : world :=
  {| server :=
       {| MonitoringServer.machine_ids_collection :=
            {[ "abc" := {| MonitoringServer.hostname := JStr "kali";
                           MonitoringServer.os_name := JStr "Linux";
                           MonitoringServer.first_seen := 0;
                           MonitoringServer.last_seen := 0;
                           MonitoringServer.status := "active" |} ]};
          MonitoringServer.static_collection := ∅;
          MonitoringServer.variable_collection := [] |};
     clock := 0 |}.

(** A server that nobody has talked to, whose first reply will come
    after the agent's [recv] has timed out. *)
Definition slow_start : slow_world :=
  {| behind := fresh_world; late := 1; unread := [] |}.

(** Two samples spooled under sequence numbers 2 and 10, identity known. *)
Definition disk_2_10 : Agent.filesystem :=
  {| Agent.data_dir := {[ "2.json.gz" := file sample; "10.json.gz" := file sample ]};
     Agent.data_dir_writable := true;
     Agent.id_file := Some "abc";
     Agent.id_file_writable := true |}.

(** Files 1 and 3 on disk; 2 has been sent and deleted. *)
Definition disk_1_3 : Agent.filesystem :=
  {| Agent.data_dir := {[ "1.json.gz" := file snapshot; "3.json.gz" := file sample ]};
     Agent.data_dir_writable := true;
     Agent.id_file := None;
     Agent.id_file_writable := true |}.

(** A snapshot whose capture failed, one sample, and a cached identity
    that the server does not know. *)
Definition disk_stale_id : Agent.filesystem :=
  {| Agent.data_dir :=
       {[ "1.json.gz" := file failed_snapshot; "2.json.gz" := file sample ]};
     Agent.data_dir_writable := true;
     Agent.id_file := Some "abc";
     Agent.id_file_writable := true |}.

(** A fresh agent with its snapshot spooled. *)
Definition disk_fresh : Agent.filesystem :=
  {| Agent.data_dir := {[ "1.json.gz" := file snapshot ]};
     Agent.data_dir_writable := true;
     Agent.id_file := None;
     Agent.id_file_writable := true |}.

(** A fresh agent with its snapshot and a first sample spooled. *)
Definition disk_first_contact : Agent.filesystem :=
  {| Agent.data_dir :=
       {[ "1.json.gz" := file snapshot; "2.json.gz" := file sample ]};
     Agent.data_dir_writable := true;
     Agent.id_file := None;
     Agent.id_file_writable := true |}.

(** A fresh agent whose identity file cannot be written. *)
Definition disk_locked_id : Agent.filesystem :=
  {| Agent.data_dir := {[ "1.json.gz" := file snapshot ]};
     Agent.data_dir_writable := true;
     Agent.id_file := None;
     Agent.id_file_writable := false |}.

(** The send loop of a fresh agent, about to run its first round. *)
Definition first_round : Agent.cycle :=
  {| Agent.json_files := ["1.json.gz"]; Agent.position := 1;
     Agent.machine_id := JNull; Agent.fs := disk_fresh;
     Agent.history := []; Agent.pauses := 0 |}.

(** The send loop of a fresh agent whose identity file cannot be
    written, about to run its first round. *)
Definition first_round_locked : Agent.cycle :=
  {| Agent.json_files := ["1.json.gz"]; Agent.position := 1;
     Agent.machine_id := JNull; Agent.fs := disk_locked_id;
     Agent.history := []; Agent.pauses := 0 |}.

(** The id that [runtime] derives from [snapshot]. *)
Definition snapshot_id : string :=
  "md5:kaliLinux6.1#1 SMPdelibes88003600AMI1.2ASUSB45015.50 GB".

(** The send loop on [disk_stale_id] after [k] RESEND_STATIC_DATA
    replies for [2.json.gz]. *)
Definition stale_round (k : nat) (h : list (string * Agent.outcome)) (p : nat)
  : Agent.cycle :=
  {| Agent.json_files := replicate k "1.json.gz" ++ ["1.json.gz"; "2.json.gz"];
     Agent.position := S k;
     Agent.machine_id := JStr "abc"; Agent.fs := disk_stale_id;
     Agent.history := h; Agent.pauses := p |}.

Definition resend : Agent.outcome :=
  Agent.Exchanged
    (Agent.Reply (MonitoringServer.error_response "RESEND_STATIC_DATA")).

(** A sample envelope with a version other than "1.0". *)
Definition old_version_envelope : json :=
  JObj [("version", JStr "2.0"); ("filename", JStr "2.json.gz");
        ("content", sample); ("machine_id", JStr "abc");
        ("timestamp", JStr "2025-01-01 10:00:03")].

(** The collector at the top of a round, identity known. *)
Definition collector_on (d : Agent.filesystem) : Agent.collector :=
  {| Agent.globals :=
       {| Agent.file_counter := 1; Agent.initial_data_saved := false;
          Agent.disk := d |};
     Agent.known_id := JStr "abc"; Agent.last_send_time := 0;
     Agent.transcript := [] |}.

(** Fifty-one connections arrive, and the pool takes up as many calls
    as it has threads. *)
Definition rush : list MonitoringServer.event :=
  map MonitoringServer.Accept (seq 0 51)
  ++ flat_map (λ c, [MonitoringServer.Start; MonitoringServer.Enter c])
       (seq 0 50).

Definition crowded : MonitoringServer.pool :=
  {| MonitoringServer.active_connections := 50;
     MonitoringServer.work_queue := [50];
     MonitoringServer.running :=
       map (λ c, (c, MonitoringServer.Serving)) (seq 0 50);
     MonitoringServer.outbox := [];
     MonitoringServer.rejected := [];
     MonitoringServer.closed_sockets := [];
     MonitoringServer.store := MonitoringServer.empty_database |}.

(** The entries of [sample]. *)
Definition sample_fields : list (string * json) :=
  [("timestamp", JStr "2025-01-01 10:00:02");
   ("cpu", JObj [("global_utilise", JInt 12)]);
   ("nombre_processus", JInt 200)].

(** A snapshot without its MAC address. *)
Definition snapshot_without_mac : list (string * json) :=
  filter (λ kv, kv.1 ≠ "adresse_mac") snapshot_fields.

(** A JSON reader that knows three lines: "S" is the envelope of
    [snapshot], "V" the envelope of [sample] under [snapshot_id], and
    "?" is not UTF-8; nothing else is JSON. *)
Definition loads (message : string) : MonitoringServer.loaded :=
  if String.eqb message "S"
  then MonitoringServer.Loaded
         (Agent.envelope "1.json.gz" snapshot JNull "t")
  else if String.eqb message "V"
  then MonitoringServer.Loaded
         (Agent.envelope "2.json.gz" sample (JStr snapshot_id) "t")
  else if String.eqb message "?"
  then MonitoringServer.OtherError "'utf-8' codec can't decode"
  else MonitoringServer.JSONDecodeError.

Definition tick (n : nat) : MonitoringServer.clock_read → Z :=
  at_time (Z.of_nat n).

Definition new_connection : MonitoringServer.connection :=
  {| MonitoringServer.data := ""; MonitoringServer.handled := 0;
     MonitoringServer.sent := [];
     MonitoringServer.db := MonitoringServer.empty_database |}.

(** One snapshot line, one sample line and a sample line cut short,
    arriving in three packets that do not end on the line ends. *)
Definition packets : list string :=
  ["S" +:+ MonitoringServer.LF +:+ "V";
   MonitoringServer.LF +:+ "garbage" +:+ MonitoringServer.LF;
   "V"].

(** One spooled file as large as the whole budget. *)
Definition disk_full : Agent.filesystem :=
  {| Agent.data_dir :=
       {[ "2.json.gz" := {| Agent.getsize := Agent.STORAGE_LIMIT;
                            Agent.body := Agent.Parsed sample |} ]};
     Agent.data_dir_writable := true;
     Agent.id_file := Some "abc";
     Agent.id_file_writable := true |}.

(** A folder archived before the first contact with the server: the
    snapshot, and a sample under a name that sorts before it. *)
Definition archive : ZipFolder.folder :=
  {| ZipFolder.machine_id_txt := ZipFolder.NoIdFile;
     ZipFolder.data_directory :=
       Some {[ "0.json.gz" := file sample; "1.json.gz" := file snapshot ]} |}.

(** A snapshot with an integer that does not fit in 8 bytes. *)
Definition oversized_snapshot : json :=
  JObj (dict_set "type_machine" (JInt (2 ^ 64)) snapshot_fields).

Definition new_processor : ZipFolder.processor :=
  {| ZipFolder.db := MonitoringServer.empty_database;
     ZipFolder.machine_id := None |}.

End Lab.

(** ** Notions used in the statements *)

(** The top-level entries of a snapshot that [generate_machine_id] reads. *)
Definition fingerprint_keys : list string :=
  ["os"; "cpu"; "bios_carte_mere"; "memoire"; "utilisateurs_connectes"].

Definition agree_on (keys : list string) (kv1 kv2 : list (string * json)) : Prop :=
  ∀ k, k ∈ keys → dict_lookup k kv1 = dict_lookup k kv2.

(** The fingerprint of a snapshot, field by field: host name, OS name,
    release and version, first logged-in user name, logical core count,
    minimal and maximal CPU frequency, BIOS vendor and version,
    motherboard vendor and model, total RAM; each with the default that
    stands in for a missing entry. *)
Definition fingerprint (static_data : json) : result (list json) :=
  os_info ← get static_data "os" (JObj []);
  cpu_info ← get static_data "cpu" (JObj []);
  bios_info ← get static_data "bios_carte_mere" (JObj []);
  memoire_info ← get static_data "memoire" (JObj []);
  users ← get static_data "utilisateurs_connectes" (JArr []);
  username ← (if truthy users
              then (u ← index0 users; get u "username" (JStr ""))
              else Ok (JStr ""));
  hostname ← get os_info "hostname" (JStr "");
  nom ← get os_info "nom" (JStr "");
  release ← get os_info "release" (JStr "");
  version ← get os_info "version" (JStr "");
  coeurs ← get cpu_info "coeurs_logiques" (JInt 0);
  frequence ← get cpu_info "frequence" (JObj []);
  fmin ← get frequence "min" (JInt 0);
  fmax ← get frequence "max" (JInt 0);
  bios ← get bios_info "BIOS" (JObj []);
  bios_fab ← get bios "Fabricant" (JStr "");
  bios_ver ← get bios "Version" (JStr "");
  carte ← get bios_info "Carte mère" (JObj []);
  cm_fab ← get carte "Fabricant" (JStr "");
  cm_mod ← get carte "Modèle" (JStr "");
  ram_info ← get memoire_info "ram" (JObj []);
  ram ← get ram_info "total" (JStr "");
  Ok [hostname; nom; release; version; username; coeurs; fmin; fmax;
      bios_fab; bios_ver; cm_fab; cm_mod; ram].

(** The string that is hashed: the texts of the fields, one after the
    other. *)
Definition unique_string `{Runtime} (fields : list json) : string :=
  String.concat "" (fstr <$> fields).

(** A round of the send loop that read a reply whose [status] is
    ["success"]. *)
Definition is_success (o : Agent.outcome) : bool :=
  match o with
  | Agent.Exchanged (Agent.Reply response_data) =>
      match get response_data "status" JNull with
      | Ok status => eq_str status "success"
      | Raise _ => false
      end
  | _ => false
  end.

(** Some round of the history sent file [name] and got ["success"]. *)
Definition acknowledged (name : string) (h : list (string * Agent.outcome)) : bool :=
  existsb (λ '(f, o), String.eqb f name && is_success o) h.

(** Every stored sample carries the id of a registered machine. *)
Definition samples_registered (db : MonitoringServer.database) : Prop :=
  Forall
    (λ d, ∃ id, MonitoringServer.vd_machine_id d = JStr id
                ∧ is_Some (MonitoringServer.machine_ids_collection db !! id))
    (MonitoringServer.variable_collection db).

(** The envelope's [machine_id], if any, is not itself a document. *)
Definition plain_id (data : json) : bool :=
  match get data "machine_id" JNull with
  | Ok (JObj _) => false
  | _ => true
  end.

(** What one envelope may do to the database: the registry keeps its
    ids, and the samples stay as they are or get one more, stored under
    an id that was registered before. *)
Definition ingests (db db' : MonitoringServer.database) : Prop :=
  (∀ id, is_Some (MonitoringServer.machine_ids_collection db !! id) →
         is_Some (MonitoringServer.machine_ids_collection db' !! id))
  ∧ (MonitoringServer.variable_collection db'
     = MonitoringServer.variable_collection db
     ∨ ∃ d id,
         MonitoringServer.variable_collection db'
         = (MonitoringServer.variable_collection db ++ [d])%list
         ∧ MonitoringServer.vd_machine_id d = JStr id
         ∧ is_Some (MonitoringServer.machine_ids_collection db !! id)).

(** A call counts in [active_connections] once it is past the locked
    increment. *)
Definition weight (p : MonitoringServer.phase) : nat :=
  if MonitoringServer.is_phase MonitoringServer.Started p then 0 else 1.

(** The calls in the pool that are past the locked increment. *)
Definition counted (l : list (nat * MonitoringServer.phase)) : nat :=
  length (filter (λ cp, MonitoringServer.is_phase MonitoringServer.Started cp.2
                        = false) l).

(** What holds of the pool in every state it can reach: the counter is
    the number of calls past the increment, the calls in progress fit in
    the executor's threads, and no connection has been rejected. *)
Definition pool_invariant (s : MonitoringServer.pool) : Prop :=
  MonitoringServer.active_connections s = counted (MonitoringServer.running s)
  ∧ length (MonitoringServer.running s)
    ≤ MonitoringServer.MAX_CONCURRENT_CONNECTIONS
  ∧ MonitoringServer.rejected s = [].

(** The connection with another buffer. *)
Definition with_data (d : string) (c : MonitoringServer.connection)
  : MonitoringServer.connection :=
  {| MonitoringServer.data := d;
     MonitoringServer.handled := MonitoringServer.handled c;
     MonitoringServer.sent := MonitoringServer.sent c;
     MonitoringServer.db := MonitoringServer.db c |}.

(** The number of newlines of a byte string. *)
Fixpoint count_newlines (s : string) : nat :=
  match s with
  | "" => 0
  | String c rest =>
      (if Ascii.eqb c "010"%char then 1 else 0) + count_newlines rest
  end.

(** The lines put back together, each closed by its newline. *)
Definition unlines (messages : list string) : string :=
  foldr (λ m rest, m +:+ MonitoringServer.LF +:+ rest) "" messages.

(** The fields that [StaticData] requires. *)
Definition required_fields : list string :=
  ["os"; "cpu"; "memoire"; "bios_carte_mere"; "utilisateurs_connectes";
   "adresse_mac"].

(** The Python value of [self.machine_id]. *)
Definition id_value (machine_id : option string) : json :=
  match machine_id with
  | Some id => JStr id
  | None => JNull
  end.

(** Every byte is an ASCII character other than white space: the text
    holds no character that [str.strip()] takes off. *)
Fixpoint ascii_no_space (s : string) : bool :=
  match s with
  | "" => true
  | String c rest =>
      (nat_of_ascii c <? 128) && negb (Agent.is_space c)
      && ascii_no_space rest
  end.

(** The registry record that [register_machine] builds from a
    snapshot, as it goes to the database. *)
Definition registry_document (machine_id : string) (content : json)
  : result json :=
  os_info ← get content "os" (JObj []);
  h ← get os_info "hostname" (JStr "Unknown");
  n ← get os_info "nom" (JStr "Unknown");
  Ok (MonitoringServer.machine_document machine_id h n).

(** The database takes what a snapshot asks it to store: its registry
    record and its static document. *)
Definition snapshot_accepted `{Runtime} (machine_id : string) (content : json)
  : bool :=
  match registry_document machine_id content,
        MonitoringServer.gets content MonitoringServer.static_keys with
  | Ok record, Ok fields =>
      bson_accepts record
      && bson_accepts (MonitoringServer.document (JStr machine_id) fields)
  | _, _ => false
  end.

(** The database takes the document of a sample. *)
Definition sample_accepted `{Runtime} (machine_id : json) (content : json)
  : bool :=
  match MonitoringServer.gets content MonitoringServer.variable_keys with
  | Ok fields => bson_accepts (MonitoringServer.document machine_id fields)
  | Raise _ => false
  end.

(** The connections that a schedule accepts. *)
Definition accepted (es : list MonitoringServer.event) : list nat :=
  omap (λ e, match e with MonitoringServer.Accept c => Some c | _ => None end)
       es.

(** Where the socket of a connection can be: waiting in the executor's
    queue, held by a call in progress, or closed. *)
Definition accounted (s : MonitoringServer.pool) (c : nat) : Prop :=
  c ∈ MonitoringServer.work_queue s
  ∨ c ∈ (MonitoringServer.running s).*1
  ∨ c ∈ MonitoringServer.closed_sockets s.

(** A call past [client_socket.close()] has closed its socket. *)
Definition closed_calls_closed (s : MonitoringServer.pool) : Prop :=
  ∀ c, (c, MonitoringServer.Closed) ∈ MonitoringServer.running s →
       c ∈ MonitoringServer.closed_sockets s.

(** * Properties *)

(** ** Identity derivation *)

Lemma dict_lookup_set_ne k k' v kv :
  k ≠ k' → dict_lookup k' (dict_set k v kv) = dict_lookup k' kv.
Proof.
  intros Hne. induction kv as [|[k0 v0] kv IH]; simpl.
  - destruct (String.eqb_spec k' k); congruence.
  - destruct (String.eqb_spec k k0) as [->|Hk]; simpl.
    + destruct (String.eqb_spec k' k0); congruence.
    + destruct (String.eqb_spec k' k0); congruence.
Qed.

Lemma dict_set_agree keys k v kv :
  k ∉ keys → agree_on keys (dict_set k v kv) kv.
Proof.
  intros Hk k' Hk'. apply dict_lookup_set_ne. intros ->. contradiction.
Qed.

Section IdentityProperties.
Context `{Runtime}.

(** Case analysis on the next [get] of the goal that reads key [k]. *)
Ltac on_key k :=
  match goal with
  | |- context [get ?d k ?v] =>
      destruct (get d k v) as [?|]; [cbn|reflexivity]
  end.

(** The id is the digest of the texts of the fingerprint's fields. *)
Lemma generate_machine_id_by_fingerprint static_data :
  MonitoringServer.generate_machine_id static_data
  = match fingerprint static_data with
    | Ok fields => Some (md5_hexdigest (unique_string fields))
    | Raise _ => None
    end.
Proof.
  unfold MonitoringServer.generate_machine_id, fingerprint.
  on_key "os". on_key "cpu". on_key "bios_carte_mere". on_key "memoire".
  on_key "utilisateurs_connectes".
  match goal with |- context [truthy ?u] => destruct (truthy u) end;
    [match goal with |- context [index0 ?u] =>
       destruct (index0 u) as [?|]; [cbn|reflexivity] end;
     on_key "username" |];
    (on_key "hostname"; on_key "nom"; on_key "release"; on_key "version";
     on_key "coeurs_logiques"; on_key "frequence"; on_key "min";
     on_key "max"; on_key "BIOS"; on_key "Fabricant"; on_key "Version";
     on_key "Carte mère"; on_key "Fabricant"; on_key "Modèle";
     on_key "ram"; on_key "total"; reflexivity).
Qed.

Lemma fingerprint_agree (kv1 kv2 : list (string * json)) :
  agree_on fingerprint_keys kv1 kv2 →
  fingerprint (JObj kv1) = fingerprint (JObj kv2).
Proof.
  intros Hag. unfold fingerprint, get.
  rewrite !(Hag "os"), !(Hag "cpu"), !(Hag "bios_carte_mere"),
    !(Hag "memoire"), !(Hag "utilisateurs_connectes")
    by (unfold fingerprint_keys; set_solver).
  reflexivity.
Qed.

Lemma generate_machine_id_agree (kv1 kv2 : list (string * json)) :
  agree_on fingerprint_keys kv1 kv2 →
  MonitoringServer.generate_machine_id (JObj kv1)
  = MonitoringServer.generate_machine_id (JObj kv2).
Proof.
  intros Hag. rewrite !generate_machine_id_by_fingerprint.
  by rewrite (fingerprint_agree _ _ Hag).
Qed.

(** Overwriting or adding any top-level field outside the fingerprint
    keeps the id. *)
Lemma generate_machine_id_ignores_field k v kv :
  k ∉ fingerprint_keys →
  MonitoringServer.generate_machine_id (JObj (dict_set k v kv))
  = MonitoringServer.generate_machine_id (JObj kv).
Proof.
  intros Hk. apply generate_machine_id_agree. by apply dict_set_agree.
Qed.

(** C7. [generate_machine_id] is a function of the snapshot alone, and
    of its fingerprint fields alone: two snapshots with the same
    fingerprint get the same id, whatever else differs between them
    ([timestamp], [adresse_mac], [disque], [gpu], [peripheriques_usb],
    and the entries of [os], [cpu], ... that the fingerprint does not
    read); in particular two calls on one snapshot agree. *)
Theorem generate_machine_id_fingerprint_only (snapshot1 snapshot2 : json) :
  fingerprint snapshot1 = fingerprint snapshot2 →
  MonitoringServer.generate_machine_id snapshot1
  = MonitoringServer.generate_machine_id snapshot2.
Proof.
  intros Hsame. rewrite !generate_machine_id_by_fingerprint.
  by rewrite Hsame.
Qed.

(** C9. The derivation of server.py and the one of
    process_zipped_data.py give the same id on every snapshot. *)
Theorem generate_machine_id_server_zip_equal (static_data : json) :
  MonitoringServer.generate_machine_id static_data
  = ZipDataProcessor.generate_machine_id static_data.
Proof.
  unfold MonitoringServer.generate_machine_id,
    ZipDataProcessor.generate_machine_id.
  destruct (get static_data "os" (JObj [])); reflexivity.
Qed.

End IdentityProperties.

Lemma generate_machine_id_fingerprint_only_witness :
  fingerprint (JObj Lab.snapshot_fields) = fingerprint (JObj Lab.relabelled_fields)
  ∧ @MonitoringServer.generate_machine_id Lab.runtime (JObj Lab.snapshot_fields)
    = @MonitoringServer.generate_machine_id Lab.runtime
        (JObj Lab.relabelled_fields).
Proof.
  assert (Hsame : fingerprint (JObj Lab.snapshot_fields)
                  = fingerprint (JObj Lab.relabelled_fields))
    by (vm_compute; reflexivity).
  split; [exact Hsame|].
  exact (@generate_machine_id_fingerprint_only Lab.runtime _ _ Hsame).
Defined.

(** ** The spool sequence counter *)

Lemma string_length_app (s t : string) :
  String.length (s +:+ t) = String.length s + String.length t.
Proof. induction s as [|c s IH]; simpl; [reflexivity | by rewrite IH]. Qed.

Lemma string_app_inj_r (s1 s2 t : string) : s1 +:+ t = s2 +:+ t → s1 = s2.
Proof.
  revert s2. induction s1 as [|c s1 IH]; intros [|c2 s2] Heq; simpl in *.
  - reflexivity.
  - apply (f_equal String.length) in Heq.
    rewrite !string_length_app in Heq. simpl in Heq. lia.
  - apply (f_equal String.length) in Heq.
    rewrite !string_length_app in Heq. simpl in Heq. lia.
  - cbn in Heq. injection Heq as -> Heq. f_equal. by apply IH.
Qed.

Lemma spool_name_inj (n m : nat) :
  Agent.spool_name n = Agent.spool_name m → n = m.
Proof.
  unfold Agent.spool_name. intros Heq.
  apply string_app_inj_r in Heq. by apply (inj pretty) in Heq.
Qed.

Lemma exists_in_data_dir_true fs name :
  Agent.exists_in_data_dir fs name = true ↔ is_Some (Agent.data_dir fs !! name).
Proof. unfold Agent.exists_in_data_dir. by rewrite bool_decide_eq_true. Qed.

Lemma exists_in_data_dir_false fs name :
  Agent.exists_in_data_dir fs name = false ↔ Agent.data_dir fs !! name = None.
Proof.
  unfold Agent.exists_in_data_dir.
  rewrite bool_decide_eq_false, eq_None_not_Some. reflexivity.
Qed.

(** The scan only looks at names from its starting number on. *)
Lemma next_free_ext (fuel c : nat) fs fs' :
  (∀ k : nat, (c ≤ k)%nat →
        Agent.data_dir fs !! Agent.spool_name k
        = Agent.data_dir fs' !! Agent.spool_name k) →
  Agent.next_free fuel c fs = Agent.next_free fuel c fs'.
Proof.
  revert c. induction fuel as [|fuel IH]; intros c Hsame; simpl;
    unfold Agent.exists_in_data_dir; rewrite (Hsame c) by lia.
  - reflexivity.
  - case_bool_decide; [|reflexivity]. apply IH. intros k Hk. apply Hsame. lia.
Qed.

(** One step per directory entry is enough for the scan to end. *)
Lemma next_free_terminates (fuel c : nat) fs :
  (size (Agent.data_dir fs) ≤ fuel)%nat → is_Some (Agent.next_free fuel c fs).
Proof.
  revert c fs. induction fuel as [|fuel IH]; intros c fs Hsize; simpl.
  - destruct (Agent.exists_in_data_dir fs (Agent.spool_name c)) eqn:Hex; [|eauto].
    apply exists_in_data_dir_true in Hex. destruct Hex as [f Hf].
    assert (Agent.data_dir fs = ∅) as Hempty
      by (apply map_size_empty_iff; lia).
    rewrite Hempty, lookup_empty in Hf. discriminate.
  - destruct (Agent.exists_in_data_dir fs (Agent.spool_name c)) eqn:Hex; [|eauto].
    apply exists_in_data_dir_true in Hex.
    rewrite (next_free_ext fuel (S c) fs (Agent.remove (Agent.spool_name c) fs)).
    + apply IH. unfold Agent.remove. cbn [Agent.data_dir].
      rewrite map_size_delete_Some by done.
      destruct Hex as [f Hf].
      assert (size (Agent.data_dir fs) ≠ 0).
      { intros Hz. apply map_size_empty_iff in Hz.
        rewrite Hz, lookup_empty in Hf. discriminate. }
      lia.
    + intros k Hk. unfold Agent.remove. cbn [Agent.data_dir].
      rewrite lookup_delete_ne; [reflexivity|].
      intros Heq. apply spool_name_inj in Heq. lia.
Qed.

(** What the scan returns: the first number from [c] on whose file is
    not there. *)
Lemma next_free_least (fuel c : nat) fs (n : nat) :
  Agent.next_free fuel c fs = Some n →
  (c ≤ n)%nat
  ∧ Agent.data_dir fs !! Agent.spool_name n = None
  ∧ ∀ m : nat, (c ≤ m < n)%nat → is_Some (Agent.data_dir fs !! Agent.spool_name m).
Proof.
  revert c. induction fuel as [|fuel IH]; intros c; simpl;
    destruct (Agent.exists_in_data_dir fs (Agent.spool_name c)) eqn:Hex;
    intros Hn; try discriminate.
  - injection Hn as <-. apply exists_in_data_dir_false in Hex.
    split; [lia|]. split; [done|]. intros m Hm. lia.
  - apply IH in Hn as (Hle & Hfree & Hbelow).
    apply exists_in_data_dir_true in Hex.
    split; [lia|]. split; [done|]. intros m Hm.
    destruct (decide (m = c)) as [->|]; [done|]. apply Hbelow. lia.
  - injection Hn as <-. apply exists_in_data_dir_false in Hex.
    split; [lia|]. split; [done|]. intros m Hm. lia.
Qed.

(** C6 (amended). After a restart [reset_file_counter] always returns,
    with the counter on the least number [n ≥ 1] for which [n.json.gz]
    is not in the spool directory: every number below [n] is still on
    disk, so the next file name, [get_next_filename], is [n.json.gz] and
    is not the name of a file that is present. When the files present
    are exactly [1 .. m], that number is [m + 1]. *)
Theorem reset_file_counter_least_free (a : Agent.agent) :
  ∃ n : nat,
    Agent.reset_file_counter a
    = Some {| Agent.file_counter := n;
              Agent.initial_data_saved := Agent.initial_data_saved a;
              Agent.disk := Agent.disk a |}
    ∧ (1 ≤ n)%nat
    ∧ Agent.data_dir (Agent.disk a) !! Agent.spool_name n = None
    ∧ (∀ m : nat, (1 ≤ m < n)%nat →
            is_Some (Agent.data_dir (Agent.disk a) !! Agent.spool_name m))
    ∧ (∀ a', Agent.reset_file_counter a = Some a' →
             Agent.get_next_filename a' = Some (Agent.spool_path n, a'))
    ∧ (∀ m : nat,
         (∀ k : nat,
            is_Some (Agent.data_dir (Agent.disk a) !! Agent.spool_name k)
            ↔ (1 ≤ k ≤ m)%nat) →
         n = (m + 1)%nat).
Proof.
  destruct (next_free_terminates (size (Agent.data_dir (Agent.disk a))) 1
              (Agent.disk a)) as [n Hn]; [lia|].
  exists n. unfold Agent.reset_file_counter. rewrite Hn. simpl.
  destruct (next_free_least _ _ _ _ Hn) as (Hle & Hfree & Hbelow).
  repeat split; try done.
  - intros a' [= <-]. unfold Agent.get_next_filename. simpl.
    assert (Agent.next_free (size (Agent.data_dir (Agent.disk a))) n
              (Agent.disk a) = Some n) as ->; [|reflexivity].
    destruct (size (Agent.data_dir (Agent.disk a))); simpl;
      by rewrite (proj2 (exists_in_data_dir_false _ _) Hfree).
  - intros m Hm.
    destruct (decide (n ≤ m)) as [Hnm|Hnm].
    + assert (is_Some (Agent.data_dir (Agent.disk a) !! Agent.spool_name n))
        as [f Hf] by (apply Hm; lia).
      congruence.
    + destruct (decide (n = m + 1)) as [|Hne]; [done|].
      assert (is_Some (Agent.data_dir (Agent.disk a) !! Agent.spool_name (m + 1)))
        as Hsome by (apply Hbelow; lia).
      apply Hm in Hsome. lia.
Qed.

(** C6, as stated, fails: with files 1 and 3 on disk (2 sent and
    deleted) the counter restarts at 2, below the present number 3, and
    the next file is written under the number 2 again. *)
Lemma reset_file_counter_not_max_plus_one :
  let a := {| Agent.file_counter := 1; Agent.initial_data_saved := false;
              Agent.disk := Lab.disk_1_3 |} in
  (Agent.file_counter <$> Agent.reset_file_counter a) = Some 2
  ∧ is_Some (Agent.data_dir Lab.disk_1_3 !! Agent.spool_name 3)
  ∧ fst <$> (Agent.reset_file_counter a ≫= Agent.get_next_filename)
    = Some "data/2.json.gz"
  ∧ ¬ (∀ a (n m : nat),
         (Agent.file_counter <$> Agent.reset_file_counter a) = Some n →
         is_Some (Agent.data_dir (Agent.disk a) !! Agent.spool_name m) →
         (m < n)%nat).
Proof.
  assert (Hrun :
    (Agent.file_counter <$> Agent.reset_file_counter
       {| Agent.file_counter := 1; Agent.initial_data_saved := false;
          Agent.disk := Lab.disk_1_3 |}) = Some 2) by (vm_compute; reflexivity).
  assert (Hthree : is_Some (Agent.data_dir Lab.disk_1_3 !! Agent.spool_name 3))
    by (vm_compute; eauto).
  cbv zeta. split; [exact Hrun|]. split; [exact Hthree|].
  split; [vm_compute; reflexivity|].
  intros Hclaim. specialize (Hclaim _ 2 3 Hrun Hthree). lia.
Qed.

(** ** The send cycle *)

Lemma send_order_snapshot_first machine_id json_files :
  "1.json.gz" ∈ json_files → truthy machine_id = false →
  head (Agent.send_order machine_id json_files) = Some "1.json.gz".
Proof.
  intros Hin Hid. unfold Agent.send_order.
  rewrite bool_decide_eq_true_2, Hid by done. reflexivity.
Qed.

Lemma pending_files_sorted fs : Sorted String.le (Agent.pending_files fs).
Proof. apply Sorted_merge_sort, _. Qed.

(** C4. The send list is sorted as strings, so the file numbered 10
    comes before the file numbered 2: with [2.json.gz] and [10.json.gz]
    pending and the identity known, the cycle sends [10.json.gz] first. *)
Theorem send_order_10_before_2 :
  Agent.send_order (Agent.get_machine_id Lab.disk_2_10)
    (Agent.pending_files Lab.disk_2_10)
  = ["10.json.gz"; "2.json.gz"]
  ∧ (Agent.history
       (@Agent.send_files_to_server _ Lab.link 10 Lab.disk_2_10
          Lab.known_world).1.2).*1
    = ["10.json.gz"; "2.json.gz"].
Proof. split; vm_compute; reflexivity. Qed.

Section SendCycleProperties.
Context {W : Type} `{Agent.World W}.

Lemma batch_pause_effect i st w :
  ∃ p w',
    Agent.batch_pause i st w
    = (Agent.Next,
       {| Agent.json_files := Agent.json_files st;
          Agent.position := Agent.position st;
          Agent.machine_id := Agent.machine_id st; Agent.fs := Agent.fs st;
          Agent.history := Agent.history st; Agent.pauses := p |}, w').
Proof.
  unfold Agent.batch_pause. destruct (Nat.eqb _ _); [eauto|].
  destruct st; eauto.
Qed.

Lemma save_machine_id_data_dir v fs :
  Agent.data_dir (Agent.save_machine_id v fs) = Agent.data_dir fs.
Proof. unfold Agent.save_machine_id. by destruct (Agent.id_file_writable fs). Qed.

(** One round of the loop: it notes one outcome for its file, and the
    directory loses that file exactly when the outcome is a success. *)
Lemma send_one_effect i json_file st w :
  ∃ o,
    Agent.history (Agent.send_one i json_file st w).1.2
    = (Agent.history st ++ [(json_file, o)])%list
    ∧ Agent.data_dir (Agent.fs (Agent.send_one i json_file st w).1.2)
      = if is_success o then delete json_file (Agent.data_dir (Agent.fs st))
        else Agent.data_dir (Agent.fs st).
Proof.
  unfold Agent.send_one.
  destruct (Agent.read_spool (Agent.fs st) json_file) as [json_data|];
    [|exists Agent.Unreadable; done].
  destruct (Agent.exchange _ w) as [r w1].
  exists (Agent.Exchanged r).
  destruct r as [response_data| |]; [|done|done].
  unfold is_success.
  destruct response_data; try done. cbn [get].
  match goal with |- context [eq_str ?s "success"] =>
    destruct (eq_str s "success") end.
  - match goal with |- context [Agent.batch_pause ?i ?st ?w] =>
      destruct (batch_pause_effect i st w) as (p & w' & ->) end.
    cbn. split; [by destruct (_ && _)|].
    destruct (_ && _); cbn; [by rewrite save_machine_id_data_dir|done].
  - match goal with |- context [eq_str ?s "RESEND_STATIC_DATA"] =>
      destruct (eq_str s "RESEND_STATIC_DATA") end.
    + destruct (_ && _); [done|].
      match goal with |- context [Agent.batch_pause ?i ?st ?w] =>
        destruct (batch_pause_effect i st w) as (p & w' & ->) end.
      done.
    + match goal with |- context [Agent.batch_pause ?i ?st ?w] =>
        destruct (batch_pause_effect i st w) as (p & w' & ->) end.
      done.
Qed.

Lemma acknowledged_app name h1 h2 :
  acknowledged name (h1 ++ h2)%list = acknowledged name h1 || acknowledged name h2.
Proof. unfold acknowledged. apply existsb_app. Qed.

(** The loop, after any number of rounds: a file is gone exactly when
    one of the rounds run so far got ["success"] for it. *)
Lemma send_loop_effect fuel st w :
  ∃ h,
    Agent.history (Agent.send_loop fuel st w).1.2 = (Agent.history st ++ h)%list
    ∧ ∀ name,
        Agent.data_dir (Agent.fs (Agent.send_loop fuel st w).1.2) !! name
        = if acknowledged name h then None
          else Agent.data_dir (Agent.fs st) !! name.
Proof.
  revert st w. induction fuel as [|fuel IH]; intros st w; simpl.
  - exists []. rewrite app_nil_r.
    destruct (Agent.json_files st !! Agent.position st); done.
  - destruct (Agent.json_files st !! Agent.position st) as [json_file|];
      [|exists []; by rewrite app_nil_r].
    match goal with |- context [Agent.send_one ?i ?f ?s ?w] =>
      destruct (send_one_effect i f s w) as (o & Hh & Hd);
      destruct (Agent.send_one i f s w) as [[ctl st1] w1] end.
    cbn in Hh, Hd.
    assert (Hstep : ∀ name,
      Agent.data_dir (Agent.fs st1) !! name
      = if acknowledged name [(json_file, o)] then None
        else Agent.data_dir (Agent.fs st) !! name).
    { intros name. rewrite Hd. unfold acknowledged. cbn.
      rewrite orb_false_r.
      destruct (is_success o); [|by rewrite andb_false_r].
      rewrite andb_true_r.
      destruct (String.eqb_spec json_file name) as [->|Hne].
      - by rewrite lookup_delete_eq.
      - by rewrite lookup_delete_ne. }
    destruct ctl.
    + destruct (IH st1 w1) as (h & Hh' & Hd').
      exists ((json_file, o) :: h). split.
      * rewrite Hh', Hh, <- app_assoc. done.
      * intros name. rewrite Hd', Hstep.
        change ((json_file, o) :: h) with ([(json_file, o)] ++ h)%list.
        rewrite acknowledged_app.
        destruct (acknowledged name h); [by rewrite orb_true_r|].
        by rewrite orb_false_r.
    + exists [(json_file, o)]. split; [done|]. exact Hstep.
Qed.

(** X22. The deletions of a send cycle as the agent sees them: at any
    point of the cycle (after any number of rounds of its loop,
    finished or not), a file of the spool directory is gone if and only
    if some round sent that file and, in that round, read a reply whose
    status is ["success"], whichever envelope the server wrote that
    reply for; every other file (unreadable, left without a reply, met
    with RESEND_STATIC_DATA or another error, hit by a network error,
    or not reached) is on disk as it was. *)
Theorem send_cycle_deletes_iff_success fuel fs0 w name :
  let st := (Agent.send_files_to_server fuel fs0 w).1.2 in
  Agent.data_dir (Agent.fs st) !! name
  = if acknowledged name (Agent.history st) then None
    else Agent.data_dir fs0 !! name.
Proof.
  unfold Agent.send_files_to_server.
  destruct (Agent.pending_files fs0) as [|f0 files]; [done|].
  destruct (Agent.connect w) as [[] w1]; [|done].
  match goal with |- context [Agent.send_loop fuel ?s ?w] =>
    destruct (send_loop_effect fuel s w) as (h & Hh & Hd) end.
  cbn in Hh. cbv zeta. rewrite Hh. apply Hd.
Qed.

End SendCycleProperties.

Section SnapshotRounds.
Context {W : Type} `{Agent.World W}.

(** What the RESEND_STATIC_DATA branch does to the list under
    iteration: the snapshot name goes to index 0, which the iterator has
    passed, every element moves one place up, and the iterator's next
    element is the file it has just sent. *)
Lemma resend_steps_back_onto_current_file
    i json_file st w json_data response_data w1 status message :
  Agent.json_files st !! i = Some json_file →
  Agent.position st = S i →
  Agent.read_spool (Agent.fs st) json_file = Some json_data →
  Agent.exchange
    (Agent.envelope json_file json_data (Agent.machine_id st)
       (Agent.strftime_now w)) w
  = (Agent.Reply response_data, w1) →
  get response_data "status" JNull = Ok status →
  eq_str status "success" = false →
  get response_data "message" JNull = Ok message →
  eq_str message "RESEND_STATIC_DATA" = true →
  json_file ≠ "1.json.gz" →
  Agent.exists_in_data_dir (Agent.fs st) "1.json.gz" = true →
  ∃ st',
    Agent.send_one i json_file st w = (Agent.Next, st', w1)
    ∧ Agent.json_files st' = "1.json.gz" :: Agent.json_files st
    ∧ Agent.json_files st' !! Agent.position st' = Some json_file
    ∧ Agent.fs st' = Agent.fs st.
Proof.
  intros Hcur Hpos Hread Hex Hstatus Hns Hmsg Hresend Hne Hsnap.
  unfold Agent.send_one. rewrite Hread, Hex.
  destruct response_data; try discriminate.
  cbn [get] in *. injection Hstatus as ->. injection Hmsg as ->.
  rewrite Hns, Hresend. cbn [Agent.note Agent.fs]. rewrite Hsnap.
  apply String.eqb_neq in Hne. rewrite Hne. cbn [negb andb].
  eexists. split; [reflexivity|]. cbn. rewrite Hpos. done.
Qed.

(** C10. When the round that sends [1.json.gz] reads a reply with
    status ["success"] and a machine id, that same round removes
    [1.json.gz] from the spool directory and sets [machine_id] to the
    id; it writes the id to the identity file where that file can be
    opened for writing, and where it cannot, the identity file is left
    as it was, the snapshot being removed all the same. *)
Theorem snapshot_success_persists_and_deletes
    i st w json_data response_data w1 mid :
  Agent.read_spool (Agent.fs st) "1.json.gz" = Some json_data →
  Agent.exchange
    (Agent.envelope "1.json.gz" json_data (Agent.machine_id st)
       (Agent.strftime_now w)) w
  = (Agent.Reply response_data, w1) →
  get response_data "status" JNull = Ok (JStr "success") →
  get response_data "machine_id" JNull = Ok (JStr mid) →
  mid ≠ "" →
  let st' := (Agent.send_one i "1.json.gz" st w).1.2 in
  Agent.data_dir (Agent.fs st') !! "1.json.gz" = None
  ∧ Agent.machine_id st' = JStr mid
  ∧ (Agent.id_file_writable (Agent.fs st) = true →
     Agent.id_file (Agent.fs st') = Some mid)
  ∧ (Agent.id_file_writable (Agent.fs st) = false →
     Agent.id_file (Agent.fs st') = Agent.id_file (Agent.fs st)).
Proof.
  intros Hread Hex Hstatus Hid Hmid.
  unfold Agent.send_one. rewrite Hread, Hex.
  destruct response_data; try discriminate.
  cbn [get] in *. injection Hstatus as ->. injection Hid as ->.
  cbn [eq_str String.eqb Ascii.eqb Bool.eqb andb truthy].
  apply String.eqb_neq in Hmid. rewrite Hmid. cbn [negb].
  match goal with |- context [Agent.batch_pause ?i ?st ?w] =>
    destruct (batch_pause_effect i st w) as (p & w' & ->) end.
  cbn. split; [by rewrite lookup_delete_eq|]. split; [done|].
  split; intros Hw; unfold Agent.save_machine_id; by rewrite Hw.
Qed.

End SnapshotRounds.

(** ** Runs against the server *)

Section LabRuns.
#[local] Existing Instance Lab.runtime.
#[local] Existing Instance Lab.link.

Lemma snapshot_success_persists_and_deletes_witness :
  Agent.read_spool Lab.disk_fresh "1.json.gz" = Some Lab.snapshot
  ∧ Agent.data_dir
      (Agent.fs (Agent.send_one 0 "1.json.gz" Lab.first_round
                   Lab.fresh_world).1.2) !! "1.json.gz" = None
  ∧ Agent.machine_id
      (Agent.send_one 0 "1.json.gz" Lab.first_round Lab.fresh_world).1.2
    = JStr Lab.snapshot_id
  ∧ Agent.id_file
      (Agent.fs (Agent.send_one 0 "1.json.gz" Lab.first_round
                   Lab.fresh_world).1.2)
    = Some Lab.snapshot_id.
Proof.
  assert (Hread : Agent.read_spool (Agent.fs Lab.first_round) "1.json.gz"
                  = Some Lab.snapshot) by (vm_compute; reflexivity).
  split; [exact Hread|].
  destruct (snapshot_success_persists_and_deletes 0 Lab.first_round
              Lab.fresh_world Lab.snapshot
              (JObj [("status", JStr "success");
                     ("machine_id", JStr Lab.snapshot_id);
                     ("message", JStr "Static data registered")])
              (Agent.exchange
                 (Agent.envelope "1.json.gz" Lab.snapshot JNull "0")
                 Lab.fresh_world).2
              Lab.snapshot_id Hread)
    as (Hgone & Hid & Hsaved & _).
  - vm_compute. reflexivity.
  - reflexivity.
  - reflexivity.
  - vm_compute. discriminate.
  - split; [exact Hgone|]. split; [exact Hid|]. apply Hsaved. reflexivity.
Defined.

Lemma send_loop_unfold {W : Type} `{Agent.World W} fuel st (w : W) :
  Agent.send_loop (S fuel) st w
  = match Agent.json_files st !! Agent.position st with
    | None => (true, st, w)
    | Some json_file =>
        let i := Agent.position st in
        let st :=
          {| Agent.json_files := Agent.json_files st; Agent.position := S i;
             Agent.machine_id := Agent.machine_id st; Agent.fs := Agent.fs st;
             Agent.history := Agent.history st;
             Agent.pauses := Agent.pauses st |} in
        match Agent.send_one i json_file st w with
        | (Agent.Break, st, w) => (true, st, w)
        | (Agent.Next, st, w) => Agent.send_loop fuel st w
        end
    end.
Proof. reflexivity. Qed.

Lemma stale_round_current k :
  (replicate k "1.json.gz" ++ ["1.json.gz"; "2.json.gz"])%list !! S k
  = Some "2.json.gz".
Proof. induction k as [|k IH]; [reflexivity | exact IH]. Qed.

(** With the registry empty, the round that sends [2.json.gz] is
    answered RESEND_STATIC_DATA and leaves the loop one element further
    in a list that is one element longer. *)
Lemma stale_round_step k h p w :
  Lab.server w = MonitoringServer.empty_database →
  Agent.send_one (S k) "2.json.gz"
    {| Agent.json_files :=
         (replicate k "1.json.gz" ++ ["1.json.gz"; "2.json.gz"])%list;
       Agent.position := S (S k);
       Agent.machine_id := JStr "abc"; Agent.fs := Lab.disk_stale_id;
       Agent.history := h; Agent.pauses := p |} w
  = (Agent.Next,
     Lab.stale_round (S k) (h ++ [("2.json.gz", Lab.resend)])%list p,
     {| Lab.server := MonitoringServer.empty_database;
        Lab.clock := Lab.clock w |}).
Proof.
  intros Hsrv. destruct w as [srv clk]. cbn in Hsrv. subst srv.
  reflexivity.
Qed.

Lemma stale_loop fuel k h p w :
  Lab.server w = MonitoringServer.empty_database →
  let r := Agent.send_loop fuel (Lab.stale_round k h p) w in
  r.1.1 = false
  ∧ (Agent.history r.1.2).*1 = (h.*1 ++ replicate fuel "2.json.gz")%list
  ∧ Agent.fs r.1.2 = Lab.disk_stale_id.
Proof.
  revert k h p w. induction fuel as [|fuel IH]; intros k h p w Hsrv.
  - cbn. rewrite stale_round_current. cbn. by rewrite app_nil_r.
  - cbv zeta. rewrite send_loop_unfold.
    cbn [Lab.stale_round Agent.json_files Agent.position Agent.machine_id
         Agent.fs Agent.history Agent.pauses].
    rewrite stale_round_current. cbv zeta.
    rewrite (stale_round_step k h p w Hsrv).
    destruct (IH (S k) (h ++ [("2.json.gz", Lab.resend)])%list p
                {| Lab.server := MonitoringServer.empty_database;
                   Lab.clock := Lab.clock w |} eq_refl) as (Hf & Hh & Hfs).
    split; [exact Hf|]. split; [|exact Hfs].
    rewrite Hh, fmap_app, <- app_assoc. reflexivity.
Qed.

(** C3. A sample answered RESEND_STATIC_DATA is sent again in the next
    round, and again after that: with a snapshot file that the server
    does not take as a snapshot, a sample, and a cached identity unknown
    to the server, the cycle sends [1.json.gz] once and then only
    [2.json.gz], does not end within any number of rounds, and leaves
    the spool as it was. *)
Theorem resend_repeats_current_file (n : nat) :
  let r := Agent.send_files_to_server (S n) Lab.disk_stale_id Lab.fresh_world in
  r.1.1 = false
  ∧ (Agent.history r.1.2).*1 = "1.json.gz" :: replicate n "2.json.gz"
  ∧ Agent.fs r.1.2 = Lab.disk_stale_id.
Proof.
  assert (Hstart :
    Agent.send_files_to_server (S n) Lab.disk_stale_id Lab.fresh_world
    = Agent.send_loop n (Lab.stale_round 0 [("1.json.gz", Lab.resend)] 0)
        Lab.fresh_world) by reflexivity.
  cbv zeta. rewrite Hstart.
  apply (stale_loop n 0 [("1.json.gz", Lab.resend)] 0 Lab.fresh_world eq_refl).
Qed.

End LabRuns.

(** C1, as stated, fails on a reply that comes late. The agent's first
    [recv] times out while the server is still registering the snapshot;
    the loop goes on to [2.json.gz] on the same socket, and the [recv]
    of that round reads the reply to the snapshot: status success. The
    sample is deleted, although the envelope that carried it is
    answered RESEND_STATIC_DATA, an answer left unread in the socket;
    the server has stored no sample, and the snapshot, which the server
    did register, stays on disk. *)
Theorem late_reply_deletes_refused_file :
  let r := @Agent.send_files_to_server _ Lab.slow_link 2
             Lab.disk_first_contact Lab.slow_start in
  let registered :=
    (@MonitoringServer.process_data Lab.runtime (Lab.at_time 0)
       MonitoringServer.empty_database
       (Agent.envelope "1.json.gz" Lab.snapshot JNull "0")).2 in
  r.1.1 = true
  ∧ Agent.history r.1.2
    = [("1.json.gz", Agent.Exchanged Agent.Failed);
       ("2.json.gz",
        Agent.Exchanged
          (Agent.Reply
             (JObj [("status", JStr "success");
                    ("machine_id", JStr Lab.snapshot_id);
                    ("message", JStr "Static data registered")])))]
  ∧ Agent.data_dir (Agent.fs r.1.2) !! "2.json.gz" = None
  ∧ Agent.data_dir (Agent.fs r.1.2) !! "1.json.gz"
    = Some (Lab.file Lab.snapshot)
  ∧ (@MonitoringServer.process_data Lab.runtime (Lab.at_time 0) registered
       (Agent.envelope "2.json.gz" Lab.sample JNull "0")).1
    = MonitoringServer.error_response "RESEND_STATIC_DATA"
  ∧ Lab.unread r.2 = [MonitoringServer.error_response "RESEND_STATIC_DATA"]
  ∧ MonitoringServer.variable_collection (Lab.server (Lab.behind r.2)) = [].
Proof. cbv zeta. repeat split; by vm_compute. Qed.

(** C10, as stated, fails where the identity file cannot be written:
    [save_machine_id] logs the error and returns, the round deletes the
    snapshot all the same, and the identity is in no file. *)
Lemma snapshot_deleted_identity_not_persisted :
  let st' := (@Agent.send_one _ Lab.link 0 "1.json.gz" Lab.first_round_locked
                Lab.fresh_world).1.2 in
  Agent.data_dir (Agent.fs st') !! "1.json.gz" = None
  ∧ Agent.machine_id st' = JStr Lab.snapshot_id
  ∧ Agent.id_file (Agent.fs st') = None
  ∧ ¬ (∀ i st w json_data response_data w1 mid,
         Agent.read_spool (Agent.fs st) "1.json.gz" = Some json_data →
         @Agent.exchange _ Lab.link
           (Agent.envelope "1.json.gz" json_data (Agent.machine_id st)
              (@Agent.strftime_now _ Lab.link w)) w
         = (Agent.Reply response_data, w1) →
         get response_data "status" JNull = Ok (JStr "success") →
         get response_data "machine_id" JNull = Ok (JStr mid) →
         mid ≠ "" →
         let st' := (@Agent.send_one _ Lab.link i "1.json.gz" st w).1.2 in
         Agent.data_dir (Agent.fs st') !! "1.json.gz" = None
         ∧ Agent.id_file (Agent.fs st') = Some mid).
Proof.
  cbv zeta. split; [by vm_compute|]. split; [by vm_compute|].
  split; [by vm_compute|]. intros Hclaim.
  specialize (Hclaim 0 Lab.first_round_locked Lab.fresh_world Lab.snapshot
                _ _ Lab.snapshot_id eq_refl eq_refl eq_refl eq_refl).
  destruct Hclaim as [_ Hid]; [done|]. vm_compute in Hid. discriminate Hid.
Qed.

(** ** The storage cap *)

Lemma collection_round_at_limit {W : Type} `{Agent.World W}
    send_fuel c (w : W) :
  Agent.is_storage_limit_reached (Agent.disk (Agent.globals c)) = true →
  Agent.collection_round send_fuel c w = inl Agent.StorageLimit.
Proof. intros Hfull. unfold Agent.collection_round. by rewrite Hfull. Qed.

(** C8 (amended). When the spooled [.json.gz] files add up to
    [STORAGE_LIMIT] or more at the top of a round of the collection
    loop, the loop is left there: the round captures no sample and runs
    no send cycle, and [continuous_collection] returns with the state as
    it was. *)
Theorem storage_limit_ends_collection {W : Type} `{Agent.World W}
    rounds send_fuel c (w : W) :
  Agent.is_storage_limit_reached (Agent.disk (Agent.globals c)) = true →
  Agent.collection_round send_fuel c w = inl Agent.StorageLimit
  ∧ Agent.collection_loop (S rounds) send_fuel c w
    = (Some Agent.StorageLimit, c, w).
Proof.
  intros Hfull. split; [by apply collection_round_at_limit|].
  cbn. by rewrite collection_round_at_limit.
Qed.

Lemma storage_limit_ends_collection_witness :
  Agent.is_storage_limit_reached
    (Agent.disk (Agent.globals (Lab.collector_on Lab.disk_full))) = true
  ∧ @Agent.collection_round _ Lab.link 10 (Lab.collector_on Lab.disk_full)
      Lab.known_world = inl Agent.StorageLimit
  ∧ @Agent.collection_loop _ Lab.link 3 10 (Lab.collector_on Lab.disk_full)
      Lab.known_world
    = (Some Agent.StorageLimit, Lab.collector_on Lab.disk_full, Lab.known_world).
Proof.
  assert (Hfull : Agent.is_storage_limit_reached
    (Agent.disk (Agent.globals (Lab.collector_on Lab.disk_full))) = true)
    by (vm_compute; reflexivity).
  split; [exact Hfull|].
  exact (@storage_limit_ends_collection _ Lab.link 2 10
           (Lab.collector_on Lab.disk_full) Lab.known_world Hfull).
Defined.

(** C8, as stated, fails: with the spool at the cap the round does not
    go on to a send cycle; the agent started on such a spool returns at
    once, having sent nothing. *)
Lemma storage_limit_stops_sending :
  Agent.is_storage_limit_reached Lab.disk_full = true
  ∧ (let '(e, c, _) :=
       @Agent.continuous_collection _ Lab.link 5 10 Lab.disk_full
         Lab.known_world in
     e = Some Agent.StorageLimit ∧ Agent.transcript c = []
     ∧ Agent.disk (Agent.globals c) = Lab.disk_full)
  ∧ ¬ (∀ send_fuel c w,
         Agent.is_storage_limit_reached (Agent.disk (Agent.globals c)) = true →
         ∃ c' w',
           @Agent.collection_round _ Lab.link send_fuel c w = inr (c', w')).
Proof.
  split; [vm_compute; reflexivity|].
  split; [vm_compute; done|].
  intros Hclaim.
  destruct (Hclaim 10 (Lab.collector_on Lab.disk_full) Lab.known_world)
    as (c' & w' & Hgo); [vm_compute; reflexivity|].
  rewrite collection_round_at_limit in Hgo by (vm_compute; reflexivity).
  discriminate.
Qed.

(** ** Envelope dispatch on the server *)

Lemma ingests_refl db : ingests db db.
Proof. split; [done | by left]. Qed.

Lemma ingests_invariant db db' :
  ingests db db' → samples_registered db → samples_registered db'.
Proof.
  unfold samples_registered. intros [Hreg Hvar] Hinv.
  assert (Hold : Forall
    (λ d, ∃ id, MonitoringServer.vd_machine_id d = JStr id
                ∧ is_Some (MonitoringServer.machine_ids_collection db' !! id))
    (MonitoringServer.variable_collection db)).
  { eapply Forall_impl; [exact Hinv|]. intros d (id & Hd & Hid). eauto. }
  destruct Hvar as [->|(d & id & -> & Hd & Hid)]; [exact Hold|].
  apply Forall_app. split; [exact Hold|]. apply Forall_singleton. eauto.
Qed.

Section ServerProperties.
Context `{Runtime}.

Lemma register_machine_effect now db machine_id static_data :
  let db' := (MonitoringServer.register_machine now db machine_id static_data).2 in
  MonitoringServer.variable_collection db'
  = MonitoringServer.variable_collection db
  ∧ ∀ id, is_Some (MonitoringServer.machine_ids_collection db !! id) →
          is_Some (MonitoringServer.machine_ids_collection db' !! id).
Proof.
  unfold MonitoringServer.register_machine.
  destruct (_ ≫= _) as [[h n]|]; [|done].
  destruct (negb _); [done|].
  split; [done|]. cbn. intros id Hid.
  destruct (decide (machine_id = id)) as [->|Hne].
  - rewrite lookup_insert_eq. eauto.
  - by rewrite lookup_insert_ne.
Qed.

Lemma save_static_data_effect now db machine_id data :
  let db' := (MonitoringServer.save_static_data now db machine_id data).2 in
  MonitoringServer.variable_collection db'
  = MonitoringServer.variable_collection db
  ∧ MonitoringServer.machine_ids_collection db'
    = MonitoringServer.machine_ids_collection db.
Proof.
  unfold MonitoringServer.save_static_data.
  destruct (MonitoringServer.gets _ _); [|done]. by destruct (negb _).
Qed.

Lemma find_one_machine_plain db machine_id r :
  is_dict machine_id = false →
  MonitoringServer.find_one_machine db machine_id = Some r →
  ∃ id, machine_id = JStr id
        ∧ MonitoringServer.select_machine db machine_id = Some id
        ∧ MonitoringServer.machine_ids_collection db !! id = Some r.
Proof.
  intros Hplain Hfound.
  destruct machine_id as [| | | |id| |]; try discriminate.
  unfold MonitoringServer.find_one_machine in Hfound. cbn in *.
  case_decide; [|discriminate]. cbn in Hfound. eauto.
Qed.

Lemma save_variable_data_ingests now db machine_id data r :
  is_dict machine_id = false →
  MonitoringServer.find_one_machine db machine_id = Some r →
  ingests db (MonitoringServer.save_variable_data now db machine_id data).2.
Proof.
  intros Hplain Hfound.
  destruct (find_one_machine_plain _ _ _ Hplain Hfound) as (id & -> & Hsel & Hr).
  unfold MonitoringServer.save_variable_data.
  destruct (MonitoringServer.gets _ _) as [fields|]; [|apply ingests_refl].
  destruct (negb _); [apply ingests_refl|].
  rewrite Hsel. split; cbn.
  - intros k Hk. destruct (decide (id = k)) as [->|Hne].
    + rewrite lookup_alter_eq, Hr. cbn. eauto.
    + by rewrite lookup_alter_ne.
  - right. eexists _, id. split; [reflexivity|]. cbn. split; [done|].
    rewrite Hr. eauto.
Qed.

Lemma process_data_ingests now db data :
  plain_id data = true →
  ingests db (MonitoringServer.process_data now db data).2.
Proof.
  intros Hplain. unfold MonitoringServer.process_data.
  destruct (get data "version" JNull) as [version|e] eqn:Hv; cbn;
    [|destruct e; apply ingests_refl].
  destruct (eq_str version "1.0"); cbn; [|apply ingests_refl].
  destruct (get data "content" JNull) as [content|e]; cbn;
    [|destruct e; apply ingests_refl].
  destruct (contains "os" content) as [[]|e]; cbn;
    [| |destruct e; apply ingests_refl].
  - destruct (MonitoringServer.StaticData content) as [[]|e]; cbn;
      [|destruct e; apply ingests_refl].
    destruct (MonitoringServer.generate_machine_id content) as [machine_id|];
      cbn; [|apply ingests_refl].
    destruct (negb (negb (machine_id =? ""))%string); cbn; [apply ingests_refl|].
    pose proof (register_machine_effect now db machine_id content) as Hreg.
    destruct (MonitoringServer.register_machine now db machine_id content)
      as [registered db1]. cbn in Hreg. destruct Hreg as [Hvar1 Hreg1].
    assert (ingests db db1) by (split; [done | by left]).
    destruct registered; cbn; [|done].
    pose proof (save_static_data_effect now db1 machine_id content) as Hsave.
    destruct (MonitoringServer.save_static_data now db1 machine_id content)
      as [saved db2]. cbn in Hsave. destruct Hsave as [Hvar2 Hreg2].
    assert (ingests db db2).
    { split; [rewrite Hreg2; done | left; congruence]. }
    by destruct saved.
  - destruct (contains "machine_id" data) as [[]|e]; cbn;
      [| apply ingests_refl | destruct e; apply ingests_refl].
    unfold plain_id in Hplain.
    destruct (get data "machine_id" JNull) as [machine_id|e]; cbn;
      [|destruct e; apply ingests_refl].
    destruct (MonitoringServer.find_one_machine db machine_id) as [r|] eqn:Hfind;
      cbn; [|apply ingests_refl].
    assert (Hnodoc : is_dict machine_id = false) by by destruct machine_id.
    pose proof (save_variable_data_ingests now db machine_id content r
                  Hnodoc Hfind) as Hsave.
    destruct (MonitoringServer.save_variable_data now db machine_id content)
      as [saved db1]. cbn in Hsave. by destruct saved.
Qed.

End ServerProperties.

(** C2 (amended). For an envelope whose [machine_id] is not a document:
    [process_data] keeps every stored sample under a registered id; and
    when the envelope has version "1.0", a content in which ['os'] is
    not found, and a [machine_id] entry whose value finds no record in
    the registry, the answer is the error RESEND_STATIC_DATA and the
    database is left as it was. *)
Theorem unknown_sample_gets_resend `{Runtime} now db data :
  plain_id data = true →
  (samples_registered db →
   samples_registered (MonitoringServer.process_data now db data).2)
  ∧ (∀ content machine_id,
       get data "version" JNull = Ok (JStr "1.0") →
       get data "content" JNull = Ok content →
       contains "os" content = Ok false →
       contains "machine_id" data = Ok true →
       get data "machine_id" JNull = Ok machine_id →
       MonitoringServer.find_one_machine db machine_id = None →
       MonitoringServer.process_data now db data
       = (MonitoringServer.error_response "RESEND_STATIC_DATA", db)).
Proof.
  intros Hplain. split.
  - by apply ingests_invariant, process_data_ingests.
  - intros content machine_id Hv Hc Hos Hkey Hid Hfind.
    unfold MonitoringServer.process_data.
    rewrite Hv. cbn. rewrite Hc. cbn. rewrite Hos. cbn.
    rewrite Hkey. cbn. rewrite Hid. cbn. by rewrite Hfind.
Qed.

Lemma unknown_sample_gets_resend_witness :
  let data := Agent.envelope "2.json.gz" Lab.sample (JStr "abc") "t" in
  plain_id data = true
  ∧ samples_registered
      (@MonitoringServer.process_data Lab.runtime (Lab.at_time 7)
         MonitoringServer.empty_database data).2
  ∧ @MonitoringServer.process_data Lab.runtime (Lab.at_time 7)
      MonitoringServer.empty_database data
    = (MonitoringServer.error_response "RESEND_STATIC_DATA",
       MonitoringServer.empty_database).
Proof.
  cbv zeta.
  pose proof (@unknown_sample_gets_resend Lab.runtime (Lab.at_time 7)
                MonitoringServer.empty_database
                (Agent.envelope "2.json.gz" Lab.sample (JStr "abc") "t")
                eq_refl) as [Hinv Hresend].
  split; [reflexivity|]. split.
  - apply Hinv. apply Forall_nil_2.
  - apply (Hresend Lab.sample (JStr "abc")); reflexivity.
Defined.

(** C2, as stated, fails: an envelope with another version, a content
    that is no snapshot and an unknown [machine_id] is answered
    'Invalid data version', not RESEND_STATIC_DATA. *)
Lemma old_version_not_resend :
  @MonitoringServer.process_data Lab.runtime (Lab.at_time 7)
    MonitoringServer.empty_database Lab.old_version_envelope
  = (MonitoringServer.error_response "Invalid data version",
     MonitoringServer.empty_database)
  ∧ ¬ (∀ now db data content machine_id,
         get data "content" JNull = Ok content →
         contains "os" content = Ok false →
         get data "machine_id" JNull = Ok machine_id →
         @MonitoringServer.find_one_machine Lab.runtime db machine_id = None →
         (@MonitoringServer.process_data Lab.runtime now db data).1
         = MonitoringServer.error_response "RESEND_STATIC_DATA").
Proof.
  split; [reflexivity|]. intros Hclaim.
  specialize (Hclaim (Lab.at_time 7) MonitoringServer.empty_database
                Lab.old_version_envelope Lab.sample (JStr "abc")
                eq_refl eq_refl eq_refl eq_refl).
  discriminate Hclaim.
Qed.

(** ** Admission under the worker pool *)

Lemma counted_app l1 l2 : counted (l1 ++ l2) = counted l1 + counted l2.
Proof. unfold counted. by rewrite filter_app, length_app. Qed.

Lemma counted_le l : counted l ≤ length l.
Proof. unfold counted. apply length_filter. Qed.

Lemma move_split c from to l l' :
  MonitoringServer.move c from to l = Some l' →
  ∃ l1 p l2,
    l = l1 ++ (c, p) :: l2 ∧ from p = true
    ∧ l' = l1 ++ match to with Some q => [(c, q)] | None => [] end ++ l2.
Proof.
  revert l'. induction l as [|[c' p] l IH]; intros l' Hmove; [discriminate|].
  cbn in Hmove.
  destruct (Nat.eqb c c' && from p) eqn:Hhit.
  - apply andb_true_iff in Hhit as [Hc Hp]. apply Nat.eqb_eq in Hc as <-.
    injection Hmove as <-. exists [], p, l. by destruct to.
  - destruct (MonitoringServer.move c from to l) as [l0|]; [|discriminate].
    injection Hmove as <-.
    destruct (IH l0 eq_refl) as (l1 & q & l2 & -> & Hq & ->).
    by exists ((c', p) :: l1), q, l2.
Qed.

Lemma counted_cons c p l : counted ((c, p) :: l) = weight p + counted l.
Proof.
  unfold counted, weight. rewrite filter_cons. cbn [snd].
  destruct (MonitoringServer.is_phase MonitoringServer.Started p);
    case_decide; done.
Qed.

(** How [move] changes the number of calls and of counted calls. *)
Lemma move_counted c from to l l' :
  MonitoringServer.move c from to l = Some l' →
  ∃ p, from p = true
       ∧ counted l' + weight p
         = counted l + match to with Some q => weight q | None => 0 end
       ∧ length l' + match to with Some _ => 0 | None => 1 end = length l
       ∧ counted l + 1 ≤ length l + weight p.
Proof.
  intros Hmove.
  destruct (move_split _ _ _ _ _ Hmove) as (l1 & p & l2 & -> & Hp & ->).
  exists p. split; [done|].
  pose proof (counted_le l1). pose proof (counted_le l2).
  assert (weight p ≤ 1).
  { unfold weight. destruct (MonitoringServer.is_phase _ p); lia. }
  assert (counted [] = 0) as Hnil by reflexivity.
  destruct to as [q|];
    rewrite !counted_app, !length_app, ?counted_cons; cbn [length app];
    rewrite ?counted_cons, Hnil; repeat split; lia.
Qed.

Section PoolProperties.
Context `{Runtime}.

Ltac pool_fields :=
  cbn [MonitoringServer.active_connections MonitoringServer.running
       MonitoringServer.rejected].

Lemma step_invariant e s s' :
  pool_invariant s → MonitoringServer.step e s = Some s' → pool_invariant s'.
Proof.
  unfold pool_invariant.
  intros (Hcount & Hfit & Hrej) Hstep. destruct e as [c| |c|c msg now|c|c|c];
    cbn in Hstep.
  - injection Hstep as <-. done.
  - destruct (MonitoringServer.work_queue s) as [|c queue]; [discriminate|].
    case_decide; [|discriminate]. injection Hstep as <-. pool_fields.
    rewrite counted_app, length_app, counted_cons.
    change (counted []) with 0. cbn [length weight MonitoringServer.is_phase].
    repeat split; [lia | lia | done].
  - case_decide as Hover;
      destruct (MonitoringServer.move c _ _ (MonitoringServer.running s))
        as [l|] eqn:Hmove; try discriminate;
      destruct (move_counted _ _ _ _ _ Hmove) as (p & Hp & Hc & Hl & Hroom);
      destruct p; try discriminate; cbn in Hc, Hl, Hroom.
    + lia.
    + injection Hstep as <-. pool_fields. repeat split; [lia | lia | done].
  - destruct (MonitoringServer.move c _ _ (MonitoringServer.running s));
      [|discriminate].
    destruct msg as [json_data|];
      [destruct (MonitoringServer.process_data now _ json_data)|];
      injection Hstep as <-; done.
  - destruct (MonitoringServer.move c _ _ (MonitoringServer.running s))
      as [l|] eqn:Hmove; [|discriminate].
    injection Hstep as <-. pool_fields.
    destruct (move_counted _ _ _ _ _ Hmove) as (p & Hp & Hc & Hl & _).
    destruct p; try discriminate. cbn in Hc, Hl.
    repeat split; [lia | lia | done].
  - destruct (MonitoringServer.move c _ _ (MonitoringServer.running s))
      as [l|] eqn:Hmove; [|discriminate].
    injection Hstep as <-. pool_fields.
    destruct (move_counted _ _ _ _ _ Hmove) as (p & Hp & Hc & Hl & _).
    destruct p; try discriminate; cbn in Hc, Hl;
      (repeat split; [lia | lia | done]).
  - destruct (MonitoringServer.move c _ _ (MonitoringServer.running s))
      as [l|] eqn:Hmove; [|discriminate].
    injection Hstep as <-. pool_fields.
    destruct (move_counted _ _ _ _ _ Hmove) as (p & Hp & Hc & Hl & _).
    destruct p; try discriminate. cbn in Hc, Hl.
    repeat split; [lia | lia | done].
Qed.

Lemma run_invariant es s s' :
  pool_invariant s → MonitoringServer.run es s = Some s' → pool_invariant s'.
Proof.
  revert s. induction es as [|e es IH]; intros s Hinv Hrun; cbn in Hrun.
  - by injection Hrun as <-.
  - destruct (MonitoringServer.step e s) as [s1|] eqn:Hstep; [|discriminate].
    cbn in Hrun. eauto using step_invariant.
Qed.

(** C5. Under the executor of [MAX_CONCURRENT_CONNECTIONS] threads the
    test [active_connections > MAX_CONCURRENT_CONNECTIONS] never
    succeeds: whatever the connections and the scheduling, the counter
    stays within the cap and no connection is ever sent
    'Too many connections'. A connection beyond the cap waits in the
    executor's queue. *)
Theorem admission_rejection_unreachable es db s :
  MonitoringServer.run es (MonitoringServer.initial_pool db) = Some s →
  MonitoringServer.rejected s = []
  ∧ MonitoringServer.active_connections s
    ≤ MonitoringServer.MAX_CONCURRENT_CONNECTIONS
  ∧ length (MonitoringServer.running s)
    ≤ MonitoringServer.MAX_CONCURRENT_CONNECTIONS.
Proof.
  intros Hrun.
  assert (Hinit : pool_invariant (MonitoringServer.initial_pool db)).
  { unfold pool_invariant, MonitoringServer.MAX_CONCURRENT_CONNECTIONS.
    cbn. repeat split; lia. }
  destruct (run_invariant _ _ _ Hinit Hrun) as (Hcount & Hfit & Hrej).
  pose proof (counted_le (MonitoringServer.running s)).
  repeat split; [done | lia | done].
Qed.

End PoolProperties.

Lemma admission_rejection_unreachable_witness :
  @MonitoringServer.run Lab.runtime Lab.rush
    (MonitoringServer.initial_pool MonitoringServer.empty_database)
  = Some Lab.crowded
  ∧ MonitoringServer.rejected Lab.crowded = []
  ∧ MonitoringServer.active_connections Lab.crowded
    ≤ MonitoringServer.MAX_CONCURRENT_CONNECTIONS
  ∧ length (MonitoringServer.running Lab.crowded)
    ≤ MonitoringServer.MAX_CONCURRENT_CONNECTIONS.
Proof.
  assert (Hrun : @MonitoringServer.run Lab.runtime Lab.rush
    (MonitoringServer.initial_pool MonitoringServer.empty_database)
    = Some Lab.crowded) by (vm_compute; reflexivity).
  split; [exact Hrun|].
  exact (@admission_rejection_unreachable Lab.runtime Lab.rush
           MonitoringServer.empty_database Lab.crowded Hrun).
Defined.

(** With fifty connections being served, the fifty-first is neither
    answered nor closed: its call cannot start, enter or read a frame
    until a thread is free, and once one is, it is admitted. *)
Lemma fifty_first_connection_waits :
  MonitoringServer.work_queue Lab.crowded = [50]
  ∧ MonitoringServer.outbox Lab.crowded = []
  ∧ MonitoringServer.closed_sockets Lab.crowded = []
  ∧ @MonitoringServer.step Lab.runtime MonitoringServer.Start Lab.crowded = None
  ∧ @MonitoringServer.step Lab.runtime (MonitoringServer.Enter 50) Lab.crowded
    = None
  ∧ @MonitoringServer.step Lab.runtime
      (MonitoringServer.Frame 50 (Some Lab.sample) (Lab.at_time 0)) Lab.crowded = None
  ∧ (MonitoringServer.running
       <$> @MonitoringServer.run Lab.runtime
             [MonitoringServer.Hangup 0; MonitoringServer.Close 0;
              MonitoringServer.Release 0; MonitoringServer.Start;
              MonitoringServer.Enter 50] Lab.crowded)
    = Some (map (λ c, (c, MonitoringServer.Serving)) (seq 1 50)).
Proof. repeat split; vm_compute; reflexivity. Qed.

(** ** The frame loop *)

Lemma string_app_cons x (a b : string) : String x a +:+ b = String x (a +:+ b).
Proof. reflexivity. Qed.

Lemma string_app_nil_l (b : string) : "" +:+ b = b.
Proof. reflexivity. Qed.

Lemma string_app_assoc (a b c : string) : (a +:+ b) +:+ c = a +:+ (b +:+ c).
Proof.
  induction a as [|x a IH]; [reflexivity|].
  by rewrite !string_app_cons, IH.
Qed.

Lemma string_app_nil_r (a : string) : a +:+ "" = a.
Proof.
  induction a as [|x a IH]; [reflexivity|]. by rewrite string_app_cons, IH.
Qed.

Lemma has_newline_app a b :
  MonitoringServer.has_newline (a +:+ b)
  = MonitoringServer.has_newline a || MonitoringServer.has_newline b.
Proof.
  induction a as [|x a IH]; [reflexivity|].
  rewrite string_app_cons. cbn. rewrite IH. by rewrite orb_assoc.
Qed.

Lemma count_newlines_app a b :
  count_newlines (a +:+ b) = count_newlines a + count_newlines b.
Proof.
  induction a as [|x a IH]; [reflexivity|].
  rewrite string_app_cons. cbn. rewrite IH. lia.
Qed.

Lemma has_newline_count s :
  MonitoringServer.has_newline s = false ↔ count_newlines s = 0.
Proof.
  induction s as [|x s IH]; cbn; [done|].
  destruct (Ascii.eqb x "010"); cbn; [split; [done | lia] | exact IH].
Qed.

(** [partition] on a buffer that has a newline: the line before the
    first newline, and the rest. *)
Lemma partition_found d :
  MonitoringServer.has_newline d = true →
  ∃ message rest,
    MonitoringServer.partition d = (message, MonitoringServer.LF, rest)
    ∧ d = message +:+ MonitoringServer.LF +:+ rest
    ∧ MonitoringServer.has_newline message = false.
Proof.
  induction d as [|x d IH]; simpl; [discriminate|].
  destruct (Ascii.eqb_spec x "010") as [->|Hx]; simpl.
  - intros _. by exists "", d.
  - intros Hd. destruct (IH Hd) as (m & rest & -> & -> & Hm).
    exists (String x m), rest. simpl.
    apply Ascii.eqb_neq in Hx. by rewrite Hx.
Qed.

Lemma partition_not_found d :
  MonitoringServer.has_newline d = false →
  MonitoringServer.partition d = (d, "", "").
Proof.
  induction d as [|x d IH]; simpl; [done|].
  destruct (Ascii.eqb x "010"); simpl; [discriminate|].
  intros Hd. by rewrite (IH Hd).
Qed.

Lemma partition_app d extra message rest :
  MonitoringServer.has_newline d = true →
  MonitoringServer.partition d = (message, MonitoringServer.LF, rest) →
  MonitoringServer.partition (d +:+ extra)
  = (message, MonitoringServer.LF, rest +:+ extra).
Proof.
  revert message. induction d as [|x d IH]; simpl; [discriminate|].
  intros message. destruct (Ascii.eqb x "010"); simpl.
  - intros _ [= <- <-]. reflexivity.
  - intros Hd Hp.
    destruct (MonitoringServer.partition d) as [[m sep] tl] eqn:Hpd.
    injection Hp as <- -> ->. by rewrite (IH m Hd eq_refl).
Qed.

Lemma unlines_cons m ms :
  unlines (m :: ms) = m +:+ MonitoringServer.LF +:+ unlines ms.
Proof. reflexivity. Qed.

Lemma unlines_app ms1 ms2 : unlines (ms1 ++ ms2) = unlines ms1 +:+ unlines ms2.
Proof.
  induction ms1 as [|m ms1 IH]; [reflexivity|].
  cbn [app]. by rewrite !unlines_cons, IH, !string_app_assoc.
Qed.

Lemma count_newlines_unlines ms rest :
  Forall (λ m, MonitoringServer.has_newline m = false) ms →
  MonitoringServer.has_newline rest = false →
  count_newlines (unlines ms +:+ rest) = length ms.
Proof.
  intros Hms Hrest. induction Hms as [|m ms Hm _ IH].
  - by apply has_newline_count.
  - cbn [length]. rewrite unlines_cons.
    rewrite !string_app_assoc, (count_newlines_app m), (count_newlines_app _ (unlines ms +:+ rest)), IH.
    apply has_newline_count in Hm. rewrite Hm. reflexivity.
Qed.

(** A line and what follows it are determined by the bytes. *)
Lemma first_line_unique m m' tl tl' :
  MonitoringServer.has_newline m = false →
  MonitoringServer.has_newline m' = false →
  m +:+ MonitoringServer.LF +:+ tl = m' +:+ MonitoringServer.LF +:+ tl' →
  m = m' ∧ tl = tl'.
Proof.
  revert m'. induction m as [|x m IH]; intros [|x' m'] Hm Hm' Heq;
    rewrite ?string_app_cons, ?string_app_nil_l in Heq;
    unfold MonitoringServer.LF in Heq;
    rewrite ?string_app_cons, ?string_app_nil_l in Heq.
  - by injection Heq as ->.
  - injection Heq as <- _. cbn in Hm'. discriminate.
  - injection Heq as -> _. cbn in Hm. discriminate.
  - injection Heq as -> Heq.
    cbn in Hm, Hm'. apply orb_false_iff in Hm as [_ Hm].
    apply orb_false_iff in Hm' as [_ Hm'].
    destruct (IH m' Hm Hm') as [-> ->]; [|done].
    unfold MonitoringServer.LF.
    by rewrite ?string_app_cons, ?string_app_nil_l.
Qed.

Lemma unlines_unique ms ms' rest rest' :
  Forall (λ m, MonitoringServer.has_newline m = false) ms →
  Forall (λ m, MonitoringServer.has_newline m = false) ms' →
  MonitoringServer.has_newline rest = false →
  MonitoringServer.has_newline rest' = false →
  unlines ms +:+ rest = unlines ms' +:+ rest' →
  ms = ms' ∧ rest = rest'.
Proof.
  intros Hms. revert ms'.
  induction Hms as [|m ms Hm _ IH]; intros ms' Hms' Hr Hr' Heq;
    destruct Hms' as [|m' ms' Hm' Hms']; rewrite ?unlines_cons in Heq;
    change (unlines []) with "" in Heq; rewrite ?string_app_nil_l in Heq.
  - done.
  - exfalso. rewrite Heq in Hr. rewrite !string_app_assoc in Hr.
    rewrite !has_newline_app in Hr. cbn in Hr.
    by rewrite orb_true_r in Hr.
  - exfalso. rewrite <- Heq in Hr'. rewrite !string_app_assoc in Hr'.
    rewrite !has_newline_app in Hr'. cbn in Hr'.
    by rewrite orb_true_r in Hr'.
  - rewrite !string_app_assoc in Heq.
    destruct (first_line_unique _ _ _ _ Hm Hm' Heq) as [-> Htl].
    destruct (IH ms' Hms' Hr Hr' Htl) as [-> ->]. done.
Qed.

Section FrameProperties.
Context `{Runtime}.
Variable loads : string → MonitoringServer.loaded.
Variable clock : nat → MonitoringServer.clock_read → Z.

Abbreviation answer := (MonitoringServer.answer loads clock).
Abbreviation drain := (MonitoringServer.drain loads clock).
Abbreviation on_packet := (MonitoringServer.on_packet loads clock).
Abbreviation recv_loop := (MonitoringServer.recv_loop loads clock).
Abbreviation answers := (foldl (λ c m, MonitoringServer.answer loads clock m c)).

Lemma answer_with_data message d c :
  answer message (with_data d c) = with_data d (answer message c).
Proof.
  unfold MonitoringServer.answer, with_data. cbn.
  by destruct (match loads message with
               | MonitoringServer.Loaded j => _
               | MonitoringServer.JSONDecodeError => _
               | MonitoringServer.OtherError t => _
               end).
Qed.

Lemma answer_data message c :
  MonitoringServer.data (answer message c) = MonitoringServer.data c.
Proof.
  unfold MonitoringServer.answer.
  by destruct (match loads message with
               | MonitoringServer.Loaded j => _
               | MonitoringServer.JSONDecodeError => _
               | MonitoringServer.OtherError t => _
               end).
Qed.

Lemma answer_counts message c :
  MonitoringServer.handled (answer message c) = S (MonitoringServer.handled c)
  ∧ length (MonitoringServer.sent (answer message c))
    = S (length (MonitoringServer.sent c)).
Proof.
  unfold MonitoringServer.answer.
  destruct (match loads message with
            | MonitoringServer.Loaded j => _
            | MonitoringServer.JSONDecodeError => _
            | MonitoringServer.OtherError t => _
            end).
  cbn. rewrite length_app. cbn. split; [done | lia].
Qed.

(** One round of the inner loop. *)
Lemma drain_step fuel c message rest :
  MonitoringServer.has_newline (MonitoringServer.data c) = true →
  MonitoringServer.partition (MonitoringServer.data c)
  = (message, MonitoringServer.LF, rest) →
  drain (S fuel) c = drain fuel (answer message (with_data rest c)).
Proof. intros Hnl Hp. cbn. by rewrite Hnl, Hp. Qed.

Lemma drain_idle fuel c :
  MonitoringServer.has_newline (MonitoringServer.data c) = false →
  drain fuel c = c.
Proof. intros Hnl. destruct fuel; cbn; by rewrite Hnl. Qed.

Lemma with_data_with_data d d' c : with_data d (with_data d' c) = with_data d c.
Proof. reflexivity. Qed.

Lemma with_data_id c : with_data (MonitoringServer.data c) c = c.
Proof. by destruct c. Qed.

Lemma answers_with_data messages d c :
  answers (with_data d c) messages = with_data d (answers c messages).
Proof.
  revert c. induction messages as [|m ms IH]; intros c; cbn; [done|].
  by rewrite answer_with_data, IH.
Qed.

(** The inner loop with one round per byte of the buffer: the lines
    taken off, in order, each answered in turn; what it leaves in the
    buffer has no newline. *)
Lemma drain_lines fuel c :
  String.length (MonitoringServer.data c) ≤ fuel →
  ∃ messages rest,
    MonitoringServer.data c = unlines messages +:+ rest
    ∧ Forall (λ m, MonitoringServer.has_newline m = false) messages
    ∧ MonitoringServer.has_newline rest = false
    ∧ drain fuel c = with_data rest (answers c messages).
Proof.
  revert c. induction fuel as [|fuel IH]; intros c Hlen.
  - destruct (MonitoringServer.data c) as [|x d] eqn:Hd; [|cbn in Hlen; lia].
    exists [], "". rewrite drain_idle by (by rewrite Hd).
    split; [done|]. split; [constructor|]. split; [done|].
    cbn. by rewrite <- Hd, with_data_id.
  - destruct (MonitoringServer.has_newline (MonitoringServer.data c)) eqn:Hnl.
    + destruct (partition_found _ Hnl) as (m & rest & Hp & Hd & Hm).
      rewrite (drain_step fuel c m rest Hnl Hp).
      destruct (IH (answer m (with_data rest c)))
        as (ms & r & Hd' & Hms & Hr & Hrun).
      { rewrite answer_data. cbn. rewrite Hd in Hlen.
        rewrite !string_length_app in Hlen. cbn in Hlen. lia. }
      rewrite answer_data in Hd'. cbn in Hd'.
      exists (m :: ms), r.
      split; [rewrite Hd, Hd'; cbn; by rewrite !string_app_assoc|].
      split; [by constructor|]. split; [done|].
      rewrite Hrun. cbn.
      by rewrite answer_with_data, answers_with_data, with_data_with_data.
    + exists [], (MonitoringServer.data c). rewrite drain_idle by done.
      split; [done|]. split; [constructor|]. split; [done|].
      cbn. by rewrite with_data_id.
Qed.

Lemma answers_counts messages c :
  MonitoringServer.handled (answers c messages)
  = MonitoringServer.handled c + length messages
  ∧ length (MonitoringServer.sent (answers c messages))
    = length (MonitoringServer.sent c) + length messages.
Proof.
  revert c. induction messages as [|m ms IH]; intros c; cbn; [lia|].
  destruct (IH (answer m c)) as [-> ->].
  destruct (answer_counts m c) as [-> ->]. lia.
Qed.

Lemma on_packet_lines c packet :
  ∃ messages rest,
    MonitoringServer.data c +:+ packet = unlines messages +:+ rest
    ∧ Forall (λ m, MonitoringServer.has_newline m = false) messages
    ∧ MonitoringServer.has_newline rest = false
    ∧ on_packet c packet = with_data rest (answers c messages).
Proof.
  unfold MonitoringServer.on_packet. cbn.
  destruct (drain_lines
              (String.length (MonitoringServer.data c +:+ packet))
              (with_data (MonitoringServer.data c +:+ packet) c))
    as (ms & rest & Hd & Hms & Hr & Hrun); [done|].
  exists ms, rest. cbn in Hd. repeat (split; [done|]).
  unfold with_data in Hrun at 1. rewrite Hrun.
  by rewrite answers_with_data, with_data_with_data.
Qed.

(** X1. What [handle_client] does with a packet: the buffer followed by
    the packet is cut, in the one way there is, into its complete lines
    and a rest without newline; each line is answered, in order, and the
    rest stays in the buffer. No byte is lost and none is read twice. *)
Theorem packet_is_cut_into_lines c packet :
  ∃ messages rest,
    MonitoringServer.data c +:+ packet = unlines messages +:+ rest
    ∧ Forall (λ m, MonitoringServer.has_newline m = false) messages
    ∧ MonitoringServer.has_newline rest = false
    ∧ on_packet c packet = with_data rest (answers c messages)
    ∧ ∀ messages' rest',
        MonitoringServer.data c +:+ packet = unlines messages' +:+ rest' ∧
        Forall (λ m, MonitoringServer.has_newline m = false) messages' ∧
        MonitoringServer.has_newline rest' = false →
        messages' = messages ∧ rest' = rest.
Proof.
  destruct (on_packet_lines c packet) as (ms & rest & Hd & Hms & Hr & Hrun).
  exists ms, rest. repeat (split; [done|]).
  intros ms' rest' (Hd' & Hms' & Hr').
  apply unlines_unique; [done | done | done | done | congruence].
Qed.

Lemma on_packet_app c p1 p2 :
  on_packet (on_packet c p1) p2 = on_packet c (p1 +:+ p2).
Proof.
  destruct (on_packet_lines c p1) as (ms1 & r1 & Hd1 & Hms1 & Hr1 & ->).
  destruct (on_packet_lines (with_data r1 (answers c ms1)) p2)
    as (ms2 & r2 & Hd2 & Hms2 & Hr2 & ->).
  destruct (on_packet_lines c (p1 +:+ p2)) as (ms & r & Hd & Hms & Hr & ->).
  cbn in Hd2.
  assert (ms = ms1 ++ ms2 ∧ r = r2) as [-> ->].
  { apply unlines_unique; [done | by apply Forall_app | done | done |].
    rewrite <- Hd, <- string_app_assoc, Hd1, unlines_app.
    by rewrite !string_app_assoc, Hd2. }
  by rewrite answers_with_data, with_data_with_data, foldl_app.
Qed.

Lemma recv_loop_on_concat c packets :
  packets ≠ [] →
  Forall (λ packet, packet ≠ "") packets →
  recv_loop c packets = on_packet c (String.concat "" packets).
Proof.
  intros Hne Hall. revert c.
  induction Hall as [|p ps Hp Hps IH]; intros c; [done|].
  cbn [MonitoringServer.recv_loop].
  apply String.eqb_neq in Hp. rewrite Hp.
  destruct ps as [|p' ps]; [reflexivity|].
  rewrite IH by done. rewrite on_packet_app. reflexivity.
Qed.

(** X2. The replies, the database and the buffer after a run of packets
    are those after the same bytes received as one packet: how the
    stream is cut into packets makes no difference. *)
Theorem recv_loop_chunking c packets :
  packets ≠ [] →
  Forall (λ packet, packet ≠ "") packets →
  recv_loop c packets = on_packet c (String.concat "" packets).
Proof. apply recv_loop_on_concat. Qed.

(** X3. On a connection whose buffer holds no complete line, a run of
    packets is answered with exactly one reply per newline received;
    the bytes after the last newline stay in the buffer, unanswered. *)
Theorem one_reply_per_line c packets :
  MonitoringServer.has_newline (MonitoringServer.data c) = false →
  packets ≠ [] →
  Forall (λ packet, packet ≠ "") packets →
  let c' := recv_loop c packets in
  length (MonitoringServer.sent c')
  = length (MonitoringServer.sent c)
    + count_newlines (String.concat "" packets)
  ∧ MonitoringServer.handled c'
    = MonitoringServer.handled c + count_newlines (String.concat "" packets)
  ∧ MonitoringServer.has_newline (MonitoringServer.data c') = false.
Proof.
  intros Hidle Hne Hall. cbv zeta.
  rewrite (recv_loop_on_concat c packets Hne Hall).
  destruct (on_packet_lines c (String.concat "" packets))
    as (ms & r & Hd & Hms & Hr & ->).
  cbn. destruct (answers_counts ms c) as [-> ->].
  assert (count_newlines (String.concat "" packets) = length ms) as ->.
  { rewrite <- (count_newlines_unlines ms r Hms Hr), <- Hd.
    rewrite count_newlines_app.
    apply has_newline_count in Hidle. by rewrite Hidle. }
  done.
Qed.

End FrameProperties.

Lemma recv_loop_chunking_witness :
  @MonitoringServer.recv_loop Lab.runtime Lab.loads Lab.tick
    Lab.new_connection Lab.packets
  = @MonitoringServer.on_packet Lab.runtime Lab.loads Lab.tick
      Lab.new_connection (String.concat "" Lab.packets)
  ∧ MonitoringServer.sent
      (@MonitoringServer.recv_loop Lab.runtime Lab.loads Lab.tick
         Lab.new_connection Lab.packets)
    = [JObj [("status", JStr "success"); ("machine_id", JStr Lab.snapshot_id);
             ("message", JStr "Static data registered")];
       JObj [("status", JStr "success");
             ("message", JStr "Variable data saved")];
       MonitoringServer.error_response "Invalid JSON"].
Proof.
  split.
  - apply (@recv_loop_chunking Lab.runtime Lab.loads Lab.tick
             Lab.new_connection Lab.packets); [done|].
    repeat constructor; done.
  - vm_compute. reflexivity.
Defined.

Lemma one_reply_per_line_witness :
  let c' := @MonitoringServer.recv_loop Lab.runtime Lab.loads Lab.tick
              Lab.new_connection Lab.packets in
  length (MonitoringServer.sent c') = 3
  ∧ MonitoringServer.handled c' = 3
  ∧ MonitoringServer.data c' = "V".
Proof.
  cbv zeta.
  destruct (@one_reply_per_line Lab.runtime Lab.loads Lab.tick
              Lab.new_connection Lab.packets eq_refl)
    as (Hsent & Hhandled & _); [done | repeat constructor; done |].
  split; [exact Hsent|]. split; [exact Hhandled|].
  vm_compute. reflexivity.
Defined.

(** ** More on the envelope dispatch *)

Lemma gets_cons data k d keys :
  MonitoringServer.gets data ((k, d) :: keys)
  = (v ← get data k d; rest ← MonitoringServer.gets data keys;
     Ok ((k, v) :: rest)).
Proof. reflexivity. Qed.

(** On a dict every [get] succeeds. *)
Lemma gets_dict kv keys :
  ∃ fields, MonitoringServer.gets (JObj kv) keys = Ok fields.
Proof.
  induction keys as [|[k d] keys [fields IH]]; [by exists []|].
  rewrite gets_cons, IH. cbn. eauto.
Qed.

Lemma StaticData_dict content :
  MonitoringServer.StaticData content = Ok () →
  ∃ kv os_info,
    content = JObj kv ∧ dict_lookup "os" kv = Some (JObj os_info).
Proof.
  destruct content as [| | | | | |kv]; try discriminate. cbn.
  destruct (dict_lookup "os" kv) as [[| | | | | |os_info]|] eqn:Hos;
    try discriminate.
  eauto.
Qed.

Section StorageProperties.
Context `{Runtime}.

Lemma register_machine_dict now db machine_id kv os_info :
  dict_lookup "os" kv = Some (JObj os_info) →
  ∃ h n,
    registry_document machine_id (JObj kv)
    = Ok (MonitoringServer.machine_document machine_id h n)
    ∧ MonitoringServer.register_machine now db machine_id (JObj kv)
      = if bson_accepts (MonitoringServer.machine_document machine_id h n)
        then
          (true,
           {| MonitoringServer.machine_ids_collection :=
                <[machine_id :=
                    {| MonitoringServer.hostname := h;
                       MonitoringServer.os_name := n;
                       MonitoringServer.first_seen :=
                         match MonitoringServer.machine_ids_collection db
                               !! machine_id with
                         | Some existing =>
                             MonitoringServer.first_seen existing
                         | None => now MonitoringServer.FirstSeen
                         end;
                       MonitoringServer.last_seen :=
                         now MonitoringServer.LastSeen;
                       MonitoringServer.status := "active" |}]>
                  (MonitoringServer.machine_ids_collection db);
              MonitoringServer.static_collection :=
                MonitoringServer.static_collection db;
              MonitoringServer.variable_collection :=
                MonitoringServer.variable_collection db |})
        else (false, db).
Proof.
  intros Hos.
  unfold MonitoringServer.register_machine, registry_document, get.
  rewrite Hos. cbn. eexists _, _. split; [reflexivity|].
  by destruct (bson_accepts _).
Qed.

Lemma save_static_data_dict now db machine_id kv :
  ∃ fields,
    MonitoringServer.gets (JObj kv) MonitoringServer.static_keys = Ok fields
    ∧ MonitoringServer.save_static_data now db machine_id (JObj kv)
      = if bson_accepts (MonitoringServer.document (JStr machine_id) fields)
        then
          (true,
           {| MonitoringServer.machine_ids_collection :=
                MonitoringServer.machine_ids_collection db;
              MonitoringServer.static_collection :=
                <[machine_id :=
                    {| MonitoringServer.sd_timestamp :=
                         now MonitoringServer.Timestamp;
                       MonitoringServer.sd_fields := fields |}]>
                  (MonitoringServer.static_collection db);
              MonitoringServer.variable_collection :=
                MonitoringServer.variable_collection db |})
        else (false, db).
Proof.
  unfold MonitoringServer.save_static_data.
  destruct (gets_dict kv MonitoringServer.static_keys) as [fields Hfields].
  rewrite Hfields. exists fields. split; [done|].
  by destruct (bson_accepts _).
Qed.

Lemma save_variable_data_dict now db machine_id kv :
  ∃ fields,
    MonitoringServer.gets (JObj kv) MonitoringServer.variable_keys = Ok fields
    ∧ MonitoringServer.save_variable_data now db machine_id (JObj kv)
      = if bson_accepts (MonitoringServer.document machine_id fields)
        then
          (true,
           {| MonitoringServer.machine_ids_collection :=
                match MonitoringServer.select_machine db machine_id with
                | Some id =>
                    alter
                      (λ r,
                         {| MonitoringServer.hostname :=
                              MonitoringServer.hostname r;
                            MonitoringServer.os_name :=
                              MonitoringServer.os_name r;
                            MonitoringServer.first_seen :=
                              MonitoringServer.first_seen r;
                            MonitoringServer.last_seen :=
                              now MonitoringServer.LastSeen;
                            MonitoringServer.status :=
                              MonitoringServer.status r |})
                      id (MonitoringServer.machine_ids_collection db)
                | None => MonitoringServer.machine_ids_collection db
                end;
              MonitoringServer.static_collection :=
                MonitoringServer.static_collection db;
              MonitoringServer.variable_collection :=
                MonitoringServer.variable_collection db
                ++ [{| MonitoringServer.vd_machine_id := machine_id;
                       MonitoringServer.vd_timestamp :=
                         now MonitoringServer.Timestamp;
                       MonitoringServer.vd_fields := fields |}] |})
        else (false, db).
Proof.
  unfold MonitoringServer.save_variable_data.
  destruct (gets_dict kv MonitoringServer.variable_keys) as [fields Hfields].
  rewrite Hfields. exists fields. split; [done|].
  by destruct (bson_accepts _).
Qed.

(** What [snapshot_accepted] says of a snapshot with its [os] entry. *)
Lemma snapshot_accepted_dict machine_id kv h n fields :
  registry_document machine_id (JObj kv)
  = Ok (MonitoringServer.machine_document machine_id h n) →
  MonitoringServer.gets (JObj kv) MonitoringServer.static_keys = Ok fields →
  snapshot_accepted machine_id (JObj kv) = true →
  bson_accepts (MonitoringServer.machine_document machine_id h n) = true
  ∧ bson_accepts (MonitoringServer.document (JStr machine_id) fields) = true.
Proof.
  unfold snapshot_accepted. intros -> ->. by intros ?%andb_true_iff.
Qed.

End StorageProperties.

Section DispatchProperties.
Context `{Runtime}.

(** The snapshot branch of [process_data], on a snapshot that passes
    the validation, gets an id and is taken by the database. *)
Lemma process_data_snapshot now db data content machine_id :
  get data "version" JNull = Ok (JStr "1.0") →
  get data "content" JNull = Ok content →
  MonitoringServer.StaticData content = Ok () →
  MonitoringServer.generate_machine_id content = Some machine_id →
  machine_id ≠ "" →
  snapshot_accepted machine_id content = true →
  ∃ record fields,
    MonitoringServer.process_data now db data
    = (JObj [("status", JStr "success"); ("machine_id", JStr machine_id);
             ("message", JStr "Static data registered")],
       {| MonitoringServer.machine_ids_collection :=
            <[machine_id := record]>
              (MonitoringServer.machine_ids_collection db);
          MonitoringServer.static_collection :=
            <[machine_id :=
                {| MonitoringServer.sd_timestamp :=
                     now MonitoringServer.Timestamp;
                   MonitoringServer.sd_fields := fields |}]>
              (MonitoringServer.static_collection db);
          MonitoringServer.variable_collection :=
            MonitoringServer.variable_collection db |})
    ∧ MonitoringServer.last_seen record = now MonitoringServer.LastSeen
    ∧ MonitoringServer.first_seen record
      = match MonitoringServer.machine_ids_collection db !! machine_id with
        | Some existing => MonitoringServer.first_seen existing
        | None => now MonitoringServer.FirstSeen
        end.
Proof.
  intros Hv Hc Hvalid Hid Hne Hacc.
  destruct (StaticData_dict _ Hvalid) as (kv & os_info & -> & Hos).
  destruct (register_machine_dict now db machine_id kv os_info Hos)
    as (h & n & Hrecord & Hreg).
  unfold MonitoringServer.process_data.
  rewrite Hv. cbn. rewrite Hc. cbn [mbind result_bind contains].
  rewrite Hos. rewrite bool_decide_eq_true_2 by eauto.
  cbn [mbind result_bind]. rewrite Hvalid. cbn [mbind result_bind].
  rewrite Hid. cbn [truthy].
  apply String.eqb_neq in Hne. rewrite Hne. cbn [negb].
  destruct (gets_dict kv MonitoringServer.static_keys) as [fields Hfields].
  destruct (snapshot_accepted_dict _ _ _ _ _ Hrecord Hfields Hacc)
    as [Hacc1 Hacc2].
  rewrite Hreg, Hacc1. cbn [negb].
  match goal with |- context [MonitoringServer.save_static_data now ?d _ _] =>
    destruct (save_static_data_dict now d machine_id kv)
      as (fields' & Hfields' & Hsave) end.
  rewrite Hfields in Hfields'. injection Hfields' as <-.
  rewrite Hsave, Hacc2. cbn [negb].
  cbn. eexists _, fields. split; [reflexivity|]. done.
Qed.

(** X4. An envelope that is not answered with status "success" stores
    no document: the snapshots and the samples are as they were. The
    one thing it can leave behind is a registry record, and only under
    the answer 'Failed to save static data': [register_machine] has
    written when [save_static_data] is refused. *)
Theorem rejected_envelope_stores_no_document now db data :
  let r := MonitoringServer.process_data now db data in
  get r.1 "status" JNull = Ok (JStr "success")
  ∨ (MonitoringServer.static_collection r.2
     = MonitoringServer.static_collection db
     ∧ MonitoringServer.variable_collection r.2
       = MonitoringServer.variable_collection db
     ∧ (r.1 ≠ MonitoringServer.error_response "Failed to save static data" →
        r.2 = db)).
Proof.
  cbv zeta. unfold MonitoringServer.process_data.
  destruct (get data "version" JNull) as [version|e]; cbn;
    [|destruct e; by right].
  destruct (eq_str version "1.0"); cbn; [|by right].
  destruct (get data "content" JNull) as [content|e]; cbn;
    [|destruct e; by right].
  destruct (contains "os" content) as [[]|e]; cbn; [| |destruct e; by right].
  - destruct (MonitoringServer.StaticData content) as [[]|e] eqn:Hvalid;
      cbn [mbind result_bind]; [|destruct e; by right].
    destruct (StaticData_dict _ Hvalid) as (kv & os_info & -> & Hos).
    destruct (MonitoringServer.generate_machine_id (JObj kv)) as [machine_id|];
      [|by right].
    destruct (negb (negb (machine_id =? ""))%string); [by right|].
    destruct (register_machine_dict now db machine_id kv os_info Hos)
      as (h & n & _ & ->).
    destruct (bson_accepts _); cbn [negb]; [|by right].
    match goal with |- context [MonitoringServer.save_static_data now ?d _ _] =>
      destruct (save_static_data_dict now d machine_id kv)
        as (fields & _ & ->) end.
    destruct (bson_accepts _); cbn [negb]; [by left|].
    right. cbn. split; [done|]. split; [done|]. by intros [].
  - destruct (contains "machine_id" data) as [[]|e]; cbn;
      [| by right | destruct e; by right].
    destruct (get data "machine_id" JNull) as [machine_id|e]; cbn;
      [|destruct e; by right].
    destruct (MonitoringServer.find_one_machine db machine_id); cbn;
      [|by right].
    unfold MonitoringServer.save_variable_data.
    destruct (MonitoringServer.gets content _); cbn; [|by right].
    destruct (bson_accepts _); cbn; [by left | by right].
Qed.

(** X5. The bootstrap as the server sees it: a snapshot that passes the
    validation and that the database takes is answered with its id,
    registered and stored; a sample that then comes under that id, and
    that the database takes, is accepted and stored as one more sample
    under that id, stamped by the read of the clock for its
    [timestamp], the machine's [last_seen] being set by the read that
    follows. *)
Theorem snapshot_then_sample_accepted
    t1 t2 db name1 name2 content known ts1 ts2 sample machine_id :
  MonitoringServer.StaticData content = Ok () →
  MonitoringServer.generate_machine_id content = Some machine_id →
  machine_id ≠ "" →
  snapshot_accepted machine_id content = true →
  dict_lookup "os" sample = None →
  sample_accepted (JStr machine_id) (JObj sample) = true →
  let r1 := MonitoringServer.process_data t1 db
              (Agent.envelope name1 content known ts1) in
  let r2 := MonitoringServer.process_data t2 r1.2
              (Agent.envelope name2 (JObj sample) (JStr machine_id) ts2) in
  r1.1 = JObj [("status", JStr "success"); ("machine_id", JStr machine_id);
               ("message", JStr "Static data registered")]
  ∧ r2.1 = JObj [("status", JStr "success");
                 ("message", JStr "Variable data saved")]
  ∧ (∃ d, MonitoringServer.variable_collection r2.2
          = MonitoringServer.variable_collection db ++ [d]
          ∧ MonitoringServer.vd_machine_id d = JStr machine_id
          ∧ MonitoringServer.vd_timestamp d = t2 MonitoringServer.Timestamp)
  ∧ MonitoringServer.last_seen
      <$> MonitoringServer.machine_ids_collection r2.2 !! machine_id
    = Some (t2 MonitoringServer.LastSeen).
Proof.
  intros Hvalid Hid Hne Hacc Hsample Hacc2. cbv zeta.
  destruct (process_data_snapshot t1 db
              (Agent.envelope name1 content known ts1) content machine_id
              eq_refl eq_refl Hvalid Hid Hne Hacc)
    as (r & fields & -> & Hlast & _).
  split; [reflexivity|]. cbn [fst snd].
  unfold MonitoringServer.process_data at 1 2 3.
  cbn [Agent.envelope get dict_lookup String.eqb Ascii.eqb Bool.eqb eq_str
       negb mbind result_bind contains].
  rewrite Hsample.
  rewrite (bool_decide_eq_false_2 (is_Some None)) by (by intros [? ?]).
  cbn [mbind result_bind bool_decide decide_rel].
  unfold MonitoringServer.find_one_machine, MonitoringServer.select_machine.
  cbn [MonitoringServer.machine_ids_collection].
  rewrite decide_True by (rewrite lookup_insert_eq; eauto).
  cbn [mbind option_bind]. rewrite lookup_insert_eq.
  match goal with
  | |- context [MonitoringServer.save_variable_data t2 ?d ?i (JObj sample)] =>
      destruct (save_variable_data_dict t2 d i sample)
        as (sfields & Hsfields & ->)
  end.
  unfold sample_accepted in Hacc2. rewrite Hsfields in Hacc2. rewrite Hacc2.
  unfold MonitoringServer.select_machine.
  cbn [MonitoringServer.machine_ids_collection].
  rewrite decide_True by (rewrite lookup_insert_eq; eauto).
  cbn. split; [reflexivity|]. split; [eauto|].
  by rewrite lookup_alter_eq, lookup_insert_eq.
Qed.

(** X6. Sending a snapshot again is an upsert: where the database takes
    the snapshot, the registry keeps one record for the machine, with
    the [first_seen] of its first registration and the [last_seen] of
    the last one, the stored snapshot is replaced, and no sample is
    touched. *)
Theorem snapshot_resend_is_upsert
    t1 t2 db name content known1 known2 ts1 ts2 machine_id :
  MonitoringServer.StaticData content = Ok () →
  MonitoringServer.generate_machine_id content = Some machine_id →
  machine_id ≠ "" →
  snapshot_accepted machine_id content = true →
  let db1 := (MonitoringServer.process_data t1 db
                (Agent.envelope name content known1 ts1)).2 in
  let db2 := (MonitoringServer.process_data t2 db1
                (Agent.envelope name content known2 ts2)).2 in
  dom (MonitoringServer.machine_ids_collection db2)
  = dom (MonitoringServer.machine_ids_collection db1)
  ∧ MonitoringServer.first_seen
      <$> MonitoringServer.machine_ids_collection db2 !! machine_id
    = MonitoringServer.first_seen
      <$> MonitoringServer.machine_ids_collection db1 !! machine_id
  ∧ MonitoringServer.last_seen
      <$> MonitoringServer.machine_ids_collection db2 !! machine_id
    = Some (t2 MonitoringServer.LastSeen)
  ∧ MonitoringServer.sd_timestamp
      <$> MonitoringServer.static_collection db2 !! machine_id
    = Some (t2 MonitoringServer.Timestamp)
  ∧ dom (MonitoringServer.static_collection db2)
    = dom (MonitoringServer.static_collection db1)
  ∧ MonitoringServer.variable_collection db2
    = MonitoringServer.variable_collection db.
Proof.
  intros Hvalid Hid Hne Hacc. cbv zeta.
  destruct (process_data_snapshot t1 db
              (Agent.envelope name content known1 ts1) content machine_id
              eq_refl eq_refl Hvalid Hid Hne Hacc)
    as (r1 & f1 & -> & Hl1 & Hf1).
  cbn [snd].
  match goal with |- context [MonitoringServer.process_data t2 ?d ?e] =>
    destruct (process_data_snapshot t2 d e content machine_id
                eq_refl eq_refl Hvalid Hid Hne Hacc)
      as (r2 & f2 & -> & Hl2 & Hf2)
  end.
  cbn [snd MonitoringServer.machine_ids_collection
       MonitoringServer.static_collection
       MonitoringServer.variable_collection] in *.
  rewrite lookup_insert_eq in Hf2.
  rewrite !lookup_insert_eq. cbn. rewrite Hl2, Hf2.
  repeat split; try done; rewrite !dom_insert_L; set_solver.
Qed.

(** X7. A snapshot that lacks one of the required fields is answered
    'Invalid data format' and nothing of it is stored. *)
Theorem snapshot_missing_field_rejected now db data kv field :
  get data "version" JNull = Ok (JStr "1.0") →
  get data "content" JNull = Ok (JObj kv) →
  is_Some (dict_lookup "os" kv) →
  field ∈ required_fields →
  dict_lookup field kv = None →
  MonitoringServer.process_data now db data
  = (MonitoringServer.error_response "Invalid data format", db).
Proof.
  intros Hv Hc Hos Hfield Hmissing.
  assert (Hinvalid : MonitoringServer.StaticData (JObj kv) = Raise ValidationError).
  { unfold required_fields in Hfield.
    rewrite !elem_of_cons, elem_of_nil in Hfield.
    unfold MonitoringServer.StaticData.
    destruct Hfield as [->|[->|[->|[->|[->|[->|[]]]]]]]; rewrite Hmissing;
      repeat match goal with
             | |- context [dict_lookup ?k kv] =>
                 destruct (dict_lookup k kv) as [[]|]
             end; reflexivity. }
  unfold MonitoringServer.process_data.
  rewrite Hv. cbn. rewrite Hc. cbn [mbind result_bind contains].
  rewrite bool_decide_eq_true_2 by done.
  cbn [mbind result_bind]. by rewrite Hinvalid.
Qed.

End DispatchProperties.

Lemma rejected_envelope_stores_no_document_witness :
  let r := @MonitoringServer.process_data Lab.runtime (Lab.at_time 5)
             MonitoringServer.empty_database
             (Agent.envelope "1.json.gz" Lab.oversized_snapshot JNull "t") in
  r.1 = MonitoringServer.error_response "Failed to save static data"
  ∧ is_Some (MonitoringServer.machine_ids_collection r.2 !! Lab.snapshot_id)
  ∧ MonitoringServer.static_collection r.2 = ∅
  ∧ MonitoringServer.variable_collection r.2 = [].
Proof.
  cbv zeta. split; [by vm_compute|]. split; [vm_compute; eauto|].
  destruct (@rejected_envelope_stores_no_document Lab.runtime (Lab.at_time 5)
              MonitoringServer.empty_database
              (Agent.envelope "1.json.gz" Lab.oversized_snapshot JNull "t"))
    as [Hsuccess|(Hstatic & Hsamples & _)].
  - vm_compute in Hsuccess. discriminate Hsuccess.
  - split; [exact Hstatic | exact Hsamples].
Defined.

Lemma snapshot_then_sample_accepted_witness :
  let r1 := @MonitoringServer.process_data Lab.runtime (Lab.reads 5)
              MonitoringServer.empty_database
              (Agent.envelope "1.json.gz" Lab.snapshot JNull "t") in
  let r2 := @MonitoringServer.process_data Lab.runtime (Lab.reads 9) r1.2
              (Agent.envelope "2.json.gz" (JObj Lab.sample_fields)
                 (JStr Lab.snapshot_id) "t") in
  r1.1 = JObj [("status", JStr "success");
               ("machine_id", JStr Lab.snapshot_id);
               ("message", JStr "Static data registered")]
  ∧ r2.1 = JObj [("status", JStr "success");
                 ("message", JStr "Variable data saved")]
  ∧ (∃ d, MonitoringServer.variable_collection r2.2 = [] ++ [d]
          ∧ MonitoringServer.vd_machine_id d = JStr Lab.snapshot_id
          ∧ MonitoringServer.vd_timestamp d = 11%Z)
  ∧ MonitoringServer.last_seen
      <$> MonitoringServer.machine_ids_collection r2.2 !! Lab.snapshot_id
    = Some 9%Z.
Proof.
  apply (@snapshot_then_sample_accepted Lab.runtime (Lab.reads 5)
           (Lab.reads 9) MonitoringServer.empty_database "1.json.gz"
           "2.json.gz" Lab.snapshot JNull "t" "t" Lab.sample_fields
           Lab.snapshot_id);
    [reflexivity | reflexivity | done | reflexivity | reflexivity
    | reflexivity].
Defined.

Lemma snapshot_resend_is_upsert_witness :
  let db1 := (@MonitoringServer.process_data Lab.runtime (Lab.reads 5)
                MonitoringServer.empty_database
                (Agent.envelope "1.json.gz" Lab.snapshot JNull "t")).2 in
  let db2 := (@MonitoringServer.process_data Lab.runtime (Lab.reads 9) db1
                (Agent.envelope "1.json.gz" Lab.snapshot
                   (JStr Lab.snapshot_id) "u")).2 in
  dom (MonitoringServer.machine_ids_collection db2)
  = dom (MonitoringServer.machine_ids_collection db1)
  ∧ MonitoringServer.first_seen
      <$> MonitoringServer.machine_ids_collection db2 !! Lab.snapshot_id
    = MonitoringServer.first_seen
      <$> MonitoringServer.machine_ids_collection db1 !! Lab.snapshot_id
  ∧ MonitoringServer.last_seen
      <$> MonitoringServer.machine_ids_collection db2 !! Lab.snapshot_id
    = Some 9%Z
  ∧ MonitoringServer.sd_timestamp
      <$> MonitoringServer.static_collection db2 !! Lab.snapshot_id
    = Some 11%Z
  ∧ dom (MonitoringServer.static_collection db2)
    = dom (MonitoringServer.static_collection db1)
  ∧ MonitoringServer.variable_collection db2 = [].
Proof.
  apply (@snapshot_resend_is_upsert Lab.runtime (Lab.reads 5) (Lab.reads 9)
           MonitoringServer.empty_database "1.json.gz" Lab.snapshot
           JNull (JStr Lab.snapshot_id) "t" "u" Lab.snapshot_id);
    [reflexivity | reflexivity | done | reflexivity].
Defined.

Lemma snapshot_missing_field_rejected_witness :
  @MonitoringServer.process_data Lab.runtime (Lab.at_time 5) MonitoringServer.empty_database
    (Agent.envelope "1.json.gz" (JObj Lab.snapshot_without_mac) JNull "t")
  = (MonitoringServer.error_response "Invalid data format",
     MonitoringServer.empty_database).
Proof.
  apply (@snapshot_missing_field_rejected Lab.runtime (Lab.at_time 5)
           MonitoringServer.empty_database
           (Agent.envelope "1.json.gz" (JObj Lab.snapshot_without_mac)
              JNull "t")
           Lab.snapshot_without_mac "adresse_mac");
    [reflexivity | reflexivity | by eexists | | reflexivity].
  unfold required_fields. set_solver.
Defined.

(** X8. The connection counter is exact: in every state the server can
    reach it is the number of [handle_client] calls that have done the
    locked increment and not yet the decrement of their [finally]; with
    no call in progress it is 0. *)
Theorem counter_counts_calls `{Runtime} es db s :
  MonitoringServer.run es (MonitoringServer.initial_pool db) = Some s →
  MonitoringServer.active_connections s = counted (MonitoringServer.running s)
  ∧ (MonitoringServer.running s = [] →
     MonitoringServer.active_connections s = 0).
Proof.
  intros Hrun.
  assert (Hinit : pool_invariant (MonitoringServer.initial_pool db)).
  { unfold pool_invariant, MonitoringServer.MAX_CONCURRENT_CONNECTIONS.
    cbn. repeat split; lia. }
  destruct (run_invariant _ _ _ Hinit Hrun) as (Hcount & _ & _).
  split; [done|]. intros Hidle. by rewrite Hcount, Hidle.
Qed.

Lemma counter_counts_calls_witness :
  MonitoringServer.active_connections Lab.crowded
  = counted (MonitoringServer.running Lab.crowded)
  ∧ (MonitoringServer.running Lab.crowded = [] →
     MonitoringServer.active_connections Lab.crowded = 0).
Proof.
  apply (@counter_counts_calls Lab.runtime Lab.rush
           MonitoringServer.empty_database Lab.crowded).
  vm_compute. reflexivity.
Defined.

(** ** More on the spool *)

Lemma string_rev_app_rev_app s a b :
  String.rev_app (String.rev_app s a) b = String.rev_app a (s +:+ b).
Proof.
  revert a b. induction s as [|c s IH]; intros a b; cbn; [done|].
  rewrite IH. cbn. by rewrite string_app_cons.
Qed.

Lemma string_rev_rev s : String.rev (String.rev s) = s.
Proof.
  unfold String.rev. rewrite string_rev_app_rev_app. cbn. apply string_app_nil_r.
Qed.

Lemma string_rev_app_app a b acc :
  String.rev_app (a +:+ b) acc = String.rev_app b (String.rev_app a acc).
Proof.
  revert acc. induction a as [|c a IH]; intros acc; [done|].
  rewrite string_app_cons. cbn. apply IH.
Qed.

Lemma string_rev_app_acc s acc : String.rev_app s acc = String.rev s +:+ acc.
Proof.
  unfold String.rev. revert acc. induction s as [|c s IH]; intros acc; [done|].
  cbn. rewrite IH, (IH (String c "")), string_app_assoc. done.
Qed.

Lemma string_prefix_app p s : String.prefix p (p +:+ s) = true.
Proof.
  induction p as [|c p IH]; [by destruct s|].
  rewrite string_app_cons. cbn. by destruct (ascii_dec c c).
Qed.

Lemma endswith_app s suffix : Agent.endswith (s +:+ suffix) suffix = true.
Proof.
  unfold Agent.endswith, String.rev. rewrite string_rev_app_app.
  rewrite (string_rev_app_acc suffix (String.rev_app s "")). apply string_prefix_app.
Qed.

Lemma endswith_spool_name n : Agent.endswith (Agent.spool_name n) ".json.gz" = true.
Proof. apply endswith_app. Qed.

(** The sorted listing holds the names of the directory that end in
    [.json.gz], each once. *)
Lemma listing_elem dir f :
  f ∈ ZipFolder.listing dir
  ↔ is_Some (dir !! f) ∧ Agent.endswith f ".json.gz" = true.
Proof.
  unfold ZipFolder.listing. rewrite merge_sort_Permutation.
  rewrite list_elem_of_filter, list_elem_of_fmap. split.
  - intros [Hend ([name file] & -> & Hin)].
    apply elem_of_map_to_list in Hin. cbn in *. eauto.
  - intros [[file Hfile] Hend]. split; [done|].
    exists (f, file). split; [done|]. by apply elem_of_map_to_list.
Qed.

Lemma listing_NoDup dir : NoDup (ZipFolder.listing dir).
Proof.
  unfold ZipFolder.listing. rewrite merge_sort_Permutation.
  apply NoDup_filter, NoDup_fst_map_to_list.
Qed.

Lemma pending_files_elem fs f :
  f ∈ Agent.pending_files fs
  ↔ is_Some (Agent.data_dir fs !! f) ∧ Agent.endswith f ".json.gz" = true.
Proof. exact (listing_elem (Agent.data_dir fs) f). Qed.

Lemma pending_files_NoDup fs : NoDup (Agent.pending_files fs).
Proof. exact (listing_NoDup (Agent.data_dir fs)). Qed.

(** Moving an element of a list without duplicates to the front. *)
Lemma head_first_Permutation (x : string) l :
  NoDup l → x ∈ l → x :: filter (λ f, f ≠ x) l ≡ₚ l.
Proof.
  intros Hnd Hin. induction l as [|y l IH]; [by apply elem_of_nil in Hin|].
  apply NoDup_cons in Hnd as [Hy Hnd].
  rewrite filter_cons. destruct (decide (y ≠ x)) as [Hne|Heq].
  - apply elem_of_cons in Hin as [Heq|Hin]; [congruence|].
    rewrite <- (IH Hnd Hin) at 2. apply Permutation_swap.
  - assert (y = x) as -> by (by destruct (decide (y = x)); [|destruct Heq]).
    constructor. clear IH Hin Hnd. induction l as [|y l IH]; [done|].
    apply not_elem_of_cons in Hy as [Hy Hx].
    rewrite filter_cons, decide_True by done. constructor. by apply IH.
Qed.

(** X10. [save_variable_data_to_file] always comes back, and the name
    it settles on is the first free one from the counter on: the sample
    goes into a file that was not there, no spool file is overwritten or
    removed, and without write access the directory is left as it
    is. *)
Theorem sample_file_gets_fresh_name {W} `{Agent.World W} data a :
  ∃ a',
    Agent.save_variable_data_to_file data a = Some a'
    ∧ Agent.file_counter a ≤ Agent.file_counter a'
    ∧ Agent.data_dir (Agent.disk a)
        !! Agent.spool_name (Agent.file_counter a') = None
    ∧ (∀ m, Agent.file_counter a ≤ m < Agent.file_counter a' →
            is_Some (Agent.data_dir (Agent.disk a) !! Agent.spool_name m))
    ∧ Agent.disk a'
      = (if Agent.data_dir_writable (Agent.disk a)
         then Agent.write (Agent.spool_name (Agent.file_counter a'))
                {| Agent.getsize := Agent.gzip_size data;
                   Agent.body := Agent.Parsed data |} (Agent.disk a)
         else Agent.disk a)
    ∧ (∀ name f, Agent.data_dir (Agent.disk a) !! name = Some f →
                 Agent.data_dir (Agent.disk a') !! name = Some f).
Proof.
  unfold Agent.save_variable_data_to_file, Agent.get_next_filename.
  destruct (next_free_terminates (size (Agent.data_dir (Agent.disk a)))
              (Agent.file_counter a) (Agent.disk a)) as [n Hn]; [done|].
  rewrite Hn. cbn.
  destruct (next_free_least _ _ _ _ Hn) as (Hle & Hfree & Hbelow).
  destruct (Agent.data_dir_writable (Agent.disk a)); cbn;
    eexists; (split; [reflexivity|]); cbn; repeat (split; [done|]).
  - intros name f Hf. rewrite lookup_insert_ne; [done|]. congruence.
  - done.
Qed.

(** The measured size after one more file. *)
Lemma get_data_directory_size_write fs name f :
  Agent.data_dir fs !! name = None →
  Agent.get_data_directory_size (Agent.write name f fs)
  = (if Agent.endswith name ".json.gz"
     then (Agent.getsize f + Agent.get_data_directory_size fs)%Z
     else Agent.get_data_directory_size fs).
Proof.
  intros Hnone. unfold Agent.get_data_directory_size, Agent.write. cbn.
  set (add := λ '(filename, f) (total_size : Z),
                if Agent.endswith filename ".json.gz"
                then (Agent.getsize f + total_size)%Z else total_size).
  assert (Hperm : foldr add 0%Z (map_to_list (<[name:=f]> (Agent.data_dir fs)))
                  = foldr add 0%Z ((name, f) :: map_to_list (Agent.data_dir fs))).
  { apply (foldr_permutation_proper (=) add 0%Z).
    - intros [n1 f1] [n2 f2] b. unfold add.
      destruct (Agent.endswith n1 _), (Agent.endswith n2 _); lia.
    - by apply map_to_list_insert. }
  rewrite Hperm. done.
Qed.

(** X11. Spooling a sample adds one entry to the directory and the
    size of its file to what [get_data_directory_size] measures. *)
Theorem spooled_sample_counts_in_size {W} `{Agent.World W} data a a' :
  Agent.save_variable_data_to_file data a = Some a' →
  Agent.data_dir_writable (Agent.disk a) = true →
  Agent.get_data_directory_size (Agent.disk a')
  = (Agent.get_data_directory_size (Agent.disk a) + Agent.gzip_size data)%Z
  ∧ size (Agent.data_dir (Agent.disk a'))
    = S (size (Agent.data_dir (Agent.disk a))).
Proof.
  unfold Agent.save_variable_data_to_file, Agent.get_next_filename.
  intros Hsave Hw.
  destruct (Agent.next_free _ _ _) as [n|] eqn:Hn; [|done].
  cbn in Hsave. rewrite Hw in Hsave. injection Hsave as <-.
  destruct (next_free_least _ _ _ _ Hn) as (_ & Hfree & _).
  cbn. split.
  - rewrite (get_data_directory_size_write _ _ _ Hfree), endswith_spool_name.
    cbn. lia.
  - by rewrite map_size_insert_None.
Qed.

Lemma spooled_sample_counts_in_size_witness :
  ∃ a',
    @Agent.save_variable_data_to_file _ Lab.link Lab.sample
      (Agent.globals (Lab.collector_on Lab.disk_1_3)) = Some a'
    ∧ Agent.file_counter a' = 2
    ∧ Agent.get_data_directory_size (Agent.disk a') = 1536%Z.
Proof.
  eexists. split; [by vm_compute|].
  split; [reflexivity|].
  refine (eq_trans
            (proj1 (@spooled_sample_counts_in_size _ Lab.link Lab.sample
                      (Agent.globals (Lab.collector_on Lab.disk_1_3)) _
                      eq_refl eq_refl)) _).
  by vm_compute.
Defined.

Lemma save_initial_data_skip {W} `{Agent.World W} a (w : W) :
  Agent.initial_data_saved a
  || Agent.exists_in_data_dir (Agent.disk a) "1.json.gz" = true →
  Agent.save_initial_data a w = (a, w).
Proof. intros Hskip. unfold Agent.save_initial_data. by rewrite Hskip. Qed.

Lemma save_initial_data_capture {W} `{Agent.World W} a (w : W) :
  Agent.initial_data_saved a
  || Agent.exists_in_data_dir (Agent.disk a) "1.json.gz" = false →
  Agent.save_initial_data a w
  = (if Agent.data_dir_writable (Agent.disk a)
     then {| Agent.file_counter := Agent.file_counter a;
             Agent.initial_data_saved := true;
             Agent.disk :=
               Agent.write "1.json.gz"
                 {| Agent.getsize :=
                      Agent.gzip_size (Agent.collect_initial_data w).1;
                    Agent.body :=
                      Agent.Parsed (Agent.collect_initial_data w).1 |}
                 (Agent.disk a) |}
     else a,
     (Agent.collect_initial_data w).2).
Proof.
  intros Hskip. unfold Agent.save_initial_data. rewrite Hskip.
  destruct (Agent.collect_initial_data w) as [initial_data w1].
  by destruct (Agent.data_dir_writable (Agent.disk a)).
Qed.

(** X12. [save_initial_data] never overwrites: the files that are
    there stay as they are, only [1.json.gz] can be added, the counter
    is not touched, a second call changes nothing more, and once the
    flag is set the snapshot is not even collected again. *)
Theorem save_initial_data_never_overwrites {W} `{Agent.World W} a w w2 :
  let a' := (Agent.save_initial_data a w).1 in
  (∀ name f, Agent.data_dir (Agent.disk a) !! name = Some f →
             Agent.data_dir (Agent.disk a') !! name = Some f)
  ∧ (∀ name, name ≠ "1.json.gz" →
             Agent.data_dir (Agent.disk a') !! name
             = Agent.data_dir (Agent.disk a) !! name)
  ∧ Agent.file_counter a' = Agent.file_counter a
  ∧ (Agent.save_initial_data a' w2).1 = a'
  ∧ (Agent.initial_data_saved a' = true →
     Agent.save_initial_data a' w2 = (a', w2)).
Proof.
  cbv zeta.
  destruct (Agent.initial_data_saved a
            || Agent.exists_in_data_dir (Agent.disk a) "1.json.gz") eqn:Hskip.
  { rewrite (save_initial_data_skip a w Hskip). cbn [fst].
    rewrite (save_initial_data_skip a w2 Hskip). done. }
  rewrite (save_initial_data_capture a w Hskip). cbn [fst].
  destruct (Agent.data_dir_writable (Agent.disk a)) eqn:Hw.
  - apply orb_false_iff in Hskip as [Hflag Hex].
    unfold Agent.exists_in_data_dir in Hex.
    apply bool_decide_eq_false in Hex.
    assert (Hnone : Agent.data_dir (Agent.disk a) !! "1.json.gz" = None).
    { destruct (Agent.data_dir (Agent.disk a) !! "1.json.gz") eqn:E; [|done].
      destruct Hex. eauto. }
    rewrite save_initial_data_skip by done.
    cbn. split; [|split; [|done]].
    + intros name f Hf. rewrite lookup_insert_ne; [done|]. congruence.
    + intros name Hne. by rewrite lookup_insert_ne.
  - rewrite (save_initial_data_capture a w2 Hskip), Hw. cbn [fst].
    apply orb_false_iff in Hskip as [Hflag Hex]. rewrite Hflag.
    done.
Qed.

Lemma ascii_no_space_rev_app s acc :
  ascii_no_space s = true → ascii_no_space acc = true →
  ascii_no_space (String.rev_app s acc) = true.
Proof.
  revert acc. induction s as [|c s IH]; intros acc Hs Hacc; [done|].
  cbn in Hs. apply andb_true_iff in Hs as [Hc Hs].
  cbn. apply IH; [done|]. cbn. by rewrite Hc.
Qed.

(** A byte below 128 neither starts nor ends one of the white-space
    characters of two or three bytes. *)
Lemma is_space2_ascii c d :
  (nat_of_ascii c <? 128) = true →
  Agent.is_space2 c d = false ∧ Agent.is_space2 d c = false.
Proof.
  intros Hc. unfold Agent.is_space2.
  destruct c as [[] [] [] [] [] [] [] []]; try discriminate Hc;
    cbn; by rewrite ?andb_false_r.
Qed.

Lemma is_space3_ascii c d e :
  (nat_of_ascii c <? 128) = true →
  Agent.is_space3 c d e = false ∧ Agent.is_space3 e d c = false.
Proof.
  intros Hc. unfold Agent.is_space3.
  destruct c as [[] [] [] [] [] [] [] []]; try discriminate Hc;
    cbn; by rewrite ?andb_false_r.
Qed.

Lemma skip_space_ascii_no_space backwards s :
  ascii_no_space s = true → Agent.skip_space backwards s = s.
Proof.
  destruct s as [|c s]; [done|]. cbn [ascii_no_space Agent.skip_space].
  intros Hs. apply andb_true_iff in Hs as [Hc _].
  apply andb_true_iff in Hc as [Hascii Hc]. apply negb_true_iff in Hc.
  rewrite Hc. destruct s as [|d s]; [done|].
  destruct (is_space2_ascii c d Hascii) as [-> ->].
  destruct s as [|e s]; [by destruct backwards|].
  destruct (is_space3_ascii c d e Hascii) as [-> ->].
  by destruct backwards.
Qed.

Lemma strip_ascii_no_space s : ascii_no_space s = true → Agent.strip s = s.
Proof.
  intros Hs. unfold Agent.strip, Agent.rstrip, Agent.lstrip.
  rewrite (skip_space_ascii_no_space false s Hs).
  rewrite skip_space_ascii_no_space by (by apply ascii_no_space_rev_app).
  apply string_rev_rev.
Qed.

(** X13. An id made of ASCII characters other than white space, as a
    hexadecimal digest is, that [save_machine_id] has written is the id
    that [get_machine_id] reads back; where the identity file cannot be
    written the failure is swallowed and the old id is read; the spool
    is not touched, and saving the same id again changes nothing. *)
Theorem machine_id_round_trip fs s :
  ascii_no_space s = true →
  let fs' := Agent.save_machine_id (JStr s) fs in
  Agent.get_machine_id fs'
  = (if Agent.id_file_writable fs then JStr s else Agent.get_machine_id fs)
  ∧ Agent.data_dir fs' = Agent.data_dir fs
  ∧ Agent.save_machine_id (JStr s) fs' = fs'.
Proof.
  intros Hs. cbv zeta. unfold Agent.save_machine_id.
  destruct (Agent.id_file_writable fs) eqn:Hw.
  - unfold Agent.get_machine_id. cbn. by rewrite strip_ascii_no_space.
  - by rewrite Hw.
Qed.

Lemma machine_id_round_trip_witness :
  Agent.get_machine_id
    (Agent.save_machine_id (JStr "9f2c") Lab.disk_fresh) = JStr "9f2c"
  ∧ Agent.strip ("9f2c" +:+ String "194" (String "160" "")) = "9f2c".
Proof.
  split; [|by vm_compute].
  apply (machine_id_round_trip Lab.disk_fresh "9f2c" eq_refl).
Defined.

(** X14. The list a send cycle starts from holds exactly the names of
    the directory that end in [.json.gz], each once: moving the snapshot
    to the front neither drops nor repeats a file. *)
Theorem send_order_permutes_spool machine_id fs :
  NoDup (Agent.send_order machine_id (Agent.pending_files fs))
  ∧ (∀ f, f ∈ Agent.send_order machine_id (Agent.pending_files fs)
          ↔ is_Some (Agent.data_dir fs !! f)
            ∧ Agent.endswith f ".json.gz" = true)
  ∧ length (Agent.send_order machine_id (Agent.pending_files fs))
    = length (Agent.pending_files fs).
Proof.
  assert (Hperm : Agent.send_order machine_id (Agent.pending_files fs)
                  ≡ₚ Agent.pending_files fs).
  { unfold Agent.send_order.
    destruct (bool_decide ("1.json.gz" ∈ Agent.pending_files fs)) eqn:Hin;
      [|done].
    destruct (negb (truthy machine_id)); [|done]. cbn [andb].
    apply bool_decide_eq_true in Hin.
    apply head_first_Permutation; [apply pending_files_NoDup | done]. }
  split; [rewrite Hperm; apply pending_files_NoDup|].
  split; [|by rewrite Hperm].
  intros f. rewrite Hperm. apply pending_files_elem.
Qed.

(** What a round of the send loop leaves alone. *)
Lemma send_one_identity {W} `{Agent.World W} i json_file st (w : W) :
  ∃ o,
    Agent.history (Agent.send_one i json_file st w).1.2
    = Agent.history st ++ [(json_file, o)]
    ∧ (String.eqb json_file "1.json.gz" && is_success o = false →
       Agent.id_file (Agent.fs (Agent.send_one i json_file st w).1.2)
       = Agent.id_file (Agent.fs st)
       ∧ Agent.machine_id (Agent.send_one i json_file st w).1.2
         = Agent.machine_id st).
Proof.
  unfold Agent.send_one.
  destruct (Agent.read_spool (Agent.fs st) json_file) as [json_data|];
    [|exists Agent.Unreadable; done].
  destruct (Agent.exchange _ w) as [r w1].
  exists (Agent.Exchanged r).
  destruct r as [response_data| |]; [|done|done].
  unfold is_success.
  destruct response_data; try done. cbn [get].
  match goal with |- context [eq_str ?s "success"] =>
    destruct (eq_str s "success") end.
  - match goal with |- context [Agent.batch_pause ?i ?st ?w] =>
      destruct (batch_pause_effect i st w) as (p & w' & ->) end.
    cbn. split; [by destruct (_ && _)|].
    rewrite andb_true_r. intros ->. done.
  - match goal with |- context [eq_str ?s "RESEND_STATIC_DATA"] =>
      destruct (eq_str s "RESEND_STATIC_DATA") end.
    + destruct (_ && _); [done|].
      match goal with |- context [Agent.batch_pause ?i ?st ?w] =>
        destruct (batch_pause_effect i st w) as (p & w' & ->) end.
      done.
    + match goal with |- context [Agent.batch_pause ?i ?st ?w] =>
        destruct (batch_pause_effect i st w) as (p & w' & ->) end.
      done.
Qed.

Lemma send_loop_identity {W} `{Agent.World W} fuel st (w : W) :
  ∃ h,
    Agent.history (Agent.send_loop fuel st w).1.2 = Agent.history st ++ h
    ∧ (acknowledged "1.json.gz" h = false →
       Agent.id_file (Agent.fs (Agent.send_loop fuel st w).1.2)
       = Agent.id_file (Agent.fs st)
       ∧ Agent.machine_id (Agent.send_loop fuel st w).1.2
         = Agent.machine_id st).
Proof.
  revert st w. induction fuel as [|fuel IH]; intros st w; simpl.
  - exists []. rewrite app_nil_r.
    destruct (Agent.json_files st !! Agent.position st); done.
  - destruct (Agent.json_files st !! Agent.position st) as [json_file|];
      [|exists []; by rewrite app_nil_r].
    match goal with |- context [Agent.send_one ?i ?f ?s ?w] =>
      destruct (send_one_identity i f s w) as (o & Hh & Hd);
      destruct (Agent.send_one i f s w) as [[ctl st1] w1] end.
    cbn in Hh, Hd.
    destruct ctl.
    + destruct (IH st1 w1) as (h & Hh' & Hd').
      exists ((json_file, o) :: h). split.
      * rewrite Hh', Hh, <- app_assoc. done.
      * unfold acknowledged. cbn [existsb]. intros Hack.
        apply orb_false_iff in Hack as [Hnow Hlater].
        destruct (Hd Hnow) as [Hid Hm]. destruct (Hd' Hlater) as [Hid' Hm'].
        split; congruence.
    + exists [(json_file, o)]. split; [done|].
      unfold acknowledged. cbn [existsb]. rewrite orb_false_r. exact Hd.
Qed.

(** X15. A send cycle in which [1.json.gz] was not acknowledged leaves
    the identity as it was: the identity file is not written and the id
    the cycle returns is the one it read at its start. *)
Theorem identity_changes_only_with_snapshot {W} `{Agent.World W} fuel fs0 w :
  let st := (Agent.send_files_to_server fuel fs0 w).1.2 in
  acknowledged "1.json.gz" (Agent.history st) = false →
  Agent.id_file (Agent.fs st) = Agent.id_file fs0
  ∧ Agent.machine_id st = Agent.get_machine_id fs0.
Proof.
  unfold Agent.send_files_to_server.
  destruct (Agent.pending_files fs0) as [|f0 files]; [done|].
  destruct (Agent.connect w) as [[] w1]; [|done].
  match goal with |- context [Agent.send_loop fuel ?s ?w] =>
    destruct (send_loop_identity fuel s w) as (h & Hh & Hd) end.
  cbn in Hh. cbv zeta. rewrite Hh. apply Hd.
Qed.

Lemma identity_changes_only_with_snapshot_witness :
  let st := (@Agent.send_files_to_server _ Lab.link 2 Lab.disk_2_10
               Lab.known_world).1.2 in
  acknowledged "10.json.gz" (Agent.history st) = true
  ∧ Agent.id_file (Agent.fs st) = Some "abc"
  ∧ Agent.machine_id st = JStr "abc".
Proof.
  cbv zeta. split; [by vm_compute|].
  apply (@identity_changes_only_with_snapshot _ Lab.link 2 Lab.disk_2_10
           Lab.known_world).
  by vm_compute.
Defined.

(** A round of the send loop on a directory without snapshot file
    leaves the list under iteration alone, and breaks off only on a lost
    connection. *)
Lemma send_one_without_snapshot {W} `{Agent.World W} i json_file st (w : W) :
  Agent.data_dir (Agent.fs st) !! "1.json.gz" = None →
  ∃ o,
    Agent.history (Agent.send_one i json_file st w).1.2
    = Agent.history st ++ [(json_file, o)]
    ∧ Agent.json_files (Agent.send_one i json_file st w).1.2
      = Agent.json_files st
    ∧ Agent.position (Agent.send_one i json_file st w).1.2
      = Agent.position st
    ∧ Agent.data_dir (Agent.fs (Agent.send_one i json_file st w).1.2)
        !! "1.json.gz" = None
    ∧ ((Agent.send_one i json_file st w).1.1 = Agent.Break →
       o = Agent.Exchanged Agent.ConnectionLost).
Proof.
  intros Hnone.
  assert (Hex : Agent.exists_in_data_dir (Agent.fs st) "1.json.gz" = false).
  { unfold Agent.exists_in_data_dir. rewrite Hnone.
    apply bool_decide_eq_false_2. by intros [? ?]. }
  unfold Agent.send_one.
  destruct (Agent.read_spool (Agent.fs st) json_file) as [json_data|];
    [|exists Agent.Unreadable; done].
  destruct (Agent.exchange _ w) as [r w1].
  exists (Agent.Exchanged r).
  destruct r as [response_data| |]; [|done|done].
  destruct response_data; try done. cbn [get].
  match goal with |- context [eq_str ?s "success"] =>
    destruct (eq_str s "success") end.
  - match goal with |- context [Agent.batch_pause ?i ?st ?w] =>
      destruct (batch_pause_effect i st w) as (p & w' & ->) end.
    cbn. split; [by destruct (_ && _)|].
    split; [by destruct (_ && _)|]. split; [by destruct (_ && _)|].
    split; [|done].
    destruct (_ && _); cbn.
    + rewrite save_machine_id_data_dir.
      destruct (decide (json_file = "1.json.gz")) as [->|Hne];
        [by rewrite lookup_delete_eq | by rewrite lookup_delete_ne].
    + destruct (decide (json_file = "1.json.gz")) as [->|Hne];
        [by rewrite lookup_delete_eq | by rewrite lookup_delete_ne].
  - match goal with |- context [eq_str ?s "RESEND_STATIC_DATA"] =>
      destruct (eq_str s "RESEND_STATIC_DATA") end.
    + cbn [Agent.fs Agent.note]. rewrite Hex, andb_false_r.
      match goal with |- context [Agent.batch_pause ?i ?st ?w] =>
        destruct (batch_pause_effect i st w) as (p & w' & ->) end.
      done.
    + match goal with |- context [Agent.batch_pause ?i ?st ?w] =>
        destruct (batch_pause_effect i st w) as (p & w' & ->) end.
      done.
Qed.

Lemma send_loop_without_snapshot {W} `{Agent.World W} fuel st (w : W) :
  Agent.data_dir (Agent.fs st) !! "1.json.gz" = None →
  length (Agent.json_files st) ≤ Agent.position st + fuel →
  ∃ k,
    (Agent.send_loop fuel st w).1.1 = true
    ∧ Agent.json_files (Agent.send_loop fuel st w).1.2 = Agent.json_files st
    ∧ (Agent.history (Agent.send_loop fuel st w).1.2).*1
      = (Agent.history st).*1
        ++ take k (drop (Agent.position st) (Agent.json_files st))
    ∧ ((∀ f, (f, Agent.Exchanged Agent.ConnectionLost)
             ∉ Agent.history (Agent.send_loop fuel st w).1.2) →
       (Agent.history (Agent.send_loop fuel st w).1.2).*1
       = (Agent.history st).*1
         ++ drop (Agent.position st) (Agent.json_files st)).
Proof.
  revert st w. induction fuel as [|fuel IH]; intros st w Hnone Hfuel.
  - exists 0. cbn.
    rewrite (lookup_ge_None_2 (Agent.json_files st) (Agent.position st))
      by lia.
    rewrite drop_ge by lia. rewrite take_nil, app_nil_r. done.
  - cbn [Agent.send_loop].
    destruct (Agent.json_files st !! Agent.position st) as [json_file|] eqn:Hcur.
    2: { exists 0. cbn. apply lookup_ge_None_1 in Hcur.
         rewrite drop_ge by lia. rewrite take_nil, app_nil_r. done. }
    match goal with |- context [Agent.send_one ?i ?f ?s ?w] =>
      destruct (send_one_without_snapshot i f s w Hnone)
        as (o & Hh & Hfiles & Hpos & Hnone' & Hbreak);
      destruct (Agent.send_one i f s w) as [[ctl st1] w1] end.
    cbn in Hh, Hfiles, Hpos, Hnone', Hbreak.
    assert (Hdrop : drop (Agent.position st) (Agent.json_files st)
                    = json_file :: drop (S (Agent.position st))
                                     (Agent.json_files st)).
    { by apply drop_S. }
    destruct ctl.
    + destruct (IH st1 w1 Hnone') as (k & Hend & Hfiles' & Hh' & Hall).
      { rewrite Hfiles, Hpos. lia. }
      exists (S k). split; [done|]. split; [congruence|]. split.
      * rewrite Hh', Hh, Hfiles, Hpos, Hdrop, fmap_app, <- app_assoc. done.
      * intros Hkept. rewrite (Hall Hkept).
        rewrite Hh, Hfiles, Hpos, Hdrop, fmap_app, <- app_assoc. done.
    + exists 1. cbn [fst snd]. split; [done|]. split; [done|]. split.
      * rewrite Hh, Hdrop, fmap_app. cbn. by rewrite take_0.
      * intros Hkept. destruct (Hkept json_file).
        rewrite Hh, (Hbreak eq_refl). apply elem_of_app. right.
        apply list_elem_of_singleton. done.
Qed.

(** X16. With no [1.json.gz] in the directory a send cycle ends within
    one round per pending file: the files are visited in sorted order,
    each at most once, the list is not changed, and unless the
    connection fails or is lost every pending file is visited. *)
Theorem send_cycle_ends_without_snapshot {W} `{Agent.World W} fs0 (w : W) :
  Agent.data_dir fs0 !! "1.json.gz" = None →
  let r := Agent.send_files_to_server
             (length (Agent.pending_files fs0)) fs0 w in
  r.1.1 = true
  ∧ Agent.json_files r.1.2 = Agent.pending_files fs0
  ∧ (Agent.history r.1.2).*1 `prefix_of` Agent.pending_files fs0
  ∧ ((Agent.connect w).1 = true →
     (∀ f, (f, Agent.Exchanged Agent.ConnectionLost)
           ∉ Agent.history r.1.2) →
     (Agent.history r.1.2).*1 = Agent.pending_files fs0).
Proof.
  intros Hnone. cbv zeta. unfold Agent.send_files_to_server.
  assert (Horder : Agent.send_order (Agent.get_machine_id fs0)
                     (Agent.pending_files fs0) = Agent.pending_files fs0).
  { unfold Agent.send_order.
    rewrite bool_decide_eq_false_2; [done|].
    intros Hin. apply pending_files_elem in Hin as [[? Hin] _]. congruence. }
  destruct (Agent.pending_files fs0) as [|f0 files] eqn:Hfiles.
  { cbn. split; [done|]. split; [done|]. split; [by exists []|done]. }
  rewrite Horder.
  destruct (Agent.connect w) as [[] w1].
  - match goal with |- context [Agent.send_loop ?n ?s ?w] =>
      destruct (send_loop_without_snapshot n s w Hnone)
        as (k & Hend & Hf & Hh & Hall); [cbn; lia|];
      destruct (Agent.send_loop n s w) as [[finished cy] w2]
    end.
    cbn in Hend, Hf, Hh, Hall. cbn [fst snd].
    split; [done|]. split; [done|]. split.
    + rewrite Hh. apply prefix_take.
    + intros _ Hkept. by apply Hall.
  - cbn. split; [done|]. split; [done|]. split; [apply prefix_nil|done].
Qed.

Lemma send_cycle_ends_without_snapshot_witness :
  let r := @Agent.send_files_to_server _ Lab.link
             (length (Agent.pending_files Lab.disk_2_10)) Lab.disk_2_10
             Lab.known_world in
  r.1.1 = true
  ∧ (Agent.history r.1.2).*1 = ["10.json.gz"; "2.json.gz"].
Proof.
  cbv zeta.
  destruct (@send_cycle_ends_without_snapshot _ Lab.link Lab.disk_2_10
              Lab.known_world eq_refl) as (Hend & _ & _ & Hall).
  split; [exact Hend|].
  rewrite Hall; [by vm_compute | reflexivity |].
  intros f Hin. vm_compute in Hin.
  apply elem_of_cons in Hin as [Hin|Hin]; [discriminate|].
  apply elem_of_cons in Hin as [Hin|Hin]; [discriminate|].
  by apply elem_of_nil in Hin.
Defined.

(** ** The folder import of process_zipped_data.py *)

Section FolderProperties.
Context `{Runtime}.

Lemma contains_machine_id_envelope name data known ts :
  contains "machine_id" (Agent.envelope name data known ts) = Ok true.
Proof. reflexivity. Qed.

(** X17. Offline and online ingestion agree: on a content that is not
    empty, and with no machine registered under the empty id,
    [process_data] of process_zipped_data.py leaves the database that
    the server's [process_data] leaves on the version 1.0 envelope
    around the same content and id, and it returns an id exactly when
    the server answers with status success. *)
Theorem offline_import_agrees_with_server now db data known name ts :
  truthy data = true →
  MonitoringServer.machine_ids_collection db !! "" = None →
  let offline := ZipFolder.process_data now db data known in
  let online :=
    MonitoringServer.process_data now db
      (Agent.envelope name data (id_value known) ts) in
  offline.2 = online.2
  ∧ (is_Some offline.1
     ↔ get online.1 "status" JNull = Ok (JStr "success")).
Proof.
  intros Htruthy Hempty. cbv zeta.
  unfold ZipFolder.process_data, MonitoringServer.process_data.
  rewrite Htruthy.
  change (get (Agent.envelope name data (id_value known) ts) "version" JNull)
    with (Ok (JStr "1.0")).
  change (get (Agent.envelope name data (id_value known) ts) "content" JNull)
    with (Ok data).
  change (get (Agent.envelope name data (id_value known) ts) "machine_id" JNull)
    with (Ok (id_value known)).
  rewrite contains_machine_id_envelope.
  cbn [negb eq_str String.eqb Ascii.eqb Bool.eqb mbind result_bind].
  change (ZipDataProcessor.generate_machine_id data)
    with (MonitoringServer.generate_machine_id data).
  destruct (contains "os" data) as [[]|e]; cbn [mbind result_bind].
  - destruct (MonitoringServer.StaticData data) as [[]|e];
      cbn [mbind result_bind].
    2: { destruct e; cbn; split; try done; split; by intros [? ?] || done. }
    destruct (MonitoringServer.generate_machine_id data) as [machine_id|].
    2: { cbn. split; [done|]. split; [by intros [? ?] | done]. }
    destruct (negb (truthy (JStr machine_id))).
    { cbn. split; [done|]. split; [by intros [? ?] | done]. }
    destruct (MonitoringServer.register_machine now db machine_id data)
      as [[] db1]; cbn [negb].
    2: { cbn. split; [done|]. split; [by intros [? ?] | done]. }
    destruct (MonitoringServer.save_static_data now db1 machine_id data)
      as [[] db2]; cbn [negb].
    + cbn. split; [done|]. split; eauto.
    + cbn. split; [done|]. split; [by intros [? ?] | done].
  - destruct known as [machine_id|]; cbn [id_value].
    2: { cbn. split; [done|]. split; [by intros [? ?] | done]. }
    destruct (negb (truthy (JStr machine_id))) eqn:Hid.
    { assert (machine_id = "") as ->.
      { cbn in Hid. apply negb_true_iff, negb_false_iff in Hid.
        by apply String.eqb_eq in Hid. }
      unfold MonitoringServer.find_one_machine, MonitoringServer.select_machine.
      rewrite decide_False by (rewrite Hempty; by intros [? ?]).
      cbn. split; [done|]. split; [by intros [? ?] | done]. }
    destruct (MonitoringServer.find_one_machine db (JStr machine_id)).
    2: { cbn. split; [done|]. split; [by intros [? ?] | done]. }
    destruct (MonitoringServer.save_variable_data now db (JStr machine_id) data)
      as [[] db1]; cbn [negb].
    + cbn. split; [done|]. split; eauto.
    + cbn. split; [done|]. split; [by intros [? ?] | done].
  - destruct e; cbn; split; try done; split; by intros [? ?] || done.
Qed.

Lemma offline_process_data_ingests now db data known :
  ingests db (ZipFolder.process_data now db data known).2.
Proof.
  unfold ZipFolder.process_data.
  destruct (negb (truthy data)); [apply ingests_refl|].
  destruct (contains "os" data) as [[]|e]; cbn [mbind result_bind];
    [| |apply ingests_refl].
  - destruct (MonitoringServer.StaticData data) as [[]|e];
      cbn [mbind result_bind]; [|apply ingests_refl].
    destruct (ZipDataProcessor.generate_machine_id data) as [machine_id|];
      [|apply ingests_refl].
    destruct (negb (truthy (JStr machine_id))); [apply ingests_refl|].
    pose proof (register_machine_effect now db machine_id data) as Hreg.
    destruct (MonitoringServer.register_machine now db machine_id data)
      as [registered db1]. cbn in Hreg. destruct Hreg as [Hvar1 Hreg1].
    assert (ingests db db1) by (split; [done | by left]).
    destruct registered; cbn [negb]; [|done].
    pose proof (save_static_data_effect now db1 machine_id data) as Hsave.
    destruct (MonitoringServer.save_static_data now db1 machine_id data)
      as [saved db2]. cbn in Hsave. destruct Hsave as [Hvar2 Hreg2].
    assert (ingests db db2).
    { split; [rewrite Hreg2; done | left; congruence]. }
    by destruct saved.
  - destruct known as [machine_id|]; [|apply ingests_refl].
    destruct (negb (truthy (JStr machine_id))); [apply ingests_refl|].
    destruct (MonitoringServer.find_one_machine db (JStr machine_id))
      as [r|] eqn:Hfind; [|apply ingests_refl].
    pose proof (save_variable_data_ingests now db (JStr machine_id) data r
                  eq_refl Hfind) as Hsave.
    destruct (MonitoringServer.save_variable_data now db (JStr machine_id) data)
      as [saved db1]. cbn in Hsave. by destruct saved.
Qed.

Lemma process_file_ingests clock dir i json_file p :
  ingests (ZipFolder.db p)
    (ZipFolder.db (ZipFolder.process_file clock dir i json_file p)).
Proof.
  unfold ZipFolder.process_file.
  destruct (dir !! json_file) as [f|]; [|apply ingests_refl].
  destruct (negb (ZipFolder.is_valid_json_file f)); [apply ingests_refl|].
  destruct (Agent.body f) as [|file_data]; [apply ingests_refl|].
  pose proof (offline_process_data_ingests (clock i) (ZipFolder.db p)
                file_data (ZipFolder.machine_id p)) as Hin.
  by destruct (ZipFolder.process_data _ _ _ _).
Qed.

Lemma process_files_keeps clock dir i json_files p :
  let p' := ZipFolder.process_files clock dir i json_files p in
  (∀ id, is_Some (MonitoringServer.machine_ids_collection (ZipFolder.db p) !! id) →
         is_Some (MonitoringServer.machine_ids_collection (ZipFolder.db p') !! id))
  ∧ (samples_registered (ZipFolder.db p) → samples_registered (ZipFolder.db p'))
  ∧ length (MonitoringServer.variable_collection (ZipFolder.db p))
    ≤ length (MonitoringServer.variable_collection (ZipFolder.db p'))
    ≤ length (MonitoringServer.variable_collection (ZipFolder.db p))
      + length json_files.
Proof.
  cbv zeta. revert i p.
  induction json_files as [|f files IH]; intros i p; cbn; [split; [done|split; [done|lia]]|].
  destruct (IH (S i) (ZipFolder.process_file clock dir i f p))
    as (Hids & Hinv & Hlen).
  pose proof (process_file_ingests clock dir i f p) as Hstep.
  split; [|split].
  - intros id Hid. apply Hids. by apply Hstep.
  - intros Hreg. apply Hinv. by apply (ingests_invariant _ _ Hstep).
  - destruct Hstep as [_ [Heq|(d & id & Heq & _)]]; rewrite Heq in Hlen;
      [lia|]. rewrite length_app in Hlen. cbn in Hlen. lia.
Qed.

Lemma process_data_directory_keeps clock p z :
  let r := ZipFolder.process_data_directory clock p z in
  (r.1 = true
   ↔ ∃ dir f, ZipFolder.data_directory z = Some dir
              ∧ is_Some (dir !! f) ∧ Agent.endswith f ".json.gz" = true)
  ∧ (r.1 = false → ZipFolder.db r.2 = ZipFolder.db p)
  ∧ (∀ id,
       is_Some (MonitoringServer.machine_ids_collection (ZipFolder.db p) !! id) →
       is_Some (MonitoringServer.machine_ids_collection (ZipFolder.db r.2) !! id))
  ∧ (samples_registered (ZipFolder.db p) → samples_registered (ZipFolder.db r.2)).
Proof.
  cbv zeta. unfold ZipFolder.process_data_directory.
  destruct (ZipFolder.data_directory z) as [dir|].
  2: { cbn [fst snd]. split; [|done]. split; [done|].
       by intros (? & ? & ? & _). }
  destruct (ZipFolder.listing dir) as [|f0 files] eqn:Hfiles.
  { cbn [fst snd]. split; [|done]. split; [done|].
    intros (dir' & f & Hdir & Hf). injection Hdir as <-.
    apply listing_elem in Hf. rewrite Hfiles in Hf. by apply elem_of_nil in Hf. }
  cbn [fst snd]. split; [|split; [done|]].
  - split; [|done]. intros _. exists dir, f0. split; [done|].
    apply listing_elem. rewrite Hfiles. apply elem_of_cons. by left.
  - match goal with |- context [ZipFolder.process_files clock dir 0 ?l p] =>
      destruct (process_files_keeps clock dir 0 l p) as (Hids & Hinv & _) end.
    done.
Qed.

(** X18. [process_zipped_folder] answers [True] exactly when
    [machine_id.txt] is absent or can be read and the archive has a
    data directory with at least one [.json.gz] entry, whatever becomes
    of the single files; when it answers [False] the database is
    untouched; in every case the registry keeps its ids and every
    stored sample stays under a registered id. *)
Theorem folder_import_keeps_registered clock p z :
  let r := ZipFolder.process_zipped_folder clock p z in
  (r.1 = true
   ↔ ZipFolder.machine_id_txt z ≠ ZipFolder.UnreadableIdFile
     ∧ ∃ dir f, ZipFolder.data_directory z = Some dir
                ∧ is_Some (dir !! f) ∧ Agent.endswith f ".json.gz" = true)
  ∧ (r.1 = false → ZipFolder.db r.2 = ZipFolder.db p)
  ∧ (∀ id,
       is_Some (MonitoringServer.machine_ids_collection (ZipFolder.db p) !! id) →
       is_Some (MonitoringServer.machine_ids_collection (ZipFolder.db r.2) !! id))
  ∧ (samples_registered (ZipFolder.db p) → samples_registered (ZipFolder.db r.2)).
Proof.
  cbv zeta. unfold ZipFolder.process_zipped_folder.
  destruct (ZipFolder.machine_id_txt z) as [| |text].
  - destruct (process_data_directory_keeps clock p z)
      as (Hres & Hfalse & Hids & Hinv).
    split; [|done]. rewrite Hres. split; [done | by intros [_ ?]].
  - cbn [fst snd]. split; [|done]. split; [done | by intros [[] _]].
  - destruct (process_data_directory_keeps clock
                {| ZipFolder.db := ZipFolder.db p;
                   ZipFolder.machine_id := Some (Agent.strip text) |} z)
      as (Hres & Hfalse & Hids & Hinv).
    split; [|done]. rewrite Hres. split; [done | by intros [_ ?]].
Qed.

Lemma offline_snapshot now db content known machine_id :
  MonitoringServer.StaticData content = Ok () →
  ZipDataProcessor.generate_machine_id content = Some machine_id →
  machine_id ≠ "" →
  snapshot_accepted machine_id content = true →
  ∃ db',
    ZipFolder.process_data now db content known = (Some machine_id, db')
    ∧ MonitoringServer.variable_collection db'
      = MonitoringServer.variable_collection db
    ∧ is_Some (MonitoringServer.machine_ids_collection db' !! machine_id).
Proof.
  intros Hvalid Hid Hne Hacc.
  destruct (StaticData_dict _ Hvalid) as (kv & os_info & -> & Hos).
  unfold ZipFolder.process_data.
  assert (Htruthy : truthy (JObj kv) = true) by (by destruct kv).
  rewrite Htruthy. cbn [negb contains mbind result_bind].
  rewrite bool_decide_eq_true_2 by (rewrite Hos; eauto).
  rewrite Hvalid, Hid. cbn [mbind result_bind].
  assert (Hnonempty : negb (truthy (JStr machine_id)) = false).
  { cbn. apply negb_false_iff, negb_true_iff. by apply String.eqb_neq. }
  rewrite Hnonempty.
  destruct (register_machine_dict now db machine_id kv os_info Hos)
    as (h & n & Hrecord & ->).
  destruct (gets_dict kv MonitoringServer.static_keys) as [fields Hfields].
  destruct (snapshot_accepted_dict _ _ _ _ _ Hrecord Hfields Hacc)
    as [Hacc1 Hacc2].
  rewrite Hacc1. cbn [negb].
  match goal with |- context [MonitoringServer.save_static_data now ?d _ _] =>
    destruct (save_static_data_dict now d machine_id kv)
      as (fields' & Hfields' & ->) end.
  rewrite Hfields in Hfields'. injection Hfields' as <-. rewrite Hacc2.
  cbn [negb]. eexists. split; [reflexivity|]. cbn.
  split; [done|]. rewrite lookup_insert_eq. eauto.
Qed.

Lemma offline_sample now db kv machine_id :
  is_Some (MonitoringServer.machine_ids_collection db !! machine_id) →
  machine_id ≠ "" →
  kv ≠ [] →
  dict_lookup "os" kv = None →
  sample_accepted (JStr machine_id) (JObj kv) = true →
  ∃ db' d,
    ZipFolder.process_data now db (JObj kv) (Some machine_id)
    = (Some machine_id, db')
    ∧ MonitoringServer.variable_collection db'
      = MonitoringServer.variable_collection db ++ [d]
    ∧ MonitoringServer.vd_machine_id d = JStr machine_id
    ∧ is_Some (MonitoringServer.machine_ids_collection db' !! machine_id).
Proof.
  intros Hreg Hne Hkv Hos Hacc.
  unfold ZipFolder.process_data.
  assert (Htruthy : truthy (JObj kv) = true) by (by destruct kv).
  rewrite Htruthy. cbn [negb contains mbind result_bind].
  rewrite bool_decide_eq_false_2 by (rewrite Hos; by intros [? ?]).
  assert (Hnonempty : negb (truthy (JStr machine_id)) = false).
  { cbn. apply negb_false_iff, negb_true_iff. by apply String.eqb_neq. }
  rewrite Hnonempty.
  unfold MonitoringServer.find_one_machine, MonitoringServer.select_machine.
  rewrite decide_True by done. cbn [mbind option_bind].
  destruct Hreg as [r Hr]. rewrite Hr.
  destruct (save_variable_data_dict now db (JStr machine_id) kv)
    as (sfields & Hsfields & ->).
  unfold sample_accepted in Hacc. rewrite Hsfields in Hacc. rewrite Hacc.
  unfold MonitoringServer.select_machine.
  rewrite decide_True by (rewrite Hr; eauto).
  cbn [negb]. eexists _, _. split; [reflexivity|]. cbn.
  split; [done|]. split; [done|]. rewrite lookup_alter_eq, Hr. cbn. eauto.
Qed.

Lemma process_files_samples clock dir i files p machine_id :
  ZipFolder.machine_id p = Some machine_id →
  machine_id ≠ "" →
  is_Some (MonitoringServer.machine_ids_collection (ZipFolder.db p) !! machine_id) →
  Forall (λ name, ∃ f kv, dir !! name = Some f
                          ∧ Agent.body f = Agent.Parsed (JObj kv)
                          ∧ kv ≠ [] ∧ dict_lookup "os" kv = None
                          ∧ sample_accepted (JStr machine_id) (JObj kv)
                            = true) files →
  let p' := ZipFolder.process_files clock dir i files p in
  ZipFolder.machine_id p' = Some machine_id
  ∧ ∃ docs,
      MonitoringServer.variable_collection (ZipFolder.db p')
      = MonitoringServer.variable_collection (ZipFolder.db p) ++ docs
      ∧ length docs = length files
      ∧ Forall (λ d, MonitoringServer.vd_machine_id d = JStr machine_id) docs.
Proof.
  intros Hid Hne Hreg Hall. cbv zeta. revert i p Hid Hreg.
  induction Hall
    as [|name files (f & kv & Hf & Hbody & Hkv & Hos & Hacc) Hall IH];
    intros i p Hid Hreg.
  { split; [done|]. exists []. by rewrite app_nil_r. }
  cbn [ZipFolder.process_files].
  destruct (offline_sample (clock i) (ZipFolder.db p) kv machine_id
              Hreg Hne Hkv Hos Hacc) as (db' & d & Hrun & Hvar & Hd & Hreg').
  assert (Hstep : ZipFolder.process_file clock dir i name p
                  = {| ZipFolder.db := db';
                       ZipFolder.machine_id := Some machine_id |}).
  { unfold ZipFolder.process_file, ZipFolder.is_valid_json_file.
    rewrite Hf, Hbody. cbn [negb]. rewrite Hid, Hrun.
    cbn [ZipFolder.no_id]. 
    assert (negb (truthy (JStr machine_id)) = false) as ->; [|done].
    cbn. apply negb_false_iff, negb_true_iff. by apply String.eqb_neq. }
  rewrite Hstep.
  destruct (IH (S i) {| ZipFolder.db := db'; ZipFolder.machine_id := Some machine_id |} eq_refl Hreg') as (Hid' & docs & Hvar' & Hlen & Hdocs).
  split; [done|]. exists (d :: docs).
  split; [|split; [cbn; lia | by constructor]].
  rewrite Hvar'. cbn [ZipFolder.db]. rewrite Hvar, <- app_assoc. done.
Qed.

(** X19. The offline bootstrap: from an archive without
    [machine_id.txt] whose [1.json.gz] is a valid snapshot and whose
    other spool files are non-empty samples, all of which the database
    takes, the snapshot is imported first and every sample is then
    stored under the id derived from it, also a sample whose name sorts
    before [1.json.gz]. *)
Theorem offline_bootstrap clock p z dir f1 content machine_id :
  ZipFolder.machine_id_txt z = ZipFolder.NoIdFile →
  ZipFolder.no_id (ZipFolder.machine_id p) = true →
  ZipFolder.data_directory z = Some dir →
  dir !! "1.json.gz" = Some f1 →
  Agent.body f1 = Agent.Parsed content →
  MonitoringServer.StaticData content = Ok () →
  ZipDataProcessor.generate_machine_id content = Some machine_id →
  machine_id ≠ "" →
  snapshot_accepted machine_id content = true →
  (∀ name f, dir !! name = Some f → name ≠ "1.json.gz" →
             Agent.endswith name ".json.gz" = true →
             ∃ kv, Agent.body f = Agent.Parsed (JObj kv)
                   ∧ kv ≠ [] ∧ dict_lookup "os" kv = None
                   ∧ sample_accepted (JStr machine_id) (JObj kv) = true) →
  let r := ZipFolder.process_zipped_folder clock p z in
  r.1 = true
  ∧ ZipFolder.machine_id r.2 = Some machine_id
  ∧ ∃ docs,
      MonitoringServer.variable_collection (ZipFolder.db r.2)
      = MonitoringServer.variable_collection (ZipFolder.db p) ++ docs
      ∧ S (length docs) = length (ZipFolder.listing dir)
      ∧ Forall (λ d, MonitoringServer.vd_machine_id d = JStr machine_id) docs.
Proof.
  intros Htxt Hnoid Hdir Hf1 Hbody Hvalid Hid Hne Hacc Hsamples. cbv zeta.
  unfold ZipFolder.process_zipped_folder, ZipFolder.process_data_directory.
  rewrite Htxt, Hdir.
  assert (Hin : "1.json.gz" ∈ ZipFolder.listing dir).
  { apply listing_elem. rewrite Hf1. split; [eauto|]. by vm_compute. }
  destruct (ZipFolder.listing dir) as [|f0 files] eqn:Hfiles;
    [by apply elem_of_nil in Hin|].
  rewrite <- Hfiles in *. rewrite Hnoid, bool_decide_eq_true_2 by done.
  cbn [andb fst snd ZipFolder.process_files].
  destruct (offline_snapshot (clock 0) (ZipFolder.db p) content
              (ZipFolder.machine_id p) machine_id Hvalid Hid Hne Hacc)
    as (db' & Hrun & Hvar & Hreg).
  assert (Hstep : ZipFolder.process_file clock dir 0 "1.json.gz" p
                  = {| ZipFolder.db := db';
                       ZipFolder.machine_id := Some machine_id |}).
  { unfold ZipFolder.process_file, ZipFolder.is_valid_json_file.
    rewrite Hf1, Hbody. cbn [negb]. rewrite Hrun.
    cbn [ZipFolder.no_id].
    assert (negb (truthy (JStr machine_id)) = false) as ->; [|done].
    cbn. apply negb_false_iff, negb_true_iff. by apply String.eqb_neq. }
  rewrite Hstep.
  destruct (process_files_samples clock dir 1
              (filter (λ f, f ≠ "1.json.gz") (ZipFolder.listing dir))
              {| ZipFolder.db := db'; ZipFolder.machine_id := Some machine_id |}
              machine_id eq_refl Hne Hreg)
    as (Hid' & docs & Hvar' & Hlen & Hdocs).
  { apply Forall_forall. intros name Hname.
    apply list_elem_of_filter in Hname as [Hne1 Hname].
    apply listing_elem in Hname as [[f Hf] Hend].
    destruct (Hsamples name f Hf Hne1 Hend) as (kv & ? & ? & ? & ?).
    by exists f, kv. }
  split; [done|]. split; [done|]. exists docs.
  split; [by rewrite Hvar', <- Hvar|]. split; [|done].
  rewrite Hlen.
  rewrite <- (head_first_Permutation "1.json.gz" (ZipFolder.listing dir)
                (listing_NoDup dir) Hin) at 2.
  done.
Qed.

End FolderProperties.

Lemma offline_import_agrees_with_server_witness :
  let offline :=
    @ZipFolder.process_data Lab.runtime (Lab.at_time 5) MonitoringServer.empty_database
      Lab.snapshot None in
  let online :=
    @MonitoringServer.process_data Lab.runtime (Lab.at_time 5)
      MonitoringServer.empty_database
      (Agent.envelope "1.json.gz" Lab.snapshot JNull "t") in
  offline.1 = Some Lab.snapshot_id
  ∧ offline.2 = online.2
  ∧ (is_Some offline.1 ↔ get online.1 "status" JNull = Ok (JStr "success")).
Proof.
  cbv zeta. split; [by vm_compute|].
  apply (@offline_import_agrees_with_server Lab.runtime (Lab.at_time 5)
           MonitoringServer.empty_database Lab.snapshot None "1.json.gz" "t");
    reflexivity.
Defined.

Lemma offline_bootstrap_witness :
  let r := @ZipFolder.process_zipped_folder Lab.runtime Lab.tick
             Lab.new_processor Lab.archive in
  ZipFolder.listing {[ "0.json.gz" := Lab.file Lab.sample;
                       "1.json.gz" := Lab.file Lab.snapshot ]}
  = ["0.json.gz"; "1.json.gz"]
  ∧ r.1 = true
  ∧ ZipFolder.machine_id r.2 = Some Lab.snapshot_id
  ∧ ∃ docs,
      MonitoringServer.variable_collection (ZipFolder.db r.2) = [] ++ docs
      ∧ S (length docs)
        = length (ZipFolder.listing
                    {[ "0.json.gz" := Lab.file Lab.sample;
                       "1.json.gz" := Lab.file Lab.snapshot ]})
      ∧ Forall (λ d, MonitoringServer.vd_machine_id d = JStr Lab.snapshot_id)
          docs.
Proof.
  split; [by vm_compute|].
  apply (@offline_bootstrap Lab.runtime Lab.tick Lab.new_processor
           Lab.archive _ (Lab.file Lab.snapshot) Lab.snapshot Lab.snapshot_id);
    try reflexivity; [done|].
  intros name f Hf Hne Hend.
  apply lookup_insert_Some in Hf as [[<- <-]|[_ Hf]].
  - eexists. split; [reflexivity|]. split; [done|]. split; reflexivity.
  - apply lookup_singleton_Some in Hf as [<- <-]. done.
Defined.

(** ** More on the worker pool *)

Lemma move_phase c from q l l' :
  MonitoringServer.move c from (Some q) l = Some l' →
  l'.*1 = l.*1
  ∧ ∀ c0, (c0, MonitoringServer.Closed) ∈ l' →
          (c0, MonitoringServer.Closed) ∈ l
          ∨ (c0 = c ∧ q = MonitoringServer.Closed).
Proof.
  intros Hmove.
  destruct (move_split _ _ _ _ _ Hmove) as (l1 & p & l2 & -> & _ & ->).
  split; [by rewrite !fmap_app|].
  intros c0 Hin. rewrite !elem_of_app, list_elem_of_singleton in Hin.
  rewrite elem_of_app, elem_of_cons.
  destruct Hin as [Hin|[[= -> <-]|Hin]]; eauto.
Qed.

Section Sockets.
Context `{Runtime}.

Lemma step_accounted e s s' :
  closed_calls_closed s →
  MonitoringServer.step e s = Some s' →
  closed_calls_closed s'
  ∧ (∀ c, accounted s c → accounted s' c)
  ∧ (∀ c, e = MonitoringServer.Accept c → accounted s' c).
Proof.
  unfold closed_calls_closed, accounted.
  intros Hclosed Hstep. destruct e as [c| |c|c msg now|c|c|c];
    cbn in Hstep.
  - injection Hstep as <-. cbn. split; [done|]. split.
    + intros c0. rewrite elem_of_app. tauto.
    + intros c0 [= <-]. left. apply elem_of_app. right. by left.
  - destruct (MonitoringServer.work_queue s) as [|c queue] eqn:Hq;
      [discriminate|].
    case_decide; [|discriminate]. injection Hstep as <-. cbn.
    split; [|split; [|done]].
    + intros c0. rewrite elem_of_app, list_elem_of_singleton.
      intros [Hin|[=]]. by apply Hclosed.
    + intros c0. rewrite fmap_app, elem_of_app, elem_of_cons. cbn.
      rewrite list_elem_of_singleton. tauto.
  - case_decide as Hover;
      destruct (MonitoringServer.move c _ _ (MonitoringServer.running s))
        as [l|] eqn:Hmove; try discriminate;
      injection Hstep as <-; cbn;
      destruct (move_phase _ _ _ _ _ Hmove) as [Hnames Hphase];
      (split; [|split; [|done]]);
      [ intros c0 Hin; destruct (Hphase c0 Hin) as [?|[_ [=]]]; eauto
      | intros c0; rewrite Hnames; tauto
      | intros c0 Hin; destruct (Hphase c0 Hin) as [?|[_ [=]]]; eauto
      | intros c0; rewrite Hnames; tauto ].
  - destruct (MonitoringServer.move c _ _ (MonitoringServer.running s));
      [|discriminate].
    destruct msg as [json_data|];
      [destruct (MonitoringServer.process_data now _ json_data)|];
      injection Hstep as <-; done.
  - destruct (MonitoringServer.move c _ _ (MonitoringServer.running s))
      as [l|] eqn:Hmove; [|discriminate].
    injection Hstep as <-. cbn.
    destruct (move_phase _ _ _ _ _ Hmove) as [Hnames Hphase].
    split; [|split; [|done]].
    + intros c0 Hin. destruct (Hphase c0 Hin) as [?|[_ [=]]]; eauto.
    + intros c0. rewrite Hnames. tauto.
  - destruct (MonitoringServer.move c _ _ (MonitoringServer.running s))
      as [l|] eqn:Hmove; [|discriminate].
    injection Hstep as <-. cbn.
    destruct (move_phase _ _ _ _ _ Hmove) as [Hnames Hphase].
    split; [|split; [|done]].
    + intros c0 Hin. rewrite elem_of_app, list_elem_of_singleton.
      destruct (Hphase c0 Hin) as [?|[-> _]]; eauto.
    + intros c0. rewrite Hnames, elem_of_app. tauto.
  - destruct (MonitoringServer.move c _ _ (MonitoringServer.running s))
      as [l|] eqn:Hmove; [|discriminate].
    injection Hstep as <-. cbn.
    destruct (move_split _ _ _ _ _ Hmove) as (l1 & p & l2 & Hl & Hp & ->).
    destruct p; try discriminate. rewrite Hl in *.
    split; [|split; [|done]].
    + intros c0 Hin. apply Hclosed. cbn in Hin.
      apply elem_of_app in Hin. apply elem_of_app.
      destruct Hin; [by left | right; by right].
    + intros c0. cbn. rewrite !fmap_app, !elem_of_app. cbn.
      rewrite elem_of_cons.
      intros [?|[[?|[->|?]]|?]]; eauto.
      right. right. apply Hclosed. apply elem_of_app. right. by left.
Qed.

Lemma run_accounted es s s' :
  closed_calls_closed s →
  MonitoringServer.run es s = Some s' →
  closed_calls_closed s'
  ∧ (∀ c, accounted s c → accounted s' c)
  ∧ (∀ c, c ∈ accepted es → accounted s' c).
Proof.
  revert s. induction es as [|e es IH]; intros s Hinv Hrun; cbn in Hrun.
  - injection Hrun as <-. split; [done|]. split; [done|].
    intros c Hc. by apply elem_of_nil in Hc.
  - destruct (MonitoringServer.step e s) as [s1|] eqn:Hstep; [|discriminate].
    cbn in Hrun.
    destruct (step_accounted e s s1 Hinv Hstep) as (Hinv1 & Hkeep1 & Hnew1).
    destruct (IH s1 Hinv1 Hrun) as (Hinv' & Hkeep & Hnew).
    split; [done|]. split; [eauto|].
    intros c Hc. unfold accepted in Hc. cbn in Hc.
    destruct e; try (by apply Hnew).
    apply elem_of_cons in Hc as [->|Hc]; [|by apply Hnew].
    apply Hkeep, Hnew1. done.
Qed.

(** X20. No socket is leaked: in every state the server can reach,
    the socket of every accepted connection is waiting in the
    executor's queue, held by a [handle_client] call in progress, or
    closed; a call that has returned has closed its socket, whether it
    served the connection or rejected it. *)
Theorem no_socket_is_leaked es db s c :
  MonitoringServer.run es (MonitoringServer.initial_pool db) = Some s →
  c ∈ accepted es →
  c ∈ MonitoringServer.work_queue s
  ∨ c ∈ (MonitoringServer.running s).*1
  ∨ c ∈ MonitoringServer.closed_sockets s.
Proof.
  intros Hrun Hc.
  destruct (run_accounted es (MonitoringServer.initial_pool db) s) as (_ & _ & Hnew);
    [|done|by apply Hnew].
  intros c0 Hin. by apply elem_of_nil in Hin.
Qed.

End Sockets.

Lemma no_socket_is_leaked_witness :
  50 ∈ MonitoringServer.work_queue Lab.crowded
  ∨ 50 ∈ (MonitoringServer.running Lab.crowded).*1
  ∨ 50 ∈ MonitoringServer.closed_sockets Lab.crowded.
Proof.
  apply (@no_socket_is_leaked Lab.runtime Lab.rush
           MonitoringServer.empty_database Lab.crowded 50).
  - by vm_compute.
  - assert (accepted Lab.rush = seq 0 51) as -> by (by vm_compute).
    apply elem_of_seq. lia.
Defined.

(** ** The collection loop before the first contact *)

(** A send cycle adds no file and changes none. *)
Lemma send_files_only_removes {W} `{Agent.World W} fuel fs0 (w : W) name f :
  Agent.data_dir (Agent.fs (Agent.send_files_to_server fuel fs0 w).1.2) !! name
  = Some f →
  Agent.data_dir fs0 !! name = Some f.
Proof.
  unfold Agent.send_files_to_server.
  destruct (Agent.pending_files fs0) as [|f0 files]; [done|].
  destruct (Agent.connect w) as [[] w1]; [|done].
  match goal with |- context [Agent.send_loop fuel ?s ?w] =>
    destruct (send_loop_effect fuel s w) as (h & _ & Hd) end.
  rewrite Hd. by destruct (acknowledged name h).
Qed.

Lemma save_initial_data_other_files {W} `{Agent.World W} a (w : W) name :
  name ≠ "1.json.gz" →
  Agent.data_dir (Agent.disk (Agent.save_initial_data a w).1) !! name
  = Agent.data_dir (Agent.disk a) !! name.
Proof.
  intros Hne.
  destruct (Agent.initial_data_saved a
            || Agent.exists_in_data_dir (Agent.disk a) "1.json.gz") eqn:Hskip.
  { by rewrite (save_initial_data_skip a w Hskip). }
  rewrite (save_initial_data_capture a w Hskip). cbn [fst].
  destruct (Agent.data_dir_writable (Agent.disk a)); [|done].
  cbn. by rewrite lookup_insert_ne.
Qed.

(** X21. Without an identity the agent spools no sample: a round of
    the collection loop run with no known id leaves, apart from
    [1.json.gz], no file in the directory that was not there before. *)
Theorem no_identity_no_sample {W} `{Agent.World W} send_fuel c (w : W) c' w' :
  truthy (Agent.known_id c) = false →
  Agent.collection_round send_fuel c w = inr (c', w') →
  ∀ name f,
    name ≠ "1.json.gz" →
    Agent.data_dir (Agent.disk (Agent.globals c')) !! name = Some f →
    Agent.data_dir (Agent.disk (Agent.globals c)) !! name = Some f.
Proof.
  intros Hid Hround name f Hne Hf.
  unfold Agent.collection_round in Hround.
  destruct (Agent.is_storage_limit_reached _); [discriminate|].
  rewrite Hid in Hround.
  set (first := if negb (Agent.initial_data_saved (Agent.globals c))
                then Agent.save_initial_data (Agent.globals c) w
                else (Agent.globals c, w)) in *.
  assert (Hfirst : Agent.data_dir (Agent.disk first.1) !! name
                   = Agent.data_dir (Agent.disk (Agent.globals c)) !! name).
  { subst first. destruct (negb _); [|done].
    by apply save_initial_data_other_files. }
  destruct first as [a1 w1]. cbn [fst] in Hfirst.
  destruct (bool_decide _).
  - pose proof (send_files_only_removes send_fuel (Agent.disk a1) w1 name f)
      as Hsend.
    destruct (Agent.send_files_to_server send_fuel (Agent.disk a1) w1)
      as [[finished cy] w2].
    destruct finished; [|discriminate].
    injection Hround as <- <-. cbn in Hf, Hsend.
    rewrite <- Hfirst. by apply Hsend.
  - injection Hround as <- <-. cbn in Hf. by rewrite <- Hfirst.
Qed.

Lemma no_identity_no_sample_witness :
  ∃ c' w',
    @Agent.collection_round _ Lab.link 5
      {| Agent.globals :=
           {| Agent.file_counter := 1; Agent.initial_data_saved := false;
              Agent.disk := Lab.disk_fresh |};
         Agent.known_id := JNull; Agent.last_send_time := 0;
         Agent.transcript := [] |} Lab.fresh_world = inr (c', w')
    ∧ ∀ name f,
        name ≠ "1.json.gz" →
        Agent.data_dir (Agent.disk (Agent.globals c')) !! name = Some f →
        Agent.data_dir Lab.disk_fresh !! name = Some f.
Proof.
  eexists _, _. split; [by vm_compute|].
  eapply (@no_identity_no_sample _ Lab.link 5
           {| Agent.globals :=
                {| Agent.file_counter := 1; Agent.initial_data_saved := false;
                   Agent.disk := Lab.disk_fresh |};
              Agent.known_id := JNull; Agent.last_send_time := 0;
              Agent.transcript := [] |} Lab.fresh_world);
    reflexivity.
Defined.
